(** * CLIST contest calendar helper: a shallow embedding of [clist_to_ics.py]

    Part I embeds the program, following the source file: Python strings and
    the [str] methods the program calls, the calendar text rules
    ([escape_ics_text], [fold_ics_line], [humanize_duration]), timestamps
    ([ensure_utc], [format_ics_datetime]), resource filter resolution,
    deduplication and sorting, payload parsing, the paginated fetch loop and
    the two entry points.  Part II states and proves the properties.

    Strings are [string]: a character is an 8-bit code whose values below 128
    are the ASCII code points.  The classification predicates ([isspace],
    [isdigit], [lower]) follow Python on that range and treat every other code
    as an ordinary symbol. *)

From Stdlib Require Import ZArith List String Ascii Bool Lia Arith DecimalString.
From Stdlib Require Import Sorted Permutation.
From Equations Require Import Equations.
Import ListNotations.

Local Open Scope string_scope.

(** * Part I: the program *)

(** ** Python [str] primitives *)

Definition LF : ascii := ascii_of_nat 10.
Definition CR : ascii := ascii_of_nat 13.
Definition CRLF : string := String CR (String LF EmptyString).
Definition backslash : ascii := ascii_of_nat 92.
Definition semicolon : ascii := ";"%char.
Definition comma : ascii := ","%char.

(** [s[:n]] *)
Fixpoint str_take (n : nat) (s : string) : string :=
  match n, s with
  | S k, String c r => String c (str_take k r)
  | _, _ => EmptyString
  end.

(** [s[n:]] *)
Fixpoint str_drop (n : nat) (s : string) : string :=
  match n, s with
  | S k, String _ r => str_drop k r
  | _, _ => s
  end.

(** [sep.join(parts)] *)
Fixpoint str_join (sep : string) (parts : list string) : string :=
  match parts with
  | [] => EmptyString
  | p :: rest =>
      match rest with
      | [] => p
      | _ :: _ => p ++ sep ++ str_join sep rest
      end
  end.

(** [s.replace(old, new)] for a pattern [old] of one character, the shape
    [escape_ics_text] uses: every occurrence is rewritten, left to right, and
    the inserted text is not scanned again. *)
Fixpoint str_replace (old : ascii) (new : string) (s : string) : string :=
  match s with
  | EmptyString => EmptyString
  | String c r =>
      if Ascii.eqb c old then new ++ str_replace old new r
      else String c (str_replace old new r)
  end.

(** Concatenation of the images of the characters of [s]. *)
Fixpoint str_flat_map (f : ascii -> string) (s : string) : string :=
  match s with
  | EmptyString => EmptyString
  | String c r => f c ++ str_flat_map f r
  end.

(** [c in s] for a one-character [c]. *)
Fixpoint str_contains (c : ascii) (s : string) : bool :=
  match s with
  | EmptyString => false
  | String d r => Ascii.eqb d c || str_contains c r
  end.

(** [str(n)] for an [int]. *)
Definition str_of_Z (n : Z) : string := NilZero.string_of_int (Z.to_int n).

(** [str.isspace] on one character: the ASCII white space, which for
    Python includes the four separators 28 to 31. *)
Definition is_space (c : ascii) : bool :=
  let n := nat_of_ascii c in
  (Nat.leb 9 n && Nat.leb n 13) || (Nat.leb 28 n && Nat.leb n 32).

(** [str.isdigit] on one character. *)
Definition is_digit (c : ascii) : bool :=
  Nat.leb 48 (nat_of_ascii c) && Nat.leb (nat_of_ascii c) 57.

Fixpoint str_lstrip (s : string) : string :=
  match s with
  | EmptyString => EmptyString
  | String c r => if is_space c then str_lstrip r else s
  end.

Fixpoint str_rstrip (s : string) : string :=
  match s with
  | EmptyString => EmptyString
  | String c r =>
      match str_rstrip r with
      | EmptyString => if is_space c then EmptyString else String c EmptyString
      | String d r' => String c (String d r')
      end
  end.

(** [s.strip()] *)
Definition str_strip (s : string) : string := str_rstrip (str_lstrip s).

(** [s.lower()] *)
Definition lower_char (c : ascii) : ascii :=
  let n := nat_of_ascii c in
  if Nat.leb 65 n && Nat.leb n 90 then ascii_of_nat (n + 32) else c.

Fixpoint str_lower (s : string) : string :=
  match s with
  | EmptyString => EmptyString
  | String c r => String (lower_char c) (str_lower r)
  end.

Fixpoint str_all (p : ascii -> bool) (s : string) : bool :=
  match s with
  | EmptyString => true
  | String c r => p c && str_all p r
  end.

(** [s.isdigit()]: at least one character, and digits only. *)
Definition str_isdigit (s : string) : bool :=
  match s with
  | EmptyString => false
  | String _ _ => str_all is_digit s
  end.

(** [s.endswith(c)] for a one-character [c]. *)
Fixpoint str_endswith (c : ascii) (s : string) : bool :=
  match s with
  | EmptyString => false
  | String d EmptyString => Ascii.eqb d c
  | String _ r => str_endswith c r
  end.

(** [s[:-1]] *)
Fixpoint str_drop_last (s : string) : string :=
  match s with
  | EmptyString => EmptyString
  | String _ EmptyString => EmptyString
  | String c r => String c (str_drop_last r)
  end.

(** [int(s)] for a string, base 10: white space around the literal is
    ignored, one sign may lead, and single underscores may separate
    digits.  [None] stands for the [ValueError]. *)
Definition digit_value (c : ascii) : Z := (Z.of_nat (nat_of_ascii c) - 48)%Z.

Fixpoint int_digits (acc : Z) (after_digit : bool) (s : string) : option Z :=
  match s with
  | EmptyString => if after_digit then Some acc else None
  | String c r =>
      if is_digit c then int_digits (acc * 10 + digit_value c)%Z true r
      else if Ascii.eqb c "_"%char && after_digit then
        match r with
        | String d _ => if is_digit d then int_digits acc false r else None
        | EmptyString => None
        end
      else None
  end.

Definition int_of_str (s : string) : option Z :=
  match str_strip s with
  | String c r =>
      if Ascii.eqb c "-"%char then option_map Z.opp (int_digits 0%Z false r)
      else if Ascii.eqb c "+"%char then int_digits 0%Z false r
      else int_digits 0%Z false (String c r)
  | EmptyString => None
  end.

(** ** Calendar text rules *)

(** [escape_ics_text]: four chained [str.replace] calls, backslash first. *)
Definition escape_ics_text (value : string) : string :=
  str_replace LF "\n"
    (str_replace comma "\,"
       (str_replace semicolon "\;"
          (str_replace backslash "\\" value))).

(** [fold_ics_line]: the [while remainder:] loop, which appends one
    continuation segment per round and shortens [remainder] by 74. *)
Equations fold_rest (remainder : string) : list string
  by wf (String.length remainder) lt :=
fold_rest EmptyString := [];
fold_rest (String c r) :=
  (" " ++ str_take 74 (String c r)) :: fold_rest (str_drop 74 (String c r)).
Next Obligation.
  change (String.length (str_drop 73 r) < S (String.length r)).
  assert (H : forall n s, String.length (str_drop n s) <= String.length s).
  { induction n as [|n IH]; intros [|d s]; simpl; auto. }
  specialize (H 73 r). lia.
Qed.

Definition fold_segments (line : string) : list string :=
  str_take 75 line :: fold_rest (str_drop 75 line).

Definition fold_ics_line (line : string) : string :=
  if Nat.leb (String.length line) 75 then line
  else str_join CRLF (fold_segments line).

(** [datetime.timedelta]: normalised so that [0 <= td_seconds < 86400] and
    [0 <= td_microseconds < 10^6]; only [td_days] carries the sign. *)
Record timedelta : Type := mk_timedelta {
  td_days : Z;
  td_seconds : Z;
  td_microseconds : Z
}.

Definition td_total_microseconds (delta : timedelta) : Z :=
  ((td_days delta * 86400 + td_seconds delta) * 1000000
   + td_microseconds delta)%Z.

(** [int(delta.total_seconds())]: the quotient by 10^6, truncated towards
    zero.  [total_seconds()] is a binary64 quotient in Python; it has the
    integer part used here for every duration below 2^34 seconds (some 540
    years), and the rounding beyond that is not modelled. *)
Definition int_total_seconds (delta : timedelta) : Z :=
  Z.quot (td_total_microseconds delta) 1000000.

Definition humanize_duration (delta : timedelta) : string :=
  let seconds := int_total_seconds delta in
  let seconds := if (seconds <? 0)%Z then 0%Z else seconds in
  let hours := (seconds / 3600)%Z in
  let rem := (seconds mod 3600)%Z in
  let minutes := (rem / 60)%Z in
  let secs := (rem mod 60)%Z in
  let parts : list string := [] in
  let parts :=
    if (hours =? 0)%Z then parts else List.app parts [str_of_Z hours ++ "h"] in
  let parts :=
    if (minutes =? 0)%Z then parts
    else List.app parts [str_of_Z minutes ++ "m"] in
  let parts :=
    match parts with
    | [] => if (secs =? 0)%Z then parts
            else List.app parts [str_of_Z secs ++ "s"]
    | _ :: _ => parts
    end in
  match str_join " " parts with
  | EmptyString => "0m"
  | String c r => String c r
  end.

(** ** Exceptions

    A Python call either returns a value or raises.  Only the exception
    classes the program can meet are listed; [ClistApiError] is the
    program's own class, and [SystemExit] is what [sys.exit(message)]
    raises. *)

Inductive exn : Type :=
| ValueError (msg : string)
| KeyError (key : string)
| TypeError
| AttributeError
| OverflowError
| ClistApiError (msg : string)
| SystemExit (msg : string).

Inductive result (A : Type) : Type :=
| Ok (a : A)
| Raise (e : exn).

Arguments Ok {A} a.
Arguments Raise {A} e.

Definition bind {A B : Type} (r : result A) (k : A -> result B) : result B :=
  match r with
  | Ok a => k a
  | Raise e => Raise e
  end.

Notation "x <- r ;; k" := (bind r (fun x => k))
  (at level 61, r at next level, right associativity).

(** [repr(s)] for a string: single quotes unless the text has a single
    quote and no double quote; the quote in use and the backslash are
    escaped, tab, line feed and carriage return are written [\t], [\n],
    [\r], and any other control character as [\xhh]. *)
Definition quote1 : ascii := ascii_of_nat 39.
Definition quote2 : ascii := ascii_of_nat 34.

Definition hex_digit (n : nat) : ascii :=
  if Nat.ltb n 10 then ascii_of_nat (48 + n) else ascii_of_nat (87 + n).

Definition repr_char (quote c : ascii) : string :=
  let n := nat_of_ascii c in
  if Ascii.eqb c quote || Ascii.eqb c backslash then
    String backslash (String c EmptyString)
  else if Nat.eqb n 9 then "\t"
  else if Nat.eqb n 10 then "\n"
  else if Nat.eqb n 13 then "\r"
  else if Nat.ltb n 32 || Nat.eqb n 127 then
    "\x" ++ String (hex_digit (Nat.div n 16))
              (String (hex_digit (Nat.modulo n 16)) EmptyString)
  else String c EmptyString.

Definition repr_str (s : string) : string :=
  let quote :=
    if str_contains quote1 s && negb (str_contains quote2 s)
    then quote2 else quote1 in
  String quote (str_flat_map (repr_char quote) s)
  ++ String quote EmptyString.

(** [int(s)] with its exception. *)
Definition py_int_str (s : string) : result Z :=
  match int_of_str s with
  | Some n => Ok n
  | None =>
      Raise (ValueError
               ("invalid literal for int() with base 10: " ++ repr_str s))
  end.

(** ** Resource filter resolution *)

Definition RESOURCE_ALIASES : list (string * string) :=
  [ ("leetcode", "leetcode.com");
    ("nowcoder", "ac.nowcoder.com");
    ("nk", "ac.nowcoder.com");
    ("lc", "leetcode.com");
    ("codeforces", "codeforces.com");
    ("cf", "codeforces.com");
    ("atcoder", "atcoder.jp");
    ("ac", "atcoder.jp");
    ("luogu", "luogu.com.cn");
    ("lg", "luogu.com.cn") ].

(** [table.get(key)] on a [dict] with string keys, kept as the list of
    its items. *)
Fixpoint dict_get {V : Type} (table : list (string * V)) (key : string)
  : option V :=
  match table with
  | [] => None
  | (k, v) :: rest => if String.eqb k key then Some v else dict_get rest key
  end.

(** The value of a filter: a host name or a numeric resource id. *)
Inductive filter_value : Type :=
| FHost (host : string)
| FId (id : Z).

(** A filter is the pair of a query key and its value. *)
Definition key_val : Type := string * filter_value.

Definition filter_value_eqb (a b : filter_value) : bool :=
  match a, b with
  | FHost x, FHost y => String.eqb x y
  | FId x, FId y => Z.eqb x y
  | _, _ => false
  end.

Definition key_val_eqb (a b : key_val) : bool :=
  String.eqb (fst a) (fst b) && filter_value_eqb (snd a) (snd b).

(** [key_val in seen] *)
Definition in_seen (kv : key_val) (seen : list key_val) : bool :=
  existsb (key_val_eqb kv) seen.

Definition unknown_resource_message (value : string) : string :=
  "Unknown resource '" ++ value
  ++ "'. Provide a known alias (leetcode/codeforces/atcoder/luogu), "
  ++ "a host like codeforces.com, or a numeric resource ID.".

(** The [if alias: ... elif ... else: raise] chain for one stripped,
    non-empty token. *)
Definition classify_token (value : string) : result key_val :=
  match dict_get RESOURCE_ALIASES (str_lower value) with
  | Some (String c r) => Ok ("resource", FHost (String c r))
  | _ =>
      if str_isdigit value then
        id <- py_int_str value ;; Ok ("resource_id", FId id)
      else if str_contains "."%char value then Ok ("resource", FHost value)
      else Raise (ClistApiError (unknown_resource_message value))
  end.

(** The [for raw in resources] loop, with its two accumulators. *)
Fixpoint resolve_loop (resources : list string)
    (resolved seen : list key_val) : result (list key_val) :=
  match resources with
  | [] => Ok resolved
  | raw :: rest =>
      let value := str_strip raw in
      match value with
      | EmptyString => resolve_loop rest resolved seen
      | String _ _ =>
          kv <- classify_token value ;;
          if in_seen kv seen then resolve_loop rest resolved seen
          else resolve_loop rest (resolved ++ [kv])%list (kv :: seen)
      end
  end.

Definition resolve_resource_filters (resources : list string)
  : result (list key_val) :=
  resolved <- resolve_loop resources [] [] ;;
  match resolved with
  | [] =>
      Raise (ClistApiError
        "No valid resources resolved. Check the provided resource filters.")
  | _ :: _ => Ok resolved
  end.

(** ** Timestamps

    [datetime.datetime] with the time zones the program meets: none (a
    naive value) or a fixed offset ([datetime.timezone]), given in
    microseconds east of UTC; [timezone.utc] is the offset 0. *)

Local Open Scope Z_scope.

Record datetime : Type := mk_datetime {
  year : Z;
  month : Z;
  day : Z;
  hour : Z;
  minute : Z;
  second : Z;
  microsecond : Z;
  tzinfo : option Z
}.

Definition utc : option Z := Some 0.

Definition replace_tzinfo (value : datetime) (tz : option Z) : datetime :=
  mk_datetime (year value) (month value) (day value) (hour value)
    (minute value) (second value) (microsecond value) tz.

(** The proleptic Gregorian day count of the [datetime] module. *)
Definition is_leap (y : Z) : bool :=
  (y mod 4 =? 0) && (negb (y mod 100 =? 0) || (y mod 400 =? 0)).

Definition days_before_year (y : Z) : Z :=
  let y := y - 1 in y * 365 + y / 4 - y / 100 + y / 400.

Definition DAYS_IN_MONTH (m : Z) : Z :=
  match m with
  | 1 => 31 | 2 => 28 | 3 => 31 | 4 => 30 | 5 => 31 | 6 => 30
  | 7 => 31 | 8 => 31 | 9 => 30 | 10 => 31 | 11 => 30 | 12 => 31
  | _ => 0
  end.

Definition DAYS_BEFORE_MONTH (m : Z) : Z :=
  match m with
  | 1 => 0 | 2 => 31 | 3 => 59 | 4 => 90 | 5 => 120 | 6 => 151
  | 7 => 181 | 8 => 212 | 9 => 243 | 10 => 273 | 11 => 304 | 12 => 334
  | _ => 0
  end.

Definition days_in_month (y m : Z) : Z :=
  if (m =? 2) && is_leap y then 29 else DAYS_IN_MONTH m.

Definition days_before_month (y m : Z) : Z :=
  DAYS_BEFORE_MONTH m + (if (2 <? m) && is_leap y then 1 else 0).

(** [date.toordinal]: 0001-01-01 is day 1. *)
Definition ymd2ord (y m d : Z) : Z :=
  days_before_year y + days_before_month y m + d.

Definition MAXORDINAL : Z := 3652059.

(** [date.fromordinal]: 400-, 100-, 4- and 1-year cycles, then the month
    estimated from the day of the year and corrected downwards. *)
Definition ord2ymd (n : Z) : Z * Z * Z :=
  let n := n - 1 in
  let n400 := n / 146097 in
  let n := n mod 146097 in
  let y := n400 * 400 + 1 in
  let n100 := n / 36524 in
  let n := n mod 36524 in
  let n4 := n / 1461 in
  let n := n mod 1461 in
  let n1 := n / 365 in
  let n := n mod 365 in
  let y := y + n100 * 100 + n4 * 4 + n1 in
  if (n1 =? 4) || (n100 =? 4) then (y - 1, 12, 31)
  else
    let leapyear := (n1 =? 3) && (negb (n4 =? 24) || (n100 =? 3)) in
    let m := Z.shiftr (n + 50) 5 in
    let preceding :=
      DAYS_BEFORE_MONTH m + (if (2 <? m) && leapyear then 1 else 0) in
    if n <? preceding then
      let m := m - 1 in
      let preceding :=
        preceding
        - (DAYS_IN_MONTH m + (if (m =? 2) && leapyear then 1 else 0)) in
      (y, m, n - preceding + 1)
    else (y, m, n - preceding + 1).

(** Microseconds from the start of day 0 to the wall-clock reading of
    [value], its time zone set aside. *)
Definition wall_microseconds (value : datetime) : Z :=
  ((ymd2ord (year value) (month value) (day value) * 86400
    + hour value * 3600 + minute value * 60 + second value) * 1000000)
  + microsecond value.

(** [value + timedelta(microseconds=delta)]: the sum is split again into
    day, second of the day and microsecond; a day outside
    [1 .. MAXORDINAL] is an [OverflowError]. *)
Definition datetime_add (value : datetime) (delta : Z) : result datetime :=
  let total := wall_microseconds value + delta in
  let days := total / 86400000000 in
  let rest := total mod 86400000000 in
  let seconds := rest / 1000000 in
  let us := rest mod 1000000 in
  let h := seconds / 3600 in
  let rem := seconds mod 3600 in
  let mi := rem / 60 in
  let s := rem mod 60 in
  if (0 <? days) && (days <=? MAXORDINAL) then
    let '(y, m, d) := ord2ymd days in
    Ok (mk_datetime y m d h mi s us (tzinfo value))
  else Raise OverflowError.

(** [value.astimezone(timezone.utc)] for an aware [value] of offset
    [offset]: the offset is subtracted and [timezone.utc] attached.  (The
    zero offset that [fromutc] then adds changes nothing.) *)
Definition astimezone_utc (value : datetime) (offset : Z) : result datetime :=
  shifted <- datetime_add value (- offset) ;;
  Ok (replace_tzinfo shifted utc).

Definition ensure_utc (value : datetime) : result datetime :=
  match tzinfo value with
  | None => Ok (replace_tzinfo value utc)
  | Some offset => astimezone_utc value offset
  end.

(** [n] as [width] decimal digits, zero-padded: the [%Y] (width 4) and
    [%m %d %H %M %S] (width 2) of [strftime]. *)
Definition digit_char (n : Z) : ascii := ascii_of_nat (48 + Z.to_nat n).

Fixpoint zfill (width : nat) (n : Z) : string :=
  match width with
  | O => EmptyString
  | S k => zfill k (n / 10) ++ String (digit_char (n mod 10)) EmptyString
  end.

(** [value.strftime("%Y%m%dT%H%M%SZ")] *)
Definition strftime_ics (value : datetime) : string :=
  zfill 4 (year value) ++ zfill 2 (month value) ++ zfill 2 (day value)
  ++ "T" ++ zfill 2 (hour value) ++ zfill 2 (minute value)
  ++ zfill 2 (second value) ++ "Z".

Definition format_ics_datetime (value : datetime) : result string :=
  normal <- ensure_utc value ;;
  Ok (strftime_ics normal).

Local Close Scope Z_scope.

(** ** Contests, deduplication and ordering *)

Record Contest : Type := mk_Contest {
  contest_id : Z;
  title : string;
  start : datetime;
  end_ : datetime;
  url : string;
  resource_id : Z;
  resource_name : string
}.

(** [by_id[key] = contest] on an insertion-ordered [dict], kept as the list
    of its items: an existing key keeps its place and takes the new value, a
    new key goes to the end. *)
Fixpoint dict_set (by_id : list (Z * Contest)) (key : Z) (contest : Contest)
  : list (Z * Contest) :=
  match by_id with
  | [] => [(key, contest)]
  | (k, c) :: rest =>
      if Z.eqb k key then (k, contest) :: rest
      else (k, c) :: dict_set rest key contest
  end.

Definition deduplicate_contests (contests : list Contest) : list Contest :=
  let by_id :=
    fold_left (fun by_id contest => dict_set by_id (contest_id contest) contest)
      contests [] in
  map snd by_id.

(** Python compares two timestamps of one time zone as the tuples of their
    fields, and tuples lexicographically.  Every [Contest] is built with
    [timezone.utc] (see [parse_iso_datetime]), so this is the order
    [list.sort] sees. *)
Definition datetime_fields (value : datetime) : list Z :=
  [year value; month value; day value; hour value; minute value;
   second value; microsecond value].

Fixpoint tuple_ltb (a b : list Z) : bool :=
  match a, b with
  | [], [] => false
  | [], _ :: _ => true
  | _ :: _, [] => false
  | x :: a', y :: b' =>
      if Z.ltb x y then true
      else if Z.ltb y x then false
      else tuple_ltb a' b'
  end.

Definition datetime_ltb (a b : datetime) : bool :=
  tuple_ltb (datetime_fields a) (datetime_fields b).

(** [deduped.sort(key=lambda contest: contest.start)]: [list.sort] is
    stable and only asks whether one key is less than another.  Each
    contest is put in front of the first one whose start is not earlier than
    its own, later contests first, which yields the stable arrangement. *)
Fixpoint insert_by_start (contest : Contest) (sorted : list Contest)
  : list Contest :=
  match sorted with
  | [] => [contest]
  | other :: rest =>
      if datetime_ltb (start other) (start contest)
      then other :: insert_by_start contest rest
      else contest :: other :: rest
  end.

Definition sort_by_start (contests : list Contest) : list Contest :=
  fold_right insert_by_start [] contests.

(** ** The Python runtime

    What the program takes from the standard library without the source
    saying how it works: floating-point numbers (a JSON document may hold
    them) and the two timestamp parsers.  [None] stands for a parser's
    [ValueError]. *)

Class PyRuntime : Type := {
  pyfloat : Type;
  (** [bool(x)] *)
  float_truth : pyfloat -> bool;
  (** [repr(x)], which is also [str(x)] *)
  float_repr : pyfloat -> string;
  (** [int(x)]: [ValueError] for a NaN, [OverflowError] for an infinity *)
  float_int : pyfloat -> result Z;
  (** [datetime.fromisoformat(text)] *)
  fromisoformat : string -> option datetime;
  (** [datetime.strptime(text, "%Y-%m-%dT%H:%M:%S")], a naive value *)
  strptime_seconds : string -> option datetime
}.

Section Program.

Context {runtime : PyRuntime}.

(** ** JSON values, as [json.loads] builds them *)

#[warnings="-register-all"]
Inductive pyval : Type :=
| PNone
| PBool (b : bool)
| PInt (n : Z)
| PFloat (x : pyfloat)
| PStr (s : string)
| PList (items : list pyval)
| PDict (items : list (string * pyval)).

(** [bool(v)] *)
Definition py_truth (v : pyval) : bool :=
  match v with
  | PNone => false
  | PBool b => b
  | PInt n => negb (Z.eqb n 0)
  | PFloat x => float_truth x
  | PStr s => match s with EmptyString => false | String _ _ => true end
  | PList items => match items with [] => false | _ :: _ => true end
  | PDict items => match items with [] => false | _ :: _ => true end
  end.

(** [a or b] *)
Definition py_or (a b : pyval) : pyval := if py_truth a then a else b.

(** [repr(v)] *)
Fixpoint py_repr (v : pyval) : string :=
  match v with
  | PNone => "None"
  | PBool b => if b then "True" else "False"
  | PInt n => str_of_Z n
  | PFloat x => float_repr x
  | PStr s => repr_str s
  | PList items => "[" ++ str_join ", " (map py_repr items) ++ "]"
  | PDict items =>
      "{" ++ str_join ", "
               (map (fun item => repr_str (fst item) ++ ": "
                                 ++ py_repr (snd item)) items)
      ++ "}"
  end.

(** [str(v)] *)
Definition py_str (v : pyval) : string :=
  match v with
  | PStr s => s
  | _ => py_repr v
  end.

(** [int(v)] *)
Definition py_int (v : pyval) : result Z :=
  match v with
  | PInt n => Ok n
  | PBool b => Ok (if b then 1 else 0)%Z
  | PFloat x => float_int x
  | PStr s => py_int_str s
  | PNone | PList _ | PDict _ => Raise TypeError
  end.

(** [d.get(key)] and [d.get(key, default)] on the items of a [dict] *)
Definition py_get (items : list (string * pyval)) (key : string) : pyval :=
  match dict_get items key with
  | Some v => v
  | None => PNone
  end.

Definition py_get_default (items : list (string * pyval)) (key : string)
    (default : pyval) : pyval :=
  match dict_get items key with
  | Some v => v
  | None => default
  end.

(** ** Parsing *)

Definition parse_iso_datetime (value : string) : result datetime :=
  let value :=
    if str_endswith "Z"%char value then str_drop_last value ++ "+00:00"
    else value in
  parsed <-
    match fromisoformat value with
    | Some parsed => Ok parsed
    | None =>
        match strptime_seconds value with
        | Some parsed => Ok (replace_tzinfo parsed utc)
        | None =>
            Raise (ValueError ("Unsupported datetime format: " ++ value))
        end
    end ;;
  let parsed :=
    match tzinfo parsed with
    | None => replace_tzinfo parsed utc
    | Some _ => parsed
    end in
  match tzinfo parsed with
  | Some offset => astimezone_utc parsed offset
  | None => Ok parsed
  end.

Definition parse_cli_datetime (value : string) : result datetime :=
  parse_iso_datetime value.

(** [parse_contest]: [payload["id"]] needs a [dict] that has the key; every
    other field is read with [get] and a chain of [or]. *)
Definition parse_contest (payload : pyval) : result Contest :=
  match payload with
  | PDict items =>
      id_field <-
        match dict_get items "id" with
        | Some v => Ok v
        | None => Raise (KeyError "id")
        end ;;
      contest_id <- py_int id_field ;;
      let title :=
        py_str (py_or (py_or (py_get items "event") (py_get items "title"))
                      (PStr ("Contest " ++ str_of_Z contest_id))) in
      start <- parse_iso_datetime (py_str (py_get items "start")) ;;
      end_ <- parse_iso_datetime (py_str (py_get items "end")) ;;
      let href :=
        py_str (py_or (py_or (py_or (py_get items "href")
                                    (py_get items "event_url"))
                             (py_get items "url"))
                      (PStr "")) in
      let resource_field := py_get items "resource" in
      let resource_info :=
        match resource_field with
        | PDict info => info
        | _ => []
        end in
      resource_id <-
        py_int (py_or (py_or (py_get items "resource_id")
                             (py_get resource_info "id"))
                      (PInt 0)) ;;
      let resource_name :=
        py_str (py_or (py_or (py_or (py_or (py_get resource_info "name")
                                           (py_get resource_info "short_name"))
                                    (py_get resource_info "host"))
                             resource_field)
                      (PStr ("Resource " ++ str_of_Z resource_id))) in
      Ok (mk_Contest contest_id (str_strip title) start end_
            (str_strip href) resource_id (str_strip resource_name))
  | _ => Raise TypeError
  end.

(** ** Query parameters *)

(** [s.replace(old, new)] for a non-empty [old] of any length: [skip]
    counts the characters of a match still to be passed over. *)
Fixpoint str_replace_from (skip : nat) (old new s : string) : string :=
  match s with
  | EmptyString => EmptyString
  | String c r =>
      match skip with
      | S k => str_replace_from k old new r
      | O =>
          if String.prefix old s
          then new ++ str_replace_from (String.length old - 1) old new r
          else String c (str_replace_from 0 old new r)
      end
  end.

Definition str_replace_sub (old new s : string) : string :=
  str_replace_from 0 old new s.

(** The UTC offset as [isoformat] writes it. *)
Definition format_offset (tz : option Z) : string :=
  match tz with
  | None => EmptyString
  | Some offset =>
      let sign := if (offset <? 0)%Z then "-" else "+" in
      let a := Z.abs offset in
      let hh := (a / 3600000000)%Z in
      let mm := ((a mod 3600000000) / 60000000)%Z in
      let ss := ((a mod 60000000) / 1000000)%Z in
      let us := (a mod 1000000)%Z in
      sign ++ zfill 2 hh ++ ":" ++ zfill 2 mm
      ++ (if (ss =? 0)%Z && (us =? 0)%Z then EmptyString
          else ":" ++ zfill 2 ss
               ++ (if (us =? 0)%Z then EmptyString else "." ++ zfill 6 us))
  end.

(** [value.isoformat()] *)
Definition isoformat (value : datetime) : string :=
  zfill 4 (year value) ++ "-" ++ zfill 2 (month value) ++ "-"
  ++ zfill 2 (day value) ++ "T" ++ zfill 2 (hour value) ++ ":"
  ++ zfill 2 (minute value) ++ ":" ++ zfill 2 (second value)
  ++ (if (microsecond value =? 0)%Z then EmptyString
      else "." ++ zfill 6 (microsecond value))
  ++ format_offset (tzinfo value).

Definition to_api_time (value : datetime) : result string :=
  normal <- ensure_utc value ;;
  Ok (str_replace_sub "+00:00" "Z" (isoformat normal)).

Definition PAGE_SIZE : Z := 100.

(** The [params] dictionary of one request. *)
Record params : Type := mk_params {
  p_filter : key_val;
  p_order_by : string;
  p_offset : Z;
  p_limit : Z;
  p_start_gte : option string;
  p_start_lte : option string;
  p_end_gte : option string
}.

(** ** The world outside the program

    [api_get] is taken as the boundary: how it encodes the URL, talks HTTP
    and decodes JSON is not modelled.  The environment answers the n-th
    call, given its parameters, with a decoded document or an exception,
    and the n-th reading of the clock with a UTC timestamp. *)
Record environment : Type := mk_environment {
  env_api : nat -> params -> result pyval;
  env_now : nat -> datetime;
  env_environ : string -> option string;
  env_script_dir : string
}.

(** What a run does that can be observed. *)
Inductive event : Type :=
| EvRequest (p : params)
| EvStderr (line : string)
| EvStdout (line : string)
| EvGenerate (contests : list Contest)
| EvWrite (path text : string).

Record world : Type := mk_world {
  calls : nat;
  clock_reads : nat;
  trace : list event
}.

Definition init_world : world := mk_world 0 0 [].

(** Computations that read the environment, record events and may raise;
    [None] is a loop that ran out of fuel. *)
Definition M (A : Type) : Type := world -> option (result A * world).

Definition ret {A : Type} (a : A) : M A := fun w => Some (Ok a, w).

Definition raise {A : Type} (e : exn) : M A := fun w => Some (Raise e, w).

Definition lift {A : Type} (r : result A) : M A := fun w => Some (r, w).

Definition out_of_fuel {A : Type} : M A := fun _ => None.

Definition mbind {A B : Type} (m : M A) (k : A -> M B) : M B :=
  fun w =>
    match m w with
    | None => None
    | Some (Raise e, w') => Some (Raise e, w')
    | Some (Ok a, w') => k a w'
    end.

Definition emit (e : event) : M unit :=
  fun w => Some (Ok tt, mk_world (calls w) (clock_reads w) (trace w ++ [e])%list).

Definition api_get (env : environment) (p : params) : M pyval :=
  fun w =>
    Some (env_api env (calls w) p,
          mk_world (S (calls w)) (clock_reads w) (trace w ++ [EvRequest p])%list).

(** [dt.datetime.now(dt.timezone.utc)] *)
Definition now_utc (env : environment) : M datetime :=
  fun w =>
    Some (Ok (replace_tzinfo (env_now env (clock_reads w)) utc),
          mk_world (calls w) (S (clock_reads w)) (trace w)).

End Program.

Notation "x <-- m ;; k" := (mbind m (fun x => k))
  (at level 61, m at next level, right associativity).

Section Fetch.

Context {runtime : PyRuntime}.

(** ** The paginated fetch *)

(** [for payload in objects] over the value found under [objects]. *)
Definition py_iter (v : pyval) : result (list pyval) :=
  match v with
  | PList items => Ok items
  | PDict items => Ok (map (fun item => PStr (fst item)) items)
  | PStr s =>
      Ok (map (fun c => PStr (String c EmptyString)) (list_ascii_of_string s))
  | _ => Raise TypeError
  end.

(** [data.get("objects", [])] *)
Definition response_objects (data : pyval) : result pyval :=
  match data with
  | PDict items => Ok (py_get_default items "objects" (PList []))
  | _ => Raise AttributeError
  end.

(** [data.get("meta", {}).get("next")] *)
Definition response_next (data : pyval) : result pyval :=
  match data with
  | PDict items =>
      match py_get_default items "meta" (PDict []) with
      | PDict meta => Ok (py_get meta "next")
      | _ => Raise AttributeError
      end
  | _ => Raise AttributeError
  end.

(** [per_resource_limit and len(fetched) >= per_resource_limit] *)
Definition cap_reached (per_resource_limit : Z) (fetched : list Contest)
  : bool :=
  negb (per_resource_limit =? 0)%Z
  && (per_resource_limit <=? Z.of_nat (List.length fetched))%Z.

(** The [for payload in objects] loop.  The flag of the result says
    whether the loop ended by [return fetched]. *)
Fixpoint parse_page (per_resource_limit : Z) (payloads : list pyval)
    (fetched : list Contest) : M (bool * list Contest) :=
  match payloads with
  | [] => ret (false, fetched)
  | payload :: rest =>
      match parse_contest payload with
      | Raise (ValueError msg) =>
          _ <-- emit (EvStderr ("Skipping contest due to parse error: " ++ msg)) ;;
          parse_page per_resource_limit rest fetched
      | Raise e => raise e
      | Ok contest =>
          let fetched := (fetched ++ [contest])%list in
          if cap_reached per_resource_limit fetched then ret (true, fetched)
          else parse_page per_resource_limit rest fetched
      end
  end.

(** How one round of [while True] ends. *)
Inductive round_end : Type :=
| Finished (fetched : list Contest)
| Again (fetched : list Contest) (offset : Z).

Definition optional_api_time (value : option datetime)
  : result (option string) :=
  match value with
  | Some t => text <- to_api_time t ;; Ok (Some text)
  | None => Ok None
  end.

Definition fetch_round (env : environment) (filter : key_val)
    (starts_after ends_before : option datetime) (per_resource_limit : Z)
    (include_ended : bool) (fetched : list Contest) (offset : Z)
  : M round_end :=
  let remaining :=
    if (per_resource_limit =? 0)%Z then PAGE_SIZE
    else (per_resource_limit - Z.of_nat (List.length fetched))%Z in
  if negb (per_resource_limit =? 0)%Z && (remaining <=? 0)%Z
  then ret (Finished fetched)
  else
    let limit :=
      if (per_resource_limit =? 0)%Z then PAGE_SIZE
      else Z.min PAGE_SIZE remaining in
    start_gte <-- lift (optional_api_time starts_after) ;;
    start_lte <-- lift (optional_api_time ends_before) ;;
    end_gte <--
      (if include_ended then ret None
       else (t <-- now_utc env ;;
             text <-- lift (to_api_time t) ;;
             ret (Some text))) ;;
    data <-- api_get env
               (mk_params filter "start" offset limit
                  start_gte start_lte end_gte) ;;
    objects <-- lift (response_objects data) ;;
    if negb (py_truth objects) then ret (Finished fetched)
    else
      payloads <-- lift (py_iter objects) ;;
      page <-- parse_page per_resource_limit payloads fetched ;;
      if fst page then ret (Finished (snd page))
      else
        let offset := (offset + Z.of_nat (List.length payloads))%Z in
        next <-- lift (response_next data) ;;
        if negb (py_truth next) then ret (Finished (snd page))
        else ret (Again (snd page) offset).

(** The [while True] loop; [fuel] bounds the number of rounds. *)
Fixpoint fetch_loop (fuel : nat) (env : environment) (filter : key_val)
    (starts_after ends_before : option datetime) (per_resource_limit : Z)
    (include_ended : bool) (fetched : list Contest) (offset : Z)
  : M (list Contest) :=
  match fuel with
  | O => out_of_fuel
  | S fuel' =>
      round <-- fetch_round env filter starts_after ends_before
                  per_resource_limit include_ended fetched offset ;;
      match round with
      | Finished fetched => ret fetched
      | Again fetched offset =>
          fetch_loop fuel' env filter starts_after ends_before
            per_resource_limit include_ended fetched offset
      end
  end.

Definition fetch_contests_for_resource (fuel : nat) (env : environment)
    (filter : key_val) (starts_after ends_before : option datetime)
    (per_resource_limit : Z) (include_ended : bool) : M (list Contest) :=
  fetch_loop fuel env filter starts_after ends_before per_resource_limit
    include_ended [] 0%Z.

Fixpoint fetch_filters (fuel : nat) (env : environment)
    (resource_filters : list key_val)
    (starts_after ends_before : option datetime) (per_resource_limit : Z)
    (include_ended : bool) (contests : list Contest) : M (list Contest) :=
  match resource_filters with
  | [] => ret contests
  | filter :: rest =>
      fetched <-- fetch_contests_for_resource fuel env filter starts_after
                    ends_before per_resource_limit include_ended ;;
      fetch_filters fuel env rest starts_after ends_before
        per_resource_limit include_ended (contests ++ fetched)%list
  end.

Definition fetch_contests_for_resources (fuel : nat) (env : environment)
    (resource_filters : list key_val)
    (starts_after ends_before : option datetime) (per_resource_limit : Z)
    (include_ended : bool) : M (list Contest) :=
  fetch_filters fuel env resource_filters starts_after ends_before
    per_resource_limit include_ended [].

(** ** Calendar generation *)

Definition timedelta_of_microseconds (us : Z) : timedelta :=
  mk_timedelta (us / 86400000000)%Z ((us mod 86400000000) / 1000000)%Z
    (us mod 1000000)%Z.

Definition utcoffset (value : datetime) : Z :=
  match tzinfo value with
  | Some offset => offset
  | None => 0%Z
  end.

(** [a - b] for two aware timestamps. *)
Definition datetime_sub (a b : datetime) : timedelta :=
  timedelta_of_microseconds
    ((wall_microseconds a - utcoffset a)
     - (wall_microseconds b - utcoffset b))%Z.

Definition duration (contest : Contest) : timedelta :=
  datetime_sub (end_ contest) (start contest).

Definition summary (contest : Contest) : string :=
  resource_name contest ++ ": " ++ title contest.

Definition description (contest : Contest) : string :=
  let lines :=
    [ "Title: " ++ title contest;
      "Platform: " ++ resource_name contest;
      "Duration: " ++ humanize_duration (duration contest) ] in
  let lines :=
    match url contest with
    | EmptyString => lines
    | String _ _ => List.app lines ["URL: " ++ url contest]
    end in
  str_join (String LF EmptyString) lines.

(** The lines of one [VEVENT] block. *)
Definition event_lines (stamp : datetime) (contest : Contest)
  : result (list string) :=
  dtstamp <- format_ics_datetime stamp ;;
  dtstart <- format_ics_datetime (start contest) ;;
  dtend <- format_ics_datetime (end_ contest) ;;
  let head :=
    [ "BEGIN:VEVENT";
      fold_ics_line ("UID:" ++ str_of_Z (contest_id contest) ++ "@clist.by");
      fold_ics_line ("DTSTAMP:" ++ dtstamp);
      fold_ics_line ("DTSTART:" ++ dtstart);
      fold_ics_line ("DTEND:" ++ dtend);
      fold_ics_line ("SUMMARY:" ++ escape_ics_text (summary contest));
      fold_ics_line
        ("DESCRIPTION:" ++ escape_ics_text (description contest)) ] in
  let link :=
    match url contest with
    | EmptyString => []
    | String _ _ => [fold_ics_line ("URL:" ++ escape_ics_text (url contest))]
    end in
  let tail :=
    [ fold_ics_line
        ("CATEGORIES:" ++ escape_ics_text (resource_name contest));
      "END:VEVENT" ] in
  Ok (head ++ link ++ tail)%list.

Fixpoint all_event_lines (stamp : datetime) (contests : list Contest)
  : result (list string) :=
  match contests with
  | [] => Ok []
  | contest :: rest =>
      block <- event_lines stamp contest ;;
      blocks <- all_event_lines stamp rest ;;
      Ok (block ++ blocks)%list
  end.

Definition generate_ics (env : environment) (contests : list Contest)
    (calendar_name product_id : string) : M string :=
  _ <-- emit (EvGenerate contests) ;;
  stamp <-- now_utc env ;;
  let lines :=
    [ "BEGIN:VCALENDAR";
      fold_ics_line ("PRODID:" ++ product_id);
      "VERSION:2.0";
      "CALSCALE:GREGORIAN";
      "METHOD:PUBLISH" ] in
  let lines :=
    match calendar_name with
    | EmptyString => lines
    | String _ _ =>
        List.app lines
          [fold_ics_line ("X-WR-CALNAME:" ++ escape_ics_text calendar_name)]
    end in
  blocks <-- lift (all_event_lines stamp contests) ;;
  ret (str_join CRLF (lines ++ blocks ++ ["END:VCALENDAR"])%list ++ CRLF).

(** ** The command-line entry point, [clist_to_ics.main] *)

(** The namespace [argparse] hands over. *)
Record cli_args : Type := mk_cli_args {
  arg_username : option string;
  arg_api_key : option string;
  arg_resources : list string;
  arg_starts_after : option string;
  arg_ends_before : option string;
  arg_include_ended : bool;
  arg_max_contests : Z;
  arg_per_resource_limit : Z;
  arg_calendar_name : string;
  arg_product_id : string;
  arg_output : string
}.

(** [a or b] and [not a] on optional strings. *)
Definition str_truth (a : option string) : bool :=
  match a with
  | Some (String _ _) => true
  | _ => false
  end.

Definition opt_or (a b : option string) : option string :=
  if str_truth a then a else b.

(** [sys.exit(message)]: the message goes to standard error and the
    process ends with status 1. *)
Definition sys_exit {A : Type} (message : string) : M A :=
  _ <-- emit (EvStderr message) ;; raise (SystemExit message).

(** [items[:stop]] *)
Definition slice_to {A : Type} (items : list A) (stop : Z) : list A :=
  if (stop <? 0)%Z
  then firstn (List.length items - Z.to_nat (- stop)) items
  else firstn (Z.to_nat stop) items.

Definition optional_cli_datetime (text : option string)
  : result (option datetime) :=
  match text with
  | Some (String c r) =>
      value <- parse_cli_datetime (String c r) ;; Ok (Some value)
  | _ => Ok None
  end.

(** The part of [main] after the fetch, from [if not contests] on. *)
Definition main_after_fetch (env : environment) (args : cli_args)
    (contests : list Contest) : M unit :=
  match contests with
  | [] => sys_exit "No contests retrieved. Adjust filters or timeframe."
  | _ :: _ =>
      let deduped := sort_by_start (deduplicate_contests contests) in
      let deduped :=
        if negb (arg_max_contests args =? 0)%Z
           && (arg_max_contests args <? Z.of_nat (List.length deduped))%Z
        then slice_to deduped (arg_max_contests args)
        else deduped in
      calendar_text <--
        generate_ics env deduped (arg_calendar_name args)
          (arg_product_id args) ;;
      _ <-- emit (EvWrite (arg_output args) calendar_text) ;;
      emit (EvStdout ("Wrote " ++ str_of_Z (Z.of_nat (List.length deduped))
                      ++ " contest(s) to " ++ arg_output args))
  end.

Definition main (fuel : nat) (env : environment) (args : cli_args) : M unit :=
  let username := opt_or (arg_username args)
                         (env_environ env "CLIST_API_USERNAME") in
  let api_key := opt_or (arg_api_key args)
                        (env_environ env "CLIST_API_KEY") in
  if negb (str_truth username) || negb (str_truth api_key) then
    sys_exit ("CLIST credentials are required. Provide --username/--api-key "
              ++ "or set CLIST_API_USERNAME/CLIST_API_KEY.")
  else
    resource_filters <--
      match resolve_resource_filters (arg_resources args) with
      | Raise (ClistApiError msg) => sys_exit msg
      | other => lift other
      end ;;
    starts_after <-- lift (optional_cli_datetime (arg_starts_after args)) ;;
    ends_before <-- lift (optional_cli_datetime (arg_ends_before args)) ;;
    starts_after <--
      match starts_after with
      | None =>
          if arg_include_ended args then ret None
          else (t <-- now_utc env ;; ret (Some t))
      | Some t => ret (Some t)
      end ;;
    contests <--
      fetch_contests_for_resources fuel env resource_filters starts_after
        ends_before (arg_per_resource_limit args) (arg_include_ended args) ;;
    main_after_fetch env args contests.

(** ** The scheduled entry point, [clist_build.main] *)

Definition DEFAULT_RESOURCES : list string :=
  ["leetcode"; "codeforces"; "atcoder"; "luogu"; "nowcoder"].

Definition PER_RESOURCE_LIMIT : Z := 50.
Definition CALENDAR_NAME : string := "CLIST Contests".
Definition PRODUCT_ID : string := "-//CLIST Import//EN".

(** [Path(__file__).resolve().parent / "contests.ics"] *)
Definition OUTPUT_PATH (env : environment) : string :=
  env_script_dir env ++ "/contests.ics".

Definition require_env (env : environment) (name : string) : M string :=
  match env_environ env name with
  | Some (String c r) => ret (String c r)
  | _ => sys_exit ("Environment variable " ++ name ++ " is required")
  end.

(** The part of [clist_build.main] after the fetch. *)
Definition build_after_fetch (env : environment) (contests : list Contest)
  : M unit :=
  match contests with
  | [] => emit (EvStdout "No contests found in the next three days.")
  | _ :: _ =>
      let deduped := sort_by_start (deduplicate_contests contests) in
      calendar_text <-- generate_ics env deduped CALENDAR_NAME PRODUCT_ID ;;
      _ <-- emit (EvWrite (OUTPUT_PATH env) calendar_text) ;;
      emit (EvStdout ("Wrote " ++ str_of_Z (Z.of_nat (List.length deduped))
                      ++ " contest(s) to " ++ OUTPUT_PATH env))
  end.

Definition build_main (fuel : nat) (env : environment) : M unit :=
  username <-- require_env env "CLIST_API_USERNAME" ;;
  api_key <-- require_env env "CLIST_API_KEY" ;;
  now <-- now_utc env ;;
  ends_before <-- lift (datetime_add now (3 * 86400000000)%Z) ;;
  resource_filters <-- lift (resolve_resource_filters DEFAULT_RESOURCES) ;;
  contests <--
    fetch_contests_for_resources fuel env resource_filters (Some now)
      (Some ends_before) PER_RESOURCE_LIMIT false ;;
  build_after_fetch env contests.


End Fetch.



(** ** Reference notions used by the statements of Part II *)

(** What one character of the input becomes under [escape_ics_text]. *)
Definition escape_char (c : ascii) : string :=
  if Ascii.eqb c backslash then "\\"
  else if Ascii.eqb c semicolon then "\;"
  else if Ascii.eqb c comma then "\,"
  else if Ascii.eqb c LF then "\n"
  else String c EmptyString.

(** A reader of escaped text: a backslash and the character after it form one
    escape pair; any other character stands for itself.  [no_unescaped s]
    holds when no character standing for itself is a semicolon, a comma or a
    line feed, and no backslash is left without its partner. *)
Fixpoint no_unescaped (s : string) : bool :=
  match s with
  | EmptyString => true
  | String c r =>
      if Ascii.eqb c backslash then
        match r with
        | EmptyString => false
        | String _ r' => no_unescaped r'
        end
      else negb (Ascii.eqb c semicolon || Ascii.eqb c comma || Ascii.eqb c LF)
           && no_unescaped r
  end.

(** The inverse reading: drop the escaping backslash and read [\n] as a line
    feed. *)
Fixpoint unescape_ics_text (s : string) : string :=
  match s with
  | EmptyString => EmptyString
  | String c r =>
      if Ascii.eqb c backslash then
        match r with
        | EmptyString => EmptyString
        | String d r' =>
            String (if Ascii.eqb d "n"%char then LF else d)
                   (unescape_ics_text r')
        end
      else String c (unescape_ics_text r)
  end.

(** Unfolding a folded line, segment by segment: a continuation segment
    loses its single leading space, and the segments are put back together
    with nothing between them. *)
Definition strip_continuation (segment : string) : string :=
  match segment with
  | String c r => if Ascii.eqb c " "%char then r else segment
  | EmptyString => segment
  end.

Definition str_concat (parts : list string) : string :=
  fold_right append EmptyString parts.

Definition unfold_segments (segments : list string) : string :=
  match segments with
  | [] => EmptyString
  | first :: continuations =>
      first ++ str_concat (map strip_continuation continuations)
  end.

(** Unfolding on the folded text itself, by position: after the first 75
    characters every block is a line terminator and a space (3 characters)
    followed by at most 74 characters of the original line. *)
Equations unfold_rest (folded : string) : string
  by wf (String.length folded) lt :=
unfold_rest EmptyString := EmptyString;
unfold_rest (String c r) :=
  str_take 74 (str_drop 3 (String c r))
  ++ unfold_rest (str_drop 77 (String c r)).
Next Obligation.
  change (String.length (str_drop 76 r) < S (String.length r)).
  assert (H : forall n s, String.length (str_drop n s) <= String.length s).
  { induction n as [|n IH]; intros [|d s]; simpl; auto. }
  specialize (H 76 r). lia.
Qed.

Definition unfold_ics_line (folded : string) : string :=
  str_take 75 folded ++ unfold_rest (str_drop 75 folded).

(** Well-formed timestamps: what a [datetime] object can hold. *)
Definition valid_date (y m d : Z) : bool :=
  ((1 <=? y) && (y <=? 9999) && (1 <=? m) && (m <=? 12)
   && (1 <=? d) && (d <=? days_in_month y m))%Z.

Definition valid_time (h mi s : Z) : bool :=
  ((0 <=? h) && (h <? 24) && (0 <=? mi) && (mi <? 60)
   && (0 <=? s) && (s <? 60))%Z.

Definition valid_datetime (value : datetime) : bool :=
  valid_date (year value) (month value) (day value)
  && valid_time (hour value) (minute value) (second value)
  && ((0 <=? microsecond value) && (microsecond value <? 1000000))%Z
  && match tzinfo value with
     | None => true
     | Some offset =>
         ((-86400000000 <? offset) && (offset <? 86400000000))%Z
     end.

(** The instant a timestamp denotes, in microseconds of UTC since the
    start of day 0; a naive value is read as UTC, as [ensure_utc] does. *)
Definition utc_microseconds (value : datetime) : Z :=
  (wall_microseconds value
   - match tzinfo value with Some offset => offset | None => 0 end)%Z.

(** Whole seconds of that instant, and of a civil date and time. *)
Definition utc_seconds (value : datetime) : Z :=
  (utc_microseconds value / 1000000)%Z.

Definition civil_seconds (y m d h mi s : Z) : Z :=
  (ymd2ord y m d * 86400 + h * 3600 + mi * 60 + s)%Z.

(** The instant falls within the years 1 to 9999 of UTC. *)
Definition utc_representable (value : datetime) : bool :=
  ((86400 <=? utc_seconds value)
   && (utc_seconds value <? (MAXORDINAL + 1) * 86400))%Z.



(** Reading a rendered timestamp back: the number a run of decimal
    digits writes, and the six fields of [YYYYMMDDTHHMMSSZ]. *)
Fixpoint decimal_value_from (acc : Z) (s : string) : Z :=
  match s with
  | EmptyString => acc
  | String c r =>
      decimal_value_from (acc * 10 + (Z.of_nat (nat_of_ascii c) - 48))%Z r
  end.

Definition decimal_value (s : string) : Z := decimal_value_from 0%Z s.


(** Resource filter resolution as the specification words it: classify
    every non-blank token in order, stopping at the first that cannot be
    resolved; keep the first occurrence of every filter; fail when none is
    left. *)
Fixpoint classify_all (tokens : list string) : result (list key_val) :=
  match tokens with
  | [] => Ok []
  | raw :: rest =>
      match str_strip raw with
      | EmptyString => classify_all rest
      | String c r =>
          kv <- classify_token (String c r) ;;
          filters <- classify_all rest ;;
          Ok (kv :: filters)
      end
  end.

Fixpoint dedup_first (filters : list key_val) : list key_val :=
  match filters with
  | [] => []
  | kv :: rest =>
      kv :: filter (fun other => negb (key_val_eqb kv other)) (dedup_first rest)
  end.

Definition resolve_spec (tokens : list string) : result (list key_val) :=
  filters <- classify_all tokens ;;
  match dedup_first filters with
  | [] =>
      Raise (ClistApiError
        "No valid resources resolved. Check the provided resource filters.")
  | kv :: rest => Ok (kv :: rest)
  end.



(** [a] does not start later than [b]. *)
Definition start_le (a b : Contest) : Prop :=
  datetime_ltb (start b) (start a) = false.


(** [key in keys] *)
Definition mem_id (key : Z) (keys : list Z) : bool := existsb (Z.eqb key) keys.

(** One round of the loop of [deduplicate_contests]. *)
Definition dedup_step (by_id : list (Z * Contest)) (contest : Contest)
  : list (Z * Contest) :=
  dict_set by_id (contest_id contest) contest.

(** Every item of the mapping is filed under its own id, and no key occurs
    twice. *)
Definition dict_ok (by_id : list (Z * Contest)) : Prop :=
  NoDup (map fst by_id)
  /\ Forall (fun item => contest_id (snd item) = fst item) by_id.

(** ** Pagination, as the specification describes it *)

Section PaginationSpec.

Context {runtime : PyRuntime}.

(** The requests of a trace, in the order they were issued. *)
Fixpoint requests_of (events : list event) : list params :=
  match events with
  | [] => []
  | EvRequest p :: rest => p :: requests_of rest
  | _ :: rest => requests_of rest
  end.


(** The contests of a page: a payload that fails with [ValueError] is left
    out, any other failure is the failure of the page. *)
Fixpoint page_contests (payloads : list pyval) : result (list Contest) :=
  match payloads with
  | [] => Ok []
  | payload :: rest =>
      match parse_contest payload with
      | Ok contest => cs <- page_contests rest ;; Ok (contest :: cs)
      | Raise (ValueError _) => page_contests rest
      | Raise e => Raise e
      end
  end.

(** The [limit] parameter of a request made with [count] contests in
    hand. *)
Definition page_limit (per_resource_limit : Z) (count : nat) : Z :=
  if (per_resource_limit =? 0)%Z then PAGE_SIZE
  else Z.min PAGE_SIZE (per_resource_limit - Z.of_nat count)%Z.

(** There is room for more: no cap, or fewer contests than the cap. *)
Definition has_room (per_resource_limit : Z) (count : nat) : Prop :=
  per_resource_limit = 0%Z \/ (Z.of_nat count < per_resource_limit)%Z.

(** A request made with the call number [n], the offset [offset] and the
    contests [acc] in hand: there is room for more, the request carries the
    filter, the ordering, the offset and the page limit, and the API
    answers it with the document [data], which holds [objects]. *)
Definition Requested (env : environment) (filter : key_val) (cap : Z)
    (n : nat) (offset : Z) (acc : list Contest) (p : params)
    (data objects : pyval) : Prop :=
  has_room cap (List.length acc)
  /\ p_filter p = filter /\ p_order_by p = "start"
  /\ p_offset p = offset /\ p_limit p = page_limit cap (List.length acc)
  /\ env_api env n p = Ok data
  /\ response_objects data = Ok objects.

(** [Round env filter cap n offset acc requests ending]: one round of
    pagination issues [requests] (none or one) and ends as [ending].  One
    constructor for each way a round can go. *)
Inductive Round (env : environment) (filter : key_val) (cap : Z)
    (n : nat) (offset : Z) (acc : list Contest)
  : list params -> round_end -> Prop :=
| Rd_capped :
    (* the cap is met before any request *)
    cap <> 0%Z -> (cap <= Z.of_nat (List.length acc))%Z ->
    Round env filter cap n offset acc [] (Finished acc)
| Rd_empty (p : params) (data objects : pyval) :
    (* the API returns an empty page *)
    Requested env filter cap n offset acc p data objects ->
    py_truth objects = false ->
    Round env filter cap n offset acc [p] (Finished acc)
| Rd_cap_hit (p : params) (data objects : pyval)
      (before unread : list pyval) (hit : pyval)
      (cs : list Contest) (c : Contest) :
    (* the payload [hit] completes the cap: the payloads after it are not
       read, and the function returns *)
    Requested env filter cap n offset acc p data objects ->
    py_truth objects = true ->
    py_iter objects = Ok (before ++ hit :: unread)%list ->
    page_contests before = Ok cs -> parse_contest hit = Ok c ->
    Z.of_nat (List.length (acc ++ cs ++ [c])%list) = cap ->
    Round env filter cap n offset acc [p] (Finished (acc ++ cs ++ [c])%list)
| Rd_last (p : params) (data objects next : pyval)
      (payloads : list pyval) (cs : list Contest) :
    (* the API signals that no further page is available *)
    Requested env filter cap n offset acc p data objects ->
    py_truth objects = true ->
    py_iter objects = Ok payloads -> page_contests payloads = Ok cs ->
    has_room cap (List.length (acc ++ cs)%list) ->
    response_next data = Ok next -> py_truth next = false ->
    Round env filter cap n offset acc [p] (Finished (acc ++ cs)%list)
| Rd_more (p : params) (data objects next : pyval)
      (payloads : list pyval) (cs : list Contest) :
    (* another round follows, the offset advanced by the number of objects
       received *)
    Requested env filter cap n offset acc p data objects ->
    py_truth objects = true ->
    py_iter objects = Ok payloads -> page_contests payloads = Ok cs ->
    has_room cap (List.length (acc ++ cs)%list) ->
    response_next data = Ok next -> py_truth next = true ->
    Round env filter cap n offset acc [p]
      (Again (acc ++ cs)%list (offset + Z.of_nat (List.length payloads))%Z).

(** [Paginate env filter cap n offset acc requests result]: rounds follow
    one another, each with the next call number, until one finishes. *)
Inductive Paginate (env : environment) (filter : key_val) (cap : Z)
  : nat -> Z -> list Contest -> list params -> list Contest -> Prop :=
| Pg_finish (n : nat) (offset : Z) (acc : list Contest)
      (requests : list params) (result : list Contest) :
    Round env filter cap n offset acc requests (Finished result) ->
    Paginate env filter cap n offset acc requests result
| Pg_again (n : nat) (offset offset' : Z) (acc acc' : list Contest)
      (p : params) (requests : list params) (result : list Contest) :
    Round env filter cap n offset acc [p] (Again acc' offset') ->
    Paginate env filter cap (S n) offset' acc' requests result ->
    Paginate env filter cap n offset acc (p :: requests) result.




End PaginationSpec.

(** ** A small runtime for worked examples

    No floating-point numbers, and a timestamp parser for the one shape
    [YYYY-MM-DDTHH:MM:SS] with an optional [+HH:MM] or [-HH:MM] offset, on
    which it agrees with [datetime.fromisoformat]. *)

Definition digits_at (from len : nat) (s : string) : option Z :=
  let part := str_take len (str_drop from s) in
  if Nat.eqb (String.length part) len && str_all is_digit part
  then Some (decimal_value part)
  else None.

Definition char_is (i : nat) (c : ascii) (s : string) : bool :=
  match String.get i s with
  | Some d => Ascii.eqb d c
  | None => false
  end.

Definition sample_naive (s : string) : option datetime :=
  match digits_at 0 4 s, digits_at 5 2 s, digits_at 8 2 s,
        digits_at 11 2 s, digits_at 14 2 s, digits_at 17 2 s with
  | Some y, Some m, Some d, Some h, Some mi, Some sec =>
      let value := mk_datetime y m d h mi sec 0 None in
      if Nat.eqb (String.length s) 19
         && char_is 4 "-"%char s && char_is 7 "-"%char s
         && char_is 10 "T"%char s && char_is 13 ":"%char s
         && char_is 16 ":"%char s && valid_datetime value
      then Some value
      else None
  | _, _, _, _, _, _ => None
  end.

Definition sample_offset (s : string) : option Z :=
  match digits_at 1 2 s, digits_at 4 2 s with
  | Some h, Some mi =>
      if Nat.eqb (String.length s) 6 && char_is 3 ":"%char s
         && (h <? 24)%Z && (mi <? 60)%Z
      then
        let span := ((h * 3600 + mi * 60) * 1000000)%Z in
        if char_is 0 "+"%char s then Some span
        else if char_is 0 "-"%char s then Some (- span)%Z
        else None
      else None
  | _, _ => None
  end.

Definition sample_fromisoformat (s : string) : option datetime :=
  match sample_naive (str_take 19 s) with
  | Some value =>
      match str_drop 19 s with
      | EmptyString => Some value
      | String c r =>
          match sample_offset (String c r) with
          | Some offset => Some (replace_tzinfo value (Some offset))
          | None => None
          end
      end
  | None => None
  end.

#[local] Instance sample_runtime : PyRuntime := {|
  pyfloat := Empty_set;
  float_truth := fun x => match x with end;
  float_repr := fun x => match x with end;
  float_int := fun x => match x with end;
  fromisoformat := sample_fromisoformat;
  strptime_seconds := sample_naive
|}.

(** An environment whose API answers every call with one page holding the
    given objects and no [meta], whose clock stands still, and which has
    both credentials set. *)
Definition one_page_env {runtime : PyRuntime} (objects : list pyval)
  : environment :=
  mk_environment
    (fun _ _ => Ok (PDict [("objects", PList objects)]))
    (fun _ => mk_datetime 2025 1 1 0 0 0 0 utc)
    (fun name => Some "secret")
    "/srv/clist".

(** A payload as the API sends it. *)
Definition sample_payload {runtime : PyRuntime} (id : Z) (event : string)
    (start_text end_text : string) : pyval :=
  PDict [ ("id", PInt id); ("event", PStr event);
          ("start", PStr start_text); ("end", PStr end_text);
          ("href", PStr "https://codeforces.com/contests/1");
          ("resource", PStr "codeforces.com") ].

(** An API that holds three contests and always announces a next page,
    asked with the cap 2: one request, two contests, the third payload
    left unread. *)
Definition three_contests_env : environment :=
  mk_environment
    (fun _ _ =>
       Ok (PDict [ ("meta", PDict [("next", PStr "/api/v2/contest/?offset=3")]);
                   ("objects",
                    PList [ sample_payload 1 "Round 1" "2025-01-01T00:00:00Z"
                              "2025-01-01T02:00:00Z";
                            sample_payload 2 "Round 2" "2025-01-02T00:00:00Z"
                              "2025-01-02T02:00:00Z";
                            sample_payload 3 "Round 3" "2025-01-03T00:00:00Z"
                              "2025-01-03T02:00:00Z" ]) ]))
    (fun _ => mk_datetime 2025 1 1 0 0 0 0 utc)
    (fun name => Some "secret")
    "/srv/clist".

(** ** Observing a run *)




(** The arguments of a plain command line: credentials given, every other
    option at its default. *)
Definition sample_args : cli_args :=
  mk_cli_args (Some "user") (Some "key")
    ["leetcode"; "codeforces"; "atcoder"; "luogu"; "nowcoder"]
    None None false 0 50 "CLIST Contests" "-//CLIST Import//EN"
    "contests.ics".

(** ** The interactive helper, [clist_helper.py]

    The helper talks to a terminal.  [input(message)] shows [message] and
    takes the next line typed; with no line left it raises [EOFError].
    [print(text)] shows a line.  A prompt is given the lines still to come
    and what the terminal has shown so far. *)

Inductive shown_text : Type :=
| Prompt (message : string)
| Line (text : string).

Inductive interaction (A : Type) : Type :=
| Answered (a : A) (pending : list string) (shown : list shown_text)
| EndOfInput (shown : list shown_text).

Arguments Answered {A} a pending shown.
Arguments EndOfInput {A} shown.

Section Helper.

Context {runtime : PyRuntime}.

Definition canonicalize_iso (value : string) : string :=
  if str_endswith "Z"%char value then str_drop_last value ++ "+00:00"
  else value.

Definition is_valid_iso_datetime (value : string) : bool :=
  match fromisoformat (canonicalize_iso value) with
  | Some _ => true
  | None => false
  end.

Fixpoint prompt_datetime (message : string) (pending : list string)
    (shown : list shown_text) : interaction (option string) :=
  match pending with
  | [] => EndOfInput (shown ++ [Prompt message])%list
  | typed :: rest =>
      let shown := (shown ++ [Prompt message])%list in
      match str_strip typed with
      | EmptyString => Answered None rest shown
      | String c r =>
          let value := String c r in
          if is_valid_iso_datetime value
          then Answered (Some (canonicalize_iso value)) rest shown
          else
            prompt_datetime message rest
              (shown ++ [Line ("Invalid datetime. Use ISO format like "
                               ++ "2025-01-01T00:00:00+00:00 or append 'Z'.")])%list
      end
  end.

Fixpoint prompt_yes_no (message : string) (default : bool)
    (pending : list string) (shown : list shown_text) : interaction bool :=
  let suffix := if default then " [Y/n]" else " [y/N]" in
  match pending with
  | [] => EndOfInput (shown ++ [Prompt (message ++ suffix ++ ": ")])%list
  | typed :: rest =>
      let shown := (shown ++ [Prompt (message ++ suffix ++ ": ")])%list in
      let answer := str_lower (str_strip typed) in
      match answer with
      | EmptyString => Answered default rest shown
      | String _ _ =>
          if String.eqb answer "y" || String.eqb answer "yes"
          then Answered true rest shown
          else if String.eqb answer "n" || String.eqb answer "no"
          then Answered false rest shown
          else
            prompt_yes_no message default rest
              (shown ++ [Line "Please answer yes or no."])%list
      end
  end.

Fixpoint prompt_non_empty (message : string) (pending : list string)
    (shown : list shown_text) : interaction string :=
  match pending with
  | [] => EndOfInput (shown ++ [Prompt message])%list
  | typed :: rest =>
      let shown := (shown ++ [Prompt message])%list in
      match str_strip typed with
      | String c r => Answered (String c r) rest shown
      | EmptyString =>
          prompt_non_empty message rest
            (shown ++ [Line "Value cannot be empty. Please try again."])%list
      end
  end.

Fixpoint prompt_menu_choice (default : string) (options : list string)
    (pending : list string) (shown : list shown_text) : interaction string :=
  match pending with
  | [] => EndOfInput (shown ++ [Prompt ("Enter choice [" ++ default ++ "]: ")])%list
  | typed :: rest =>
      let shown :=
        (shown ++ [Prompt ("Enter choice [" ++ default ++ "]: ")])%list in
      match str_strip typed with
      | EmptyString => Answered default rest shown
      | String c r =>
          if existsb (String.eqb (String c r)) options
          then Answered (String c r) rest shown
          else
            prompt_menu_choice default options rest
              (shown ++ [Line "Invalid choice, please try again."])%list
      end
  end.

End Helper.

(** What a line typed at a yes/no question means: nothing but blanks is the
    default, [y] and [yes] are yes, [n] and [no] are no, in any letter case;
    anything else is asked again. *)
Definition yes_no_meaning (default : bool) (typed : string) : option bool :=
  let answer := str_lower (str_strip typed) in
  if String.eqb answer "" then Some default
  else if existsb (String.eqb answer) ["y"; "yes"] then Some true
  else if existsb (String.eqb answer) ["n"; "no"] then Some false
  else None.

(** A filter as the API takes it: a host with a dot in it under [resource],
    or a number that is not negative under [resource_id]. *)
Definition well_formed_filter (kv : key_val) : bool :=
  match kv with
  | (key, FHost host) => String.eqb key "resource" && str_contains "."%char host
  | (key, FId id) => String.eqb key "resource_id" && (0 <=? id)%Z
  end.

(** Reading a content line of the calendar back, as a calendar program
    does: unfold it, take what follows the property name, undo the
    escaping. *)
Definition read_content_line (name folded : string) : string :=
  unescape_ics_text (str_drop (String.length name) (unfold_ics_line folded)).

Section Diagnostics.

Context {runtime : PyRuntime}.

(** The diagnostics a page gives rise to: one line for every payload that
    fails with [ValueError], in the order of the page. *)
Fixpoint skipped_diagnostics (payloads : list pyval) : list string :=
  match payloads with
  | [] => []
  | payload :: rest =>
      match parse_contest payload with
      | Raise (ValueError msg) =>
          ("Skipping contest due to parse error: " ++ msg)
          :: skipped_diagnostics rest
      | _ => skipped_diagnostics rest
      end
  end.

End Diagnostics.

(** ** What a run may add to its trace *)

Definition is_some {A : Type} (x : option A) : bool :=
  match x with
  | Some _ => true
  | None => false
  end.

(** The events of a fetch for [filter] with the cap [cap]: a request for
    that filter, ordered by start, at an offset that is not negative, for
    between 1 and [PAGE_SIZE] contests and no more than the cap, with the
    time bounds the fetch was given; or a diagnostic about a payload left
    out. *)
Definition fetch_event (filter : key_val) (bounded_below bounded_above : bool)
    (cap : Z) (include_ended : bool) (e : event) : bool :=
  match e with
  | EvRequest p =>
      key_val_eqb (p_filter p) filter
      && String.eqb (p_order_by p) "start"
      && (0 <=? p_offset p)%Z
      && (1 <=? p_limit p)%Z && (p_limit p <=? PAGE_SIZE)%Z
      && ((cap =? 0)%Z || (p_limit p <=? cap)%Z)
      && Bool.eqb (is_some (p_start_gte p)) bounded_below
      && Bool.eqb (is_some (p_start_lte p)) bounded_above
      && Bool.eqb (is_some (p_end_gte p)) (negb include_ended)
  | EvStderr line => String.prefix "Skipping contest due to parse error: " line
  | _ => false
  end.

(** [emits allowed post m]: however [m] ends, every event it adds to the
    trace is an [allowed] one, and a value it returns satisfies [post]. *)
Definition emits {A : Type} (allowed : event -> bool) (post : A -> Prop)
    (m : M A) : Prop :=
  forall (w w' : world) (r : result A),
    m w = Some (r, w') ->
    (exists added : list event,
       trace w' = (trace w ++ added)%list /\ forallb allowed added = true)
    /\ (forall a : A, r = Ok a -> post a).

Definition only_emits {A : Type} (allowed : event -> bool) (m : M A) : Prop :=
  emits allowed (fun _ => True) m.

(** The events of a fetch over several filters. *)
Definition fetch_events (filters : list key_val)
    (bounded_below bounded_above : bool) (cap : Z) (include_ended : bool)
    (e : event) : bool :=
  existsb
    (fun filter =>
       fetch_event filter bounded_below bounded_above cap include_ended e)
    filters.

(** What the scheduled build may ask of the API: contests of one of the
    five default platforms, at most 50 in one request, with all three time
    bounds set.  Its other events are not restricted here. *)
Definition scheduled_event (e : event) : bool :=
  match e with
  | EvRequest _ =>
      fetch_events
        [ ("resource", FHost "leetcode.com");
          ("resource", FHost "codeforces.com");
          ("resource", FHost "atcoder.jp");
          ("resource", FHost "luogu.com.cn");
          ("resource", FHost "ac.nowcoder.com") ]
        true true 50 false e
  | _ => true
  end.

Section CliEvents.

Context {runtime : PyRuntime}.

(** What a run of the command line may ask of the API: nothing unless both
    credentials are there and the resources resolve; then contests of one
    of the resolved filters, with the lower bound on the start unless ended
    contests are included and no start time was given, the upper bound when
    an end time was given, and the bound on the end unless ended contests
    are included. *)
Definition cli_event (env : environment) (args : cli_args) (e : event)
  : bool :=
  match e with
  | EvRequest _ =>
      str_truth (opt_or (arg_username args)
                        (env_environ env "CLIST_API_USERNAME"))
      && str_truth (opt_or (arg_api_key args)
                           (env_environ env "CLIST_API_KEY"))
      && match resolve_resource_filters (arg_resources args) with
         | Ok filters =>
             fetch_events filters
               (str_truth (arg_starts_after args)
                || negb (arg_include_ended args))
               (str_truth (arg_ends_before args))
               (arg_per_resource_limit args) (arg_include_ended args) e
         | Raise _ => false
         end
  | _ => true
  end.

End CliEvents.

(** A page of two contests. *)
Definition sample_page {runtime : PyRuntime} : list pyval :=
  [ sample_payload 1 "Round 1" "2025-01-01T00:00:00Z" "2025-01-01T02:00:00Z";
    sample_payload 2 "Round 2" "2025-01-02T00:00:00Z" "2025-01-02T02:00:00Z" ].

Section PaginationAll.

Context {runtime : PyRuntime}.

(** Fetching for several filters: one pagination for each filter, in the
    order of the filters, each from the offset 0 with nothing in hand and
    with the cap to itself, the call numbers running on; the requests and
    the results are put one after the other. *)
Inductive PaginateAll (env : environment) (cap : Z)
  : nat -> list key_val -> list params -> list Contest -> Prop :=
| PA_done (n : nat) : PaginateAll env cap n [] [] []
| PA_next (n : nat) (filter : key_val) (rest : list key_val)
      (requests requests' : list params) (part result : list Contest) :
    Paginate env filter cap n 0 [] requests part ->
    PaginateAll env cap (n + List.length requests) rest requests' result ->
    PaginateAll env cap n (filter :: rest) (requests ++ requests')%list
      (part ++ result)%list.

End PaginationAll.




(** ** The helper's credentials and the command it runs

    The credential file is taken by what it holds, as far as the helper
    looks: nothing, text that is not JSON, a JSON value that is not an
    object, or an object, given by its members, each a string or something
    else; writing [json.dumps(data)] stores the object [data].  [getpass] is
    a prompt like [input].  [subprocess.run] is the boundary: the environment
    says with which status the command ends. *)

Record credentials : Type := mk_credentials {
  cred_username : string;
  cred_api_key : string
}.

Section HelperMain.

Context {runtime : PyRuntime}.

(** A member of a stored object is [Some s] for the string [s] and [None]
    for any other value. *)
Inductive stored_file : Type :=
| Absent
| Corrupt
| NotAnObject
| Stored (members : list (string * option string)).

(** [data.get(key)] followed by [isinstance(value, str)] *)
Definition member_string (members : list (string * option string))
    (key : string) : option string :=
  match dict_get members key with
  | Some (Some text) => Some text
  | _ => None
  end.

Definition print (text : string) (shown : list shown_text) : list shown_text :=
  (shown ++ [Line text])%list.

Definition load_saved_credentials (file : stored_file)
    (shown : list shown_text) : option credentials * list shown_text :=
  match file with
  | Absent => (None, shown)
  | Corrupt =>
      (None,
       print ("Saved credential file is corrupted; ignoring it."
              ++ String LF EmptyString) shown)
  | NotAnObject => (None, shown)
  | Stored members =>
      match member_string members "username",
            member_string members "api_key" with
      | Some username, Some api_key =>
          (Some (mk_credentials username api_key), shown)
      | _, _ => (None, shown)
      end
  end.

Definition save_credentials (data : credentials) (shown : list shown_text)
  : stored_file * list shown_text :=
  (Stored [ ("username", Some (cred_username data));
            ("api_key", Some (cred_api_key data)) ],
   print ("Credentials saved." ++ String LF EmptyString) shown).

Definition delete_saved_credentials (file : stored_file)
    (shown : list shown_text) : stored_file * list shown_text :=
  match file with
  | Absent => (Absent, shown)
  | _ =>
      (Absent,
       print ("Saved credential file deleted." ++ String LF EmptyString) shown)
  end.

Fixpoint prompt_secret (message : string) (pending : list string)
    (shown : list shown_text) : interaction string :=
  match pending with
  | [] => EndOfInput (shown ++ [Prompt message])%list
  | typed :: rest =>
      let shown := (shown ++ [Prompt message])%list in
      match str_strip typed with
      | String c r => Answered (String c r) rest shown
      | EmptyString =>
          prompt_secret message rest
            (print "Value cannot be empty. Please try again." shown)
      end
  end.

Definition prompt_new_credentials (pending : list string)
    (shown : list shown_text) : interaction credentials :=
  match prompt_non_empty "CLIST username: " pending shown with
  | Answered username pending shown =>
      let shown :=
        print "(API key input is hidden; paste and press Enter.)" shown in
      match prompt_secret "CLIST API key: " pending shown with
      | Answered api_key pending shown =>
          Answered (mk_credentials username api_key) pending (print "" shown)
      | EndOfInput shown => EndOfInput shown
      end
  | EndOfInput shown => EndOfInput shown
  end.

(** The tail of [select_credentials]: ask for new credentials and save
    them. *)
Definition enter_and_save (pending : list string) (shown : list shown_text)
  : interaction (credentials * stored_file) :=
  match prompt_new_credentials pending shown with
  | Answered data pending shown =>
      let '(file, shown) := save_credentials data shown in
      Answered (data, file) pending shown
  | EndOfInput shown => EndOfInput shown
  end.

Definition select_credentials (file : stored_file) (pending : list string)
    (shown : list shown_text) : interaction (credentials * stored_file) :=
  let '(saved, shown) := load_saved_credentials file shown in
  match saved with
  | Some data =>
      let shown := print "Saved credentials detected:" shown in
      let shown := print ("  Username: " ++ cred_username data) shown in
      let shown := print "Select an option:" shown in
      let shown := print "  1) Use the saved credentials" shown in
      let shown :=
        print "  2) Enter new credentials and delete saved data" shown in
      match prompt_menu_choice "1" ["1"; "2"] pending shown with
      | Answered choice pending shown =>
          if String.eqb choice "1" then Answered (data, file) pending shown
          else
            let '(file, shown) := delete_saved_credentials file shown in
            enter_and_save pending (print "" shown)
      | EndOfInput shown => EndOfInput shown
      end
  | None =>
      enter_and_save pending
        (print ("No saved credentials found. Please enter them now."
                ++ String LF EmptyString) shown)
  end.

(** [input(message).strip() or default] *)
Definition input_or (message default : string) (pending : list string)
    (shown : list shown_text) : interaction string :=
  match pending with
  | [] => EndOfInput (shown ++ [Prompt message])%list
  | typed :: rest =>
      Answered
        (match str_strip typed with
         | EmptyString => default
         | String c r => String c r
         end)
        rest (shown ++ [Prompt message])%list
  end.

(** The command [main] hands to [subprocess.run]. *)
Definition helper_command (executable : string) (data : credentials)
    (starts_after ends_before : option string) (include_ended : bool)
    (output_path : string) : list string :=
  let cmd :=
    [ executable; "clist_to_ics.py"; "--username"; cred_username data;
      "--api-key"; cred_api_key data; "--output"; output_path ] in
  let cmd :=
    if str_truth starts_after
    then match starts_after with
         | Some text => (cmd ++ ["--starts-after"; text])%list
         | None => cmd
         end
    else cmd in
  let cmd :=
    if str_truth ends_before
    then match ends_before with
         | Some text => (cmd ++ ["--ends-before"; text])%list
         | None => cmd
         end
    else cmd in
  if include_ended then (cmd ++ ["--include-ended"])%list else cmd.

(** What a run of the helper that reaches [subprocess.run] has done: the
    command it ran, the status it ends with, and what the credential file
    holds afterwards. *)
Record helper_run : Type := mk_helper_run {
  run_command : list string;
  run_status : Z;
  run_file : stored_file
}.

Definition helper_main (executable : string) (run : list string -> Z)
    (file : stored_file) (pending : list string) : interaction helper_run :=
  let shown := print "CLIST contest calendar helper" [] in
  let shown :=
    print ("--------------------------------" ++ String LF EmptyString) shown in
  match select_credentials file pending shown with
  | EndOfInput shown => EndOfInput shown
  | Answered (data, file) pending shown =>
  match prompt_datetime "Enter start time (ISO, blank for default now): "
          pending shown with
  | EndOfInput shown => EndOfInput shown
  | Answered starts_after pending shown =>
  match prompt_datetime "Enter end time (ISO, blank to skip): "
          pending shown with
  | EndOfInput shown => EndOfInput shown
  | Answered ends_before pending shown =>
  match prompt_yes_no "Include contests that already ended?" false
          pending shown with
  | EndOfInput shown => EndOfInput shown
  | Answered include_ended pending shown =>
  match input_or "Output .ics path [contests.ics]: " "contests.ics"
          pending shown with
  | EndOfInput shown => EndOfInput shown
  | Answered output_path pending shown =>
      let cmd :=
        helper_command executable data starts_after ends_before
          include_ended output_path in
      let shown := print (String LF "Running:") shown in
      let shown := print (str_join " " cmd) shown in
      let shown := print "" shown in
      Answered (mk_helper_run cmd (run cmd) file) pending shown
  end end end end end.

(** A timestamp option as the helper passes it on: left out, or a text that
    [datetime.fromisoformat] accepts and that does not end in [Z]. *)
Definition passed_timestamp (value : option string) : Prop :=
  match value with
  | None => True
  | Some text =>
      text <> EmptyString
      /\ str_endswith "Z"%char text = false
      /\ exists parsed, fromisoformat text = Some parsed
  end.

(** The credentials [select_credentials] returns are the ones the file
    held, the file left as it was, or ones just typed, neither of them
    empty, which the file holds afterwards. *)
Definition credentials_origin (file file' : stored_file) (data : credentials)
  : Prop :=
  (file' = file
   /\ exists members : list (string * option string),
        file = Stored members
        /\ member_string members "username" = Some (cred_username data)
        /\ member_string members "api_key" = Some (cred_api_key data))
  \/ (file' = Stored [ ("username", Some (cred_username data));
                       ("api_key", Some (cred_api_key data)) ]
      /\ cred_username data <> EmptyString
      /\ cred_api_key data <> EmptyString).

(** The arguments a timestamp option adds to the command. *)
Definition timestamp_arguments (flag : string) (value : option string)
  : list string :=
  match value with
  | None => []
  | Some text => [flag; text]
  end.

End HelperMain.

(** * Part II: properties *)

(** ** String primitives *)

Lemma str_length_app (a b : string) :
  String.length (a ++ b) = String.length a + String.length b.
Proof. induction a as [|c a IH]; simpl; [reflexivity | now rewrite IH]. Qed.

Lemma str_app_nil_r (a : string) : a ++ "" = a.
Proof. induction a as [|c a IH]; simpl; [reflexivity | now rewrite IH]. Qed.

Lemma str_app_assoc (a b c : string) : (a ++ b) ++ c = a ++ (b ++ c).
Proof. induction a as [|x a IH]; simpl; [reflexivity | now rewrite IH]. Qed.

Lemma str_take_drop (n : nat) (s : string) : str_take n s ++ str_drop n s = s.
Proof.
  revert s; induction n as [|n IH]; intros [|c r]; simpl; try reflexivity.
  now rewrite IH.
Qed.

Lemma str_length_take (n : nat) (s : string) :
  String.length (str_take n s) = Nat.min n (String.length s).
Proof.
  revert s; induction n as [|n IH]; intros [|c r]; simpl; try reflexivity.
  now rewrite IH.
Qed.

Lemma str_length_drop (n : nat) (s : string) :
  String.length (str_drop n s) = String.length s - n.
Proof.
  revert s; induction n as [|n IH]; intros [|c r]; simpl; try reflexivity.
  now rewrite IH.
Qed.

Lemma str_take_all (n : nat) (s : string) :
  String.length s <= n -> str_take n s = s.
Proof.
  revert s; induction n as [|n IH]; intros [|c r]; simpl; intros H;
    try reflexivity; try lia.
  f_equal; apply IH; lia.
Qed.

Lemma str_drop_all (n : nat) (s : string) :
  String.length s <= n -> str_drop n s = EmptyString.
Proof.
  revert s; induction n as [|n IH]; intros [|c r]; simpl; intros H;
    try reflexivity; try lia.
  apply IH; lia.
Qed.

Lemma str_take_app_exact (a b : string) :
  str_take (String.length a) (a ++ b) = a.
Proof. induction a as [|c a IH]; simpl; [now destruct b | now rewrite IH]. Qed.

Lemma str_drop_app_exact (a b : string) :
  str_drop (String.length a) (a ++ b) = b.
Proof. induction a as [|c a IH]; simpl; [now destruct b | exact IH]. Qed.

Lemma str_take_app_len (n : nat) (a b : string) :
  String.length a = n -> str_take n (a ++ b) = a.
Proof. intros <-. apply str_take_app_exact. Qed.

Lemma str_drop_app_len (n : nat) (a b : string) :
  String.length a = n -> str_drop n (a ++ b) = b.
Proof. intros <-. apply str_drop_app_exact. Qed.

Arguments str_take : simpl never.
Arguments str_drop : simpl never.

(** ** [escape_ics_text] *)

Lemma str_replace_app (old : ascii) (new a b : string) :
  str_replace old new (a ++ b) = str_replace old new a ++ str_replace old new b.
Proof.
  induction a as [|c a IH]; simpl; [reflexivity|].
  destruct (Ascii.eqb c old); simpl; rewrite IH;
    [now rewrite str_app_assoc | reflexivity].
Qed.

Lemma escape_ics_text_cons (c : ascii) (r : string) :
  escape_ics_text (String c r) = escape_char c ++ escape_ics_text r.
Proof.
  unfold escape_ics_text, escape_char.
  cbn [str_replace].
  destruct (Ascii.eqb c backslash) eqn:E1.
  { apply Ascii.eqb_eq in E1; subst c. reflexivity. }
  cbn [str_replace]. destruct (Ascii.eqb c semicolon) eqn:E2.
  { apply Ascii.eqb_eq in E2; subst c. reflexivity. }
  cbn [str_replace]. destruct (Ascii.eqb c comma) eqn:E3.
  { apply Ascii.eqb_eq in E3; subst c. reflexivity. }
  cbn [str_replace]. destruct (Ascii.eqb c LF) eqn:E4; reflexivity.
Qed.

Lemma escape_ics_text_single_pass (value : string) :
  escape_ics_text value = str_flat_map escape_char value.
Proof.
  induction value as [|c r IH]; [reflexivity|].
  rewrite escape_ics_text_cons, IH. reflexivity.
Qed.

Lemma escape_char_cases (c : ascii) :
  (c = backslash /\ escape_char c = "\\") \/
  (c = semicolon /\ escape_char c = "\;") \/
  (c = comma /\ escape_char c = "\,") \/
  (c = LF /\ escape_char c = "\n") \/
  (Ascii.eqb c backslash = false /\ Ascii.eqb c semicolon = false /\
   Ascii.eqb c comma = false /\ Ascii.eqb c LF = false /\
   escape_char c = String c EmptyString).
Proof.
  unfold escape_char.
  destruct (Ascii.eqb c backslash) eqn:E1;
    [apply Ascii.eqb_eq in E1; subst c; now left|].
  destruct (Ascii.eqb c semicolon) eqn:E2;
    [apply Ascii.eqb_eq in E2; subst c; now right; left|].
  destruct (Ascii.eqb c comma) eqn:E3;
    [apply Ascii.eqb_eq in E3; subst c; now right; right; left|].
  destruct (Ascii.eqb c LF) eqn:E4;
    [apply Ascii.eqb_eq in E4; subst c; now right; right; right; left|].
  right; right; right; right. repeat split; reflexivity.
Qed.

Ltac escape_cases c :=
  destruct (escape_char_cases c)
    as [[-> ->]|[[-> ->]|[[-> ->]|[[-> ->]|(E1 & E2 & E3 & E4 & ->)]]]].

Lemma no_unescaped_flat_map (value : string) :
  no_unescaped (str_flat_map escape_char value) = true.
Proof.
  induction value as [|c r IH]; [reflexivity|].
  cbn [str_flat_map]. escape_cases c; try exact IH.
  cbn [append no_unescaped]. rewrite E1, E2, E3, E4. exact IH.
Qed.

Lemma no_line_feed_flat_map (value : string) :
  str_contains LF (str_flat_map escape_char value) = false.
Proof.
  induction value as [|c r IH]; [reflexivity|].
  cbn [str_flat_map]. escape_cases c; try exact IH.
  cbn [append str_contains]. rewrite E4. exact IH.
Qed.

Lemma unescape_flat_map (value : string) :
  unescape_ics_text (str_flat_map escape_char value) = value.
Proof.
  induction value as [|c r IH]; [reflexivity|].
  cbn [str_flat_map]. escape_cases c; try (cbn; now rewrite IH).
  cbn [append unescape_ics_text]. rewrite E1, IH. reflexivity.
Qed.

(** C6.  [escape_ics_text] applies its four substitutions in the order
    backslash, semicolon, comma, line feed; taken together they rewrite each
    character of the input exactly once ([escape_char], a line feed becoming
    the two characters backslash and n), so the backslashes brought in by the
    later substitutions are never doubled.  In the result, for every input,
    each semicolon and comma is the second half of an escape pair, no line
    feed is left at all, and reading the escapes back returns the input. *)
Theorem escape_ics_text_correct (value : string) :
  escape_ics_text value
    = str_replace LF "\n"
        (str_replace comma "\,"
           (str_replace semicolon "\;"
              (str_replace backslash "\\" value)))
  /\ escape_ics_text value = str_flat_map escape_char value
  /\ no_unescaped (escape_ics_text value) = true
  /\ str_contains LF (escape_ics_text value) = false
  /\ unescape_ics_text (escape_ics_text value) = value.
Proof.
  split; [reflexivity|].
  rewrite escape_ics_text_single_pass.
  repeat split.
  - apply no_unescaped_flat_map.
  - apply no_line_feed_flat_map.
  - apply unescape_flat_map.
Qed.

(** The order matters: with the backslash substitution last instead of
    first, the backslash that escapes a semicolon is itself doubled. *)
Example escape_order_matters :
  escape_ics_text ";" = "\;" /\
  str_replace backslash "\\" (str_replace semicolon "\;" ";") = "\\;".
Proof. split; reflexivity. Qed.

(** ** [fold_ics_line] *)

Lemma str_join_cons (sep first : string) (rest : list string) :
  str_join sep (first :: rest)
  = first ++ str_concat (map (fun seg => sep ++ seg) rest).
Proof.
  revert first; induction rest as [|seg rest IH]; intros first.
  - cbn. now rewrite str_app_nil_r.
  - change (str_join sep (first :: seg :: rest))
      with (first ++ sep ++ str_join sep (seg :: rest)).
    rewrite IH. cbn [map str_concat fold_right].
    now rewrite str_app_assoc.
Qed.

Lemma fold_rest_cons (c : ascii) (r : string) :
  fold_rest (String c r)
  = String " "%char (str_take 74 (String c r))
    :: fold_rest (str_drop 74 (String c r)).
Proof. now simp fold_rest. Qed.

Lemma fold_rest_unfolds (remainder : string) :
  str_concat (map strip_continuation (fold_rest remainder)) = remainder.
Proof.
  funelim (fold_rest remainder); [reflexivity|].
  clear Heqcall.
  change (" " ++ str_take 74 (String c r))
    with (String " "%char (str_take 74 (String c r))).
  cbn [map str_concat fold_right strip_continuation].
  change (Ascii.eqb " "%char " "%char) with true. cbv iota.
  fold (str_concat (map strip_continuation
                      (fold_rest (str_drop 74 (String c r))))).
  rewrite H. apply str_take_drop.
Qed.

Lemma fold_rest_shape (remainder : string) :
  exists payloads : list string,
    fold_rest remainder = map (String " "%char) payloads /\
    Forall (fun p => 1 <= String.length p <= 74) payloads /\
    str_concat payloads = remainder.
Proof.
  funelim (fold_rest remainder).
  - exists []. repeat split; constructor.
  - destruct H as (payloads & Hmap & Hall & Hcat).
    exists (str_take 74 (String c r) :: payloads).
    clear Heqcall.
    change (" " ++ str_take 74 (String c r))
      with (String " "%char (str_take 74 (String c r))).
    rewrite Hmap. split; [reflexivity|]. split.
    + constructor; [|exact Hall].
      rewrite str_length_take. cbn [String.length]. lia.
    + cbn [str_concat fold_right]. fold (str_concat payloads).
      rewrite Hcat. apply str_take_drop.
Qed.

Lemma fold_rest_text_unfolds (remainder : string) :
  unfold_rest (str_concat (map (fun seg => CRLF ++ seg) (fold_rest remainder)))
  = remainder.
Proof.
  funelim (fold_rest remainder); [reflexivity|].
  clear Heqcall.
  change (" " ++ str_take 74 (String c r))
    with (String " "%char (str_take 74 (String c r))).
  cbn [map str_concat fold_right].
  set (s := String c r) in *.
  set (X := fold_right append EmptyString
              (map (fun seg => CRLF ++ seg) (fold_rest (str_drop 74 s)))) in *.
  change ((CRLF ++ String " "%char (str_take 74 s)) ++ X)
    with (String CR (String LF (String " "%char (str_take 74 s ++ X)))).
  simp unfold_rest.
  change (str_drop 3 (String CR (String LF (String " "%char (str_take 74 s ++ X)))))
    with (str_take 74 s ++ X).
  change (str_drop 77 (String CR (String LF (String " "%char (str_take 74 s ++ X)))))
    with (str_drop 74 (str_take 74 s ++ X)).
  destruct (Nat.le_gt_cases 74 (String.length s)) as [Hlong|Hshort].
  - assert (Hlen : String.length (str_take 74 s) = 74)
      by (rewrite str_length_take; lia).
    rewrite (str_take_app_len 74 _ _ Hlen), (str_drop_app_len 74 _ _ Hlen).
    unfold X. fold (str_concat (map (fun seg => CRLF ++ seg)
                                  (fold_rest (str_drop 74 s)))).
    rewrite H. apply str_take_drop.
  - assert (Hd : str_drop 74 s = EmptyString) by (apply str_drop_all; lia).
    assert (HX : X = EmptyString) by (unfold X; rewrite Hd; reflexivity).
    rewrite HX, str_app_nil_r.
    rewrite (str_take_all 74 s) by lia.
    rewrite (str_take_all 74 s) by lia.
    rewrite (str_drop_all 74 s) by lia.
    simp unfold_rest. apply str_app_nil_r.
Qed.

(** C7.  A line of at most 75 characters is returned as it is.  A longer
    line becomes its first 75 characters followed by continuation segments,
    each a single space and between 1 and 74 characters of the line, all
    joined by CR LF.  Dropping the leading space of every continuation
    segment and joining the segments without the terminators gives the
    original line back, for every line; so does reading the folded text by
    position ([unfold_ics_line]). *)
Theorem fold_ics_line_unfolds (line : string) :
  fold_ics_line line
    = (if Nat.leb (String.length line) 75 then line
       else str_join CRLF (fold_segments line))
  /\ unfold_segments (fold_segments line) = line
  /\ (exists payloads : list string,
        fold_segments line
          = str_take 75 line :: map (String " "%char) payloads
        /\ String.length (str_take 75 line) = Nat.min 75 (String.length line)
        /\ Forall (fun p => 1 <= String.length p <= 74) payloads
        /\ str_take 75 line ++ str_concat payloads = line
        /\ (payloads = [] <-> String.length line <= 75))
  /\ unfold_ics_line (fold_ics_line line) = line.
Proof.
  split; [reflexivity|]. split; [|split].
  - unfold unfold_segments, fold_segments.
    rewrite fold_rest_unfolds. apply str_take_drop.
  - destruct (fold_rest_shape (str_drop 75 line)) as (payloads & Hmap & Hall & Hcat).
    exists payloads. unfold fold_segments. rewrite Hmap.
    split; [reflexivity|]. split; [apply str_length_take|].
    split; [exact Hall|]. split; [rewrite Hcat; apply str_take_drop|].
    split; intros Hp.
    + subst payloads. cbn in Hcat.
      assert (Hl := str_length_drop 75 line). rewrite <- Hcat in Hl.
      cbn in Hl. lia.
    + rewrite (str_drop_all 75 line Hp) in Hmap.
      destruct payloads; [reflexivity | discriminate].
  - unfold fold_ics_line, unfold_ics_line.
    destruct (Nat.leb (String.length line) 75) eqn:E.
    + apply Nat.leb_le in E.
      rewrite (str_take_all 75 line E), (str_drop_all 75 line E).
      simp unfold_rest. apply str_app_nil_r.
    + apply Nat.leb_gt in E. unfold fold_segments.
      rewrite str_join_cons.
      assert (Hlen : String.length (str_take 75 line) = 75)
        by (rewrite str_length_take; lia).
      rewrite (str_take_app_len 75 _ _ Hlen), (str_drop_app_len 75 _ _ Hlen).
      rewrite fold_rest_text_unfolds. apply str_take_drop.
Qed.

(** ** [humanize_duration] *)




(** ** The day count of the [datetime] module *)

Local Open Scope Z_scope.

Lemma is_leap_cycles (q n100 n4 n1 : Z) :
  0 <= n100 <= 3 -> 0 <= n4 <= 24 -> 0 <= n1 <= 3 ->
  is_leap (q * 400 + 1 + n100 * 100 + n4 * 4 + n1)
  = (n1 =? 3) && (negb (n4 =? 24) || (n100 =? 3)).
Proof.
  intros H100 H4 H1. unfold is_leap.
  set (y := q * 400 + 1 + n100 * 100 + n4 * 4 + n1).
  assert (E4 : y mod 4 = (n1 + 1) mod 4).
  { unfold y. replace (q * 400 + 1 + n100 * 100 + n4 * 4 + n1)
      with ((n1 + 1) + (q * 100 + n100 * 25 + n4) * 4) by lia.
    apply Z.mod_add. lia. }
  assert (E100 : y mod 100 = (n4 * 4 + n1 + 1) mod 100).
  { unfold y. replace (q * 400 + 1 + n100 * 100 + n4 * 4 + n1)
      with ((n4 * 4 + n1 + 1) + (q * 4 + n100) * 100) by lia.
    apply Z.mod_add. lia. }
  assert (E400 : y mod 400 = (n100 * 100 + n4 * 4 + n1 + 1) mod 400).
  { unfold y. replace (q * 400 + 1 + n100 * 100 + n4 * 4 + n1)
      with ((n100 * 100 + n4 * 4 + n1 + 1) + q * 400) by lia.
    apply Z.mod_add. lia. }
  rewrite E4, E100, E400. clear E4 E100 E400. clearbody y.
  repeat match goal with
  | |- context [(?a =? ?b)] => destruct (Z.eqb_spec a b)
  end; cbn; try reflexivity; exfalso; Z.div_mod_to_equations; lia.
Qed.

Lemma days_before_year_cycles (q n100 n4 n1 : Z) :
  0 <= n100 <= 3 -> 0 <= n4 <= 24 -> 0 <= n1 <= 3 ->
  days_before_year (q * 400 + 1 + n100 * 100 + n4 * 4 + n1)
  = q * 146097 + n100 * 36524 + n4 * 1461 + n1 * 365.
Proof.
  intros H100 H4 H1. unfold days_before_year. Z.div_mod_to_equations; lia.
Qed.

Ltac eval_closed :=
  repeat match goal with
  | |- context [Z.pos ?p - 1] =>
      let v := eval vm_compute in (Z.pos p - 1) in
      change (Z.pos p - 1) with v
  | |- context [Z.pos ?p <? Z.pos ?q] =>
      let v := eval vm_compute in (Z.pos p <? Z.pos q) in
      change (Z.pos p <? Z.pos q) with v
  | |- context [Z.pos ?p =? Z.pos ?q] =>
      let v := eval vm_compute in (Z.pos p =? Z.pos q) in
      change (Z.pos p =? Z.pos q) with v
  end;
  cbn [DAYS_BEFORE_MONTH DAYS_IN_MONTH andb].

Ltac month_case HL Hdby :=
  eval_closed;
  match goal with |- context [?a <? ?b] => destruct (Z.ltb_spec a b) end;
  try (exfalso; lia);
  cbv iota beta; unfold ymd2ord, days_in_month, days_before_month;
  rewrite ?HL; eval_closed; rewrite Hdby; lia.

Lemma month_cases (n : Z) :
  0 <= n < 365 ->
  let m := Z.shiftr (n + 50) 5 in
  m = 1 \/ m = 2 \/ m = 3 \/ m = 4 \/ m = 5 \/ m = 6 \/
  m = 7 \/ m = 8 \/ m = 9 \/ m = 10 \/ m = 11 \/ m = 12.
Proof.
  intros H m. unfold m. rewrite Z.shiftr_div_pow2 by lia.
  change (2 ^ 5) with 32. Z.div_mod_to_equations. lia.
Qed.

Lemma ord2ymd_spec (n : Z) :
  let '(y, m, d) := ord2ymd n in
  1 <= m <= 12 /\ 1 <= d <= days_in_month y m /\ ymd2ord y m d = n.
Proof.
  unfold ord2ymd.
  pose proof (Z.div_mod (n - 1) 146097 ltac:(lia)) as Hq.
  pose proof (Z.mod_pos_bound (n - 1) 146097 ltac:(lia)) as Hr.
  set (q := (n - 1) / 146097) in *. set (r := (n - 1) mod 146097) in *.
  pose proof (Z.div_mod r 36524 ltac:(lia)) as Hq1.
  pose proof (Z.mod_pos_bound r 36524 ltac:(lia)) as Hr1.
  set (n100 := r / 36524) in *. set (r1 := r mod 36524) in *.
  pose proof (Z.div_mod r1 1461 ltac:(lia)) as Hq2.
  pose proof (Z.mod_pos_bound r1 1461 ltac:(lia)) as Hr2.
  set (n4 := r1 / 1461) in *. set (r2 := r1 mod 1461) in *.
  pose proof (Z.div_mod r2 365 ltac:(lia)) as Hq3.
  pose proof (Z.mod_pos_bound r2 365 ltac:(lia)) as Hr3.
  set (n1 := r2 / 365) in *. set (r3 := r2 mod 365) in *.
  clearbody q r n100 r1 n4 r2 n1 r3.
  assert (B100 : 0 <= n100 <= 4) by lia.
  assert (B4 : 0 <= n4 <= 24) by lia.
  assert (B1 : 0 <= n1 <= 4) by lia.
  destruct (Z.eqb_spec n1 4) as [E1|E1]; cbn [orb].
  { assert (n4 <= 23) by lia.
    unfold ymd2ord, days_in_month, days_before_month.
    replace (q * 400 + 1 + n100 * 100 + n4 * 4 + n1 - 1)
      with (q * 400 + 1 + n100 * 100 + n4 * 4 + 3) by lia.
    destruct (Z.eqb_spec n100 4) as [E100|E100]; [lia|].
    rewrite is_leap_cycles, days_before_year_cycles by lia.
    destruct (Z.eqb_spec n4 24); [lia|]. cbn. lia. }
  destruct (Z.eqb_spec n100 4) as [E100|E100].
  { unfold ymd2ord, days_in_month, days_before_month.
    replace (q * 400 + 1 + n100 * 100 + n4 * 4 + n1 - 1)
      with (q * 400 + 1 + 3 * 100 + 24 * 4 + 3) by lia.
    rewrite is_leap_cycles, days_before_year_cycles by lia.
    cbn. lia. }
  rewrite <- (is_leap_cycles q n100 n4 n1) by lia.
  set (y := q * 400 + 1 + n100 * 100 + n4 * 4 + n1) in *.
  assert (Hdby : days_before_year y = n - 1 - r3).
  { unfold y. rewrite days_before_year_cycles by lia. lia. }
  clear Hq Hr Hq1 Hr1 Hq2 Hr2 Hq3 B100 B4 B1 E1 E100.
  clearbody y.
  pose proof (month_cases r3 Hr3) as Hm. cbv zeta in Hm.
  assert (Hest : 32 * Z.shiftr (r3 + 50) 5 <= r3 + 50
                 < 32 * Z.shiftr (r3 + 50) 5 + 32).
  { rewrite Z.shiftr_div_pow2 by lia. change (2 ^ 5) with 32.
    Z.div_mod_to_equations. lia. }
  set (m := Z.shiftr (r3 + 50) 5) in *. clearbody m.
  destruct (is_leap y) eqn:HL;
    repeat (destruct Hm as [Hm|Hm]; [subst m; month_case HL Hdby|]);
    subst m; month_case HL Hdby.
Qed.

Lemma days_before_year_succ (y : Z) :
  days_before_year (y + 1)
  = days_before_year y + 365 + (if is_leap y then 1 else 0).
Proof.
  unfold days_before_year, is_leap.
  replace (y + 1 - 1) with y by lia.
  repeat match goal with
  | |- context [(?a =? ?b)] => destruct (Z.eqb_spec a b)
  end; cbn [andb orb negb]; Z.div_mod_to_equations; lia.
Qed.

Lemma days_before_year_mono (y y' : Z) :
  y <= y' -> days_before_year y <= days_before_year y'.
Proof. unfold days_before_year. intros H. Z.div_mod_to_equations. lia. Qed.

Lemma month_range_cases (m : Z) :
  1 <= m <= 12 ->
  m = 1 \/ m = 2 \/ m = 3 \/ m = 4 \/ m = 5 \/ m = 6 \/
  m = 7 \/ m = 8 \/ m = 9 \/ m = 10 \/ m = 11 \/ m = 12.
Proof. lia. Qed.

Ltac each_month Hm :=
  repeat (destruct Hm as [Hm|Hm]; [subst|]); subst.

Ltac eval_closed_hyps :=
  repeat match goal with
  | H : context [Z.pos ?p <? Z.pos ?q] |- _ =>
      let v := eval vm_compute in (Z.pos p <? Z.pos q) in
      change (Z.pos p <? Z.pos q) with v in H
  | H : context [Z.pos ?p =? Z.pos ?q] |- _ =>
      let v := eval vm_compute in (Z.pos p =? Z.pos q) in
      change (Z.pos p =? Z.pos q) with v in H
  end;
  cbn [DAYS_BEFORE_MONTH DAYS_IN_MONTH andb] in *;
  eval_closed.

(** The day of the year lies within the year. *)
Lemma day_of_year_bounds (y m d : Z) :
  1 <= m <= 12 -> 1 <= d <= days_in_month y m ->
  1 <= days_before_month y m + d <= 365 + (if is_leap y then 1 else 0).
Proof.
  intros Hm Hd. apply month_range_cases in Hm.
  unfold days_before_month, days_in_month in *.
  destruct (is_leap y); each_month Hm; eval_closed_hyps; lia.
Qed.

(** Within one year, the day of the year determines month and day. *)
Lemma day_of_year_inj (y m d m' d' : Z) :
  1 <= m <= 12 -> 1 <= d <= days_in_month y m ->
  1 <= m' <= 12 -> 1 <= d' <= days_in_month y m' ->
  days_before_month y m + d = days_before_month y m' + d' ->
  m = m' /\ d = d'.
Proof.
  intros Hm Hd Hm' Hd' E.
  apply month_range_cases in Hm. apply month_range_cases in Hm'.
  unfold days_before_month, days_in_month in *.
  destruct (is_leap y); each_month Hm; each_month Hm'; eval_closed_hyps; lia.
Qed.

Lemma ymd2ord_bounds (y m d : Z) :
  1 <= m <= 12 -> 1 <= d <= days_in_month y m ->
  days_before_year y < ymd2ord y m d <= days_before_year (y + 1).
Proof.
  intros Hm Hd. pose proof (day_of_year_bounds y m d Hm Hd).
  rewrite days_before_year_succ. unfold ymd2ord. lia.
Qed.

Lemma ymd2ord_inj (y m d y' m' d' : Z) :
  1 <= m <= 12 -> 1 <= d <= days_in_month y m ->
  1 <= m' <= 12 -> 1 <= d' <= days_in_month y' m' ->
  ymd2ord y m d = ymd2ord y' m' d' ->
  y = y' /\ m = m' /\ d = d'.
Proof.
  intros Hm Hd Hm' Hd' E.
  pose proof (ymd2ord_bounds y m d Hm Hd) as B.
  pose proof (ymd2ord_bounds y' m' d' Hm' Hd') as B'.
  assert (Hy : y = y').
  { destruct (Z.lt_trichotomy y y') as [Hlt|[Heq|Hgt]]; [|exact Heq|].
    - pose proof (days_before_year_mono (y + 1) y' ltac:(lia)). lia.
    - pose proof (days_before_year_mono (y' + 1) y ltac:(lia)). lia. }
  subst y'. split; [reflexivity|].
  apply (day_of_year_inj y); try assumption.
  unfold ymd2ord in E. lia.
Qed.

Lemma ord2ymd_ymd2ord (y m d : Z) :
  1 <= m <= 12 -> 1 <= d <= days_in_month y m ->
  ord2ymd (ymd2ord y m d) = (y, m, d).
Proof.
  intros Hm Hd. pose proof (ord2ymd_spec (ymd2ord y m d)) as S.
  destruct (ord2ymd (ymd2ord y m d)) as [[y' m'] d'].
  destruct S as (Hm' & Hd' & E).
  destruct (ymd2ord_inj y' m' d' y m d Hm' Hd' Hm Hd E) as (-> & -> & ->).
  reflexivity.
Qed.

(** Ordinals [1 .. MAXORDINAL] are the days of the years 1 to 9999. *)
Lemma ord2ymd_year_range (n : Z) :
  0 < n <= MAXORDINAL ->
  let '(y, m, d) := ord2ymd n in 1 <= y <= 9999.
Proof.
  intros Hn. pose proof (ord2ymd_spec n) as S.
  destruct (ord2ymd n) as [[y m] d]. destruct S as (Hm & Hd & E).
  pose proof (ymd2ord_bounds y m d Hm Hd) as B. rewrite E in B.
  unfold MAXORDINAL in Hn.
  destruct (Z_lt_le_dec y 1) as [Hlow|Hlow].
  { pose proof (days_before_year_mono (y + 1) 1 ltac:(lia)) as M.
    change (days_before_year 1) with 0 in M. lia. }
  destruct (Z_lt_le_dec 9999 y) as [Hhigh|Hhigh]; [|lia].
  pose proof (days_before_year_mono 10000 y ltac:(lia)) as M.
  change (days_before_year 10000) with 3652059 in M. lia.
Qed.

Lemma ymd2ord_year_range (y m d : Z) :
  1 <= y <= 9999 -> 1 <= m <= 12 -> 1 <= d <= days_in_month y m ->
  0 < ymd2ord y m d <= MAXORDINAL.
Proof.
  intros Hy Hm Hd. pose proof (ymd2ord_bounds y m d Hm Hd) as B.
  pose proof (days_before_year_mono 1 y ltac:(lia)) as M1.
  pose proof (days_before_year_mono (y + 1) 10000 ltac:(lia)) as M2.
  change (days_before_year 1) with 0 in M1.
  change (days_before_year 10000) with 3652059 in M2.
  unfold MAXORDINAL. lia.
Qed.

(** ** [ensure_utc] and [format_ics_datetime] *)

Lemma valid_date_iff (y m d : Z) :
  valid_date y m d = true
  <-> 1 <= y <= 9999 /\ 1 <= m <= 12 /\ 1 <= d <= days_in_month y m.
Proof.
  unfold valid_date. rewrite !andb_true_iff, !Z.leb_le. tauto.
Qed.

Lemma valid_time_iff (h mi s : Z) :
  valid_time h mi s = true <-> 0 <= h < 24 /\ 0 <= mi < 60 /\ 0 <= s < 60.
Proof.
  unfold valid_time. rewrite !andb_true_iff, !Z.leb_le, !Z.ltb_lt. tauto.
Qed.

Lemma valid_datetime_iff (value : datetime) :
  valid_datetime value = true
  <-> valid_date (year value) (month value) (day value) = true
      /\ valid_time (hour value) (minute value) (second value) = true
      /\ 0 <= microsecond value < 1000000
      /\ match tzinfo value with
         | None => True
         | Some offset => -86400000000 < offset < 86400000000
         end.
Proof.
  unfold valid_datetime. rewrite !andb_true_iff, Z.leb_le, Z.ltb_lt.
  destruct (tzinfo value) as [offset|].
  - rewrite andb_true_iff, !Z.ltb_lt. tauto.
  - tauto.
Qed.

(** Adding a time span to a well-formed timestamp: when the resulting day
    is one of [1 .. MAXORDINAL] the sum is a well-formed timestamp standing
    exactly [delta] microseconds later, in the same time zone. *)
Lemma datetime_add_ok (value : datetime) (delta : Z) :
  0 < (wall_microseconds value + delta) / 86400000000 <= MAXORDINAL ->
  exists r : datetime,
    datetime_add value delta = Ok r
    /\ valid_date (year r) (month r) (day r) = true
    /\ valid_time (hour r) (minute r) (second r) = true
    /\ 0 <= microsecond r < 1000000
    /\ wall_microseconds r = wall_microseconds value + delta
    /\ tzinfo r = tzinfo value.
Proof.
  intros Hdays. unfold datetime_add.
  set (total := wall_microseconds value + delta) in *.
  assert (Hin : (0 <? total / 86400000000)
                && (total / 86400000000 <=? MAXORDINAL) = true).
  { apply andb_true_iff. rewrite Z.ltb_lt, Z.leb_le. exact Hdays. }
  rewrite Hin.
  pose proof (ord2ymd_spec (total / 86400000000)) as S.
  pose proof (ord2ymd_year_range (total / 86400000000) Hdays) as Y.
  destruct (ord2ymd (total / 86400000000)) as [[y m] d].
  destruct S as (Hm & Hd & E).
  eexists. split; [reflexivity|]. cbn [year month day hour minute second
                                         microsecond tzinfo].
  split; [apply valid_date_iff; lia|].
  split; [apply valid_time_iff; Z.div_mod_to_equations; lia|].
  split; [Z.div_mod_to_equations; lia|].
  split; [|reflexivity].
  unfold wall_microseconds.
  cbn [year month day hour minute second microsecond]. rewrite E.
  clearbody total. clear. Z.div_mod_to_equations. lia.
Qed.

Lemma wall_microseconds_day (value : datetime) :
  valid_time (hour value) (minute value) (second value) = true ->
  0 <= microsecond value < 1000000 ->
  wall_microseconds value / 86400000000
  = ymd2ord (year value) (month value) (day value).
Proof.
  intros Ht Hus. apply valid_time_iff in Ht. unfold wall_microseconds.
  Z.div_mod_to_equations. lia.
Qed.

(** Two well-formed timestamps with the same wall-clock reading have the
    same fields. *)
Lemma wall_microseconds_inj (a b : datetime) :
  valid_datetime a = true -> valid_datetime b = true ->
  wall_microseconds a = wall_microseconds b ->
  replace_tzinfo a None = replace_tzinfo b None.
Proof.
  intros Ha Hb E.
  apply valid_datetime_iff in Ha. destruct Ha as (Hda & Hta & Hua & _).
  apply valid_datetime_iff in Hb. destruct Hb as (Hdb & Htb & Hub & _).
  pose proof (wall_microseconds_day a Hta Hua) as Da.
  pose proof (wall_microseconds_day b Htb Hub) as Db.
  rewrite E, Db in Da.
  apply valid_date_iff in Hda, Hdb. apply valid_time_iff in Hta, Htb.
  destruct (ymd2ord_inj (year b) (month b) (day b)
              (year a) (month a) (day a)) as (Ey & Em & Ed);
    try tauto.
  unfold wall_microseconds in E. rewrite Ey, Em, Ed in E.
  destruct a, b; cbn in *. unfold replace_tzinfo; cbn.
  subst. f_equal; lia.
Qed.

Lemma digit_cases (n : Z) :
  let k := n mod 10 in
  k = 0 \/ k = 1 \/ k = 2 \/ k = 3 \/ k = 4 \/
  k = 5 \/ k = 6 \/ k = 7 \/ k = 8 \/ k = 9.
Proof. cbv zeta. Z.div_mod_to_equations. lia. Qed.





Lemma wall_microseconds_replace_tzinfo (value : datetime) (tz : option Z) :
  wall_microseconds (replace_tzinfo value tz) = wall_microseconds value.
Proof.
  unfold wall_microseconds, replace_tzinfo.
  cbn [year month day hour minute second microsecond]. reflexivity.
Qed.

Lemma utc_representable_days (value : datetime) :
  utc_representable value = true ->
  0 < utc_microseconds value / 86400000000 <= MAXORDINAL.
Proof.
  unfold utc_representable, utc_seconds, MAXORDINAL.
  rewrite andb_true_iff, Z.leb_le, Z.ltb_lt.
  intros H. Z.div_mod_to_equations. lia.
Qed.

(** What [ensure_utc] returns for a well-formed timestamp whose instant is
    within the years 1 to 9999 of UTC: the well-formed UTC timestamp of the
    same instant; a value that is naive or already at offset 0 keeps its
    fields. *)
Lemma ensure_utc_ok (value : datetime) :
  valid_datetime value = true ->
  utc_representable value = true ->
  exists normal : datetime,
    ensure_utc value = Ok normal
    /\ tzinfo normal = utc
    /\ valid_datetime normal = true
    /\ utc_microseconds normal = utc_microseconds value
    /\ (tzinfo value = None \/ tzinfo value = utc ->
        normal = replace_tzinfo value utc).
Proof.
  intros Hv Hr. pose proof (utc_representable_days value Hr) as Hdays.
  pose proof Hv as Hv'. apply valid_datetime_iff in Hv'.
  destruct Hv' as (Hd & Ht & Hus & Htz).
  unfold ensure_utc, utc_microseconds in *.
  destruct (tzinfo value) as [offset|] eqn:Etz.
  - unfold astimezone_utc.
    destruct (datetime_add_ok value (- offset)) as (r & Hadd & Hrd & Hrt & Hru & Hw & Hrtz).
    { replace (wall_microseconds value + - offset)
        with (wall_microseconds value - offset) by lia. exact Hdays. }
    rewrite Hadd. cbn [bind].
    exists (replace_tzinfo r utc).
    assert (Hnv : valid_datetime (replace_tzinfo r utc) = true).
    { apply valid_datetime_iff. cbn. repeat split; try assumption; lia. }
    split; [reflexivity|]. split; [reflexivity|]. split; [exact Hnv|].
    split.
    + rewrite wall_microseconds_replace_tzinfo.
      cbn [tzinfo replace_tzinfo utc]. lia.
    + intros [Hnone|Hutc]; [discriminate|].
      injection Hutc as ->.
      assert (Hsame : replace_tzinfo (replace_tzinfo r utc) None
                      = replace_tzinfo value None).
      { apply wall_microseconds_inj; [exact Hnv|exact Hv|].
        rewrite wall_microseconds_replace_tzinfo. lia. }
      unfold replace_tzinfo in *. cbn in Hsame |- *.
      injection Hsame as -> -> -> -> -> -> ->. reflexivity.
  - exists (replace_tzinfo value utc).
    split; [reflexivity|]. split; [reflexivity|]. split.
    + apply valid_datetime_iff. cbn. repeat split; try assumption; lia.
    + split; [|reflexivity].
      rewrite wall_microseconds_replace_tzinfo.
      cbn [tzinfo replace_tzinfo utc]. lia.
Qed.




(** ** [resolve_resource_filters] *)

Lemma filter_value_eqb_eq (a b : filter_value) :
  filter_value_eqb a b = true <-> a = b.
Proof.
  destruct a as [x|x], b as [y|y]; cbn; split; intros H;
    try discriminate; try congruence.
  - apply String.eqb_eq in H. now subst.
  - injection H as ->. apply String.eqb_refl.
  - apply Z.eqb_eq in H. now subst.
  - injection H as ->. apply Z.eqb_refl.
Qed.

Lemma key_val_eqb_eq (a b : key_val) : key_val_eqb a b = true <-> a = b.
Proof.
  destruct a as [ka va], b as [kb vb]. unfold key_val_eqb. cbn [fst snd].
  rewrite andb_true_iff, String.eqb_eq, filter_value_eqb_eq.
  split; [intros [-> ->]; reflexivity | intros E; injection E; auto].
Qed.

Lemma key_val_eqb_sym (a b : key_val) : key_val_eqb a b = key_val_eqb b a.
Proof.
  destruct (key_val_eqb a b) eqn:E1, (key_val_eqb b a) eqn:E2;
    try reflexivity.
  - apply key_val_eqb_eq in E1. subst.
    rewrite (proj2 (key_val_eqb_eq b b) eq_refl) in E2. discriminate.
  - apply key_val_eqb_eq in E2. subst.
    rewrite (proj2 (key_val_eqb_eq a a) eq_refl) in E1. discriminate.
Qed.

Lemma in_seen_iff (kv : key_val) (seen : list key_val) :
  in_seen kv seen = true <-> In kv seen.
Proof.
  unfold in_seen. rewrite existsb_exists. split.
  - intros (x & Hin & E). apply key_val_eqb_eq in E. now subst.
  - intros Hin. exists kv. split; [exact Hin|]. now apply key_val_eqb_eq.
Qed.

Lemma filter_twice {A : Type} (f g : A -> bool) (l : list A) :
  filter f (filter g l) = filter (fun x => g x && f x) l.
Proof.
  induction l as [|x l IH]; [reflexivity|]. cbn.
  destruct (g x); cbn; [destruct (f x)|]; now rewrite IH.
Qed.

Lemma filter_same {A : Type} (f g : A -> bool) (l : list A) :
  (forall x, In x l -> f x = g x) -> filter f l = filter g l.
Proof.
  induction l as [|x l IH]; intros H; [reflexivity|]. cbn.
  rewrite (H x (or_introl eq_refl)), IH; [reflexivity|].
  intros y Hy. apply H. now right.
Qed.

Lemma filter_all {A : Type} (f : A -> bool) (l : list A) :
  (forall x, In x l -> f x = true) -> filter f l = l.
Proof.
  induction l as [|x l IH]; intros H; [reflexivity|]. cbn.
  rewrite (H x (or_introl eq_refl)), IH; [reflexivity|].
  intros y Hy. apply H. now right.
Qed.

(** The loop, started with any accumulators, appends to [resolved] the
    first occurrences of the filters not yet in [seen]. *)
Lemma resolve_loop_spec (resources : list string) :
  forall resolved seen : list key_val,
    resolve_loop resources resolved seen
    = (filters <- classify_all resources ;;
       Ok (resolved
           ++ filter (fun kv => negb (in_seen kv seen))
                (dedup_first filters))%list).
Proof.
  induction resources as [|raw rest IH]; intros resolved seen.
  - cbn. now rewrite List.app_nil_r.
  - cbn [resolve_loop classify_all].
    destruct (str_strip raw) as [|c r]; [apply IH|].
    destruct (classify_token (String c r)) as [kv|e]; [|reflexivity].
    cbn [bind]. destruct (in_seen kv seen) eqn:Hseen.
    + rewrite IH. destruct (classify_all rest) as [filters|e]; [|reflexivity].
      cbn [bind dedup_first filter]. rewrite Hseen. cbn [negb].
      rewrite filter_twice. do 2 f_equal. apply filter_same.
      intros x _. destruct (key_val_eqb kv x) eqn:E; [|reflexivity].
      apply key_val_eqb_eq in E. subst x. now rewrite Hseen.
    + rewrite IH. destruct (classify_all rest) as [filters|e]; [|reflexivity].
      cbn [bind dedup_first filter]. rewrite Hseen. cbn [negb].
      rewrite <- List.app_assoc. cbn [List.app].
      rewrite filter_twice. do 3 f_equal. apply filter_same.
      intros x _. unfold in_seen. cbn [existsb].
      rewrite (key_val_eqb_sym x kv), negb_orb. reflexivity.
Qed.

Lemma resolve_resource_filters_spec (resources : list string) :
  resolve_resource_filters resources = resolve_spec resources.
Proof.
  unfold resolve_resource_filters, resolve_spec.
  rewrite resolve_loop_spec.
  destruct (classify_all resources) as [filters|e]; [|reflexivity].
  cbn [bind List.app]. rewrite filter_all by reflexivity.
  destruct (dedup_first filters); reflexivity.
Qed.


Lemma is_digit_not_space (c : ascii) : is_digit c = true -> is_space c = false.
Proof.
  unfold is_digit, is_space. cbv zeta.
  rewrite andb_true_iff, !Nat.leb_le. intros [H1 H2].
  apply orb_false_iff. split; apply andb_false_iff.
  - right. apply Nat.leb_gt. lia.
  - right. apply Nat.leb_gt. lia.
Qed.

Lemma str_rstrip_digits (s : string) :
  str_all is_digit s = true -> str_rstrip s = s.
Proof.
  induction s as [|c r IH]; [reflexivity|]. cbn [str_all str_rstrip].
  rewrite andb_true_iff. intros [Hc Hr]. rewrite (IH Hr).
  destruct r; [|reflexivity]. now rewrite (is_digit_not_space c Hc).
Qed.

Lemma str_strip_digits (s : string) :
  str_all is_digit s = true -> str_strip s = s.
Proof.
  intros H. unfold str_strip.
  assert (Hl : str_lstrip s = s).
  { destruct s as [|c r]; [reflexivity|]. cbn [str_lstrip].
    cbn [str_all] in H. apply andb_true_iff in H as [Hc _].
    now rewrite (is_digit_not_space c Hc). }
  rewrite Hl. now apply str_rstrip_digits.
Qed.

Lemma int_digits_all (s : string) :
  forall (acc : Z) (after_digit : bool),
    str_all is_digit s = true ->
    s <> EmptyString \/ after_digit = true ->
    int_digits acc after_digit s = Some (decimal_value_from acc s).
Proof.
  induction s as [|c r IH]; intros acc after_digit Hall Hne.
  - destruct Hne as [Hne | ->]; [congruence | reflexivity].
  - cbn [str_all] in Hall. apply andb_true_iff in Hall as [Hc Hr].
    cbn [int_digits decimal_value_from]. rewrite Hc.
    apply IH; [exact Hr | now right].
Qed.

(** [int] of a string of digits is the number the digits write. *)
Lemma py_int_str_digits (s : string) :
  str_isdigit s = true -> py_int_str s = Ok (decimal_value s).
Proof.
  intros H. destruct s as [|c r]; [discriminate|].
  unfold str_isdigit in H. unfold py_int_str, int_of_str.
  rewrite (str_strip_digits _ H).
  pose proof H as H'. cbn [str_all] in H'.
  apply andb_true_iff in H' as [Hc _].
  destruct (Ascii.eqb_spec c "-"%char) as [->|_]; [discriminate|].
  destruct (Ascii.eqb_spec c "+"%char) as [->|_]; [discriminate|].
  rewrite (int_digits_all (String c r) 0 false H); [reflexivity|].
  left. discriminate.
Qed.

Lemma dedup_first_In (kv : key_val) (filters : list key_val) :
  In kv (dedup_first filters) <-> In kv filters.
Proof.
  induction filters as [|x l IH]; [reflexivity|]. cbn [dedup_first In].
  rewrite filter_In, IH. split.
  - intros [H|[H _]]; auto.
  - intros [H|H]; [now left|].
    destruct (key_val_eqb x kv) eqn:E.
    + left. now apply key_val_eqb_eq.
    + right. split; [exact H | reflexivity].
Qed.

Lemma dedup_first_NoDup (filters : list key_val) : NoDup (dedup_first filters).
Proof.
  induction filters as [|x l IH]; [constructor|]. cbn [dedup_first].
  constructor.
  - rewrite filter_In. intros [_ H].
    rewrite (proj2 (key_val_eqb_eq x x) eq_refl) in H. discriminate.
  - now apply NoDup_filter.
Qed.




Example resolve_resource_filters_run :
  resolve_resource_filters ["  CF "; "codeforces"; ""; "93"; "example.org"; "093"]
  = Ok [("resource", FHost "codeforces.com"); ("resource_id", FId 93);
        ("resource", FHost "example.org")]
  /\ resolve_resource_filters ["lc"; "topcoder"; "cf"]
     = Raise (ClistApiError (unknown_resource_message "topcoder"))
  /\ resolve_resource_filters [" "; ""]
     = Raise (ClistApiError
         "No valid resources resolved. Check the provided resource filters.").
Proof. repeat split; reflexivity. Qed.

(** ** [deduplicate_contests] and the sort on [start] *)

Section TupleOrder.

Lemma tuple_ltb_irrefl (a : list Z) : tuple_ltb a a = false.
Proof.
  induction a as [|x a IH]; [reflexivity|]. cbn [tuple_ltb].
  now rewrite Z.ltb_irrefl.
Qed.

Lemma tuple_ltb_trans (a : list Z) :
  forall b c, tuple_ltb a b = true -> tuple_ltb b c = true ->
              tuple_ltb a c = true.
Proof.
  induction a as [|x a IH]; intros [|y b] [|z c]; cbn [tuple_ltb];
    try discriminate; try reflexivity.
  destruct (Z.ltb_spec x y), (Z.ltb_spec y x), (Z.ltb_spec y z),
    (Z.ltb_spec z y), (Z.ltb_spec x z), (Z.ltb_spec z x);
    try discriminate; try reflexivity; try lia.
  apply IH.
Qed.

Lemma tuple_ltb_total (a : list Z) :
  forall b, tuple_ltb a b = false -> tuple_ltb b a = false -> a = b.
Proof.
  induction a as [|x a IH]; intros [|y b]; cbn [tuple_ltb];
    try discriminate; try reflexivity.
  destruct (Z.ltb_spec x y), (Z.ltb_spec y x); try discriminate; try lia.
  intros H1 H2. assert (x = y) by lia. subst. f_equal. now apply IH.
Qed.

(** Not earlier, then later or equal: the two halves of a comparison. *)
Lemma tuple_ltb_asym (a b : list Z) :
  tuple_ltb a b = true -> tuple_ltb b a = false.
Proof.
  intros H. destruct (tuple_ltb b a) eqn:E; [|reflexivity].
  pose proof (tuple_ltb_trans a b a H E) as T.
  now rewrite tuple_ltb_irrefl in T.
Qed.

Lemma tuple_le_trans (a b c : list Z) :
  tuple_ltb b a = false -> tuple_ltb c b = false -> tuple_ltb c a = false.
Proof.
  intros Hab Hbc. destruct (tuple_ltb c a) eqn:E; [|reflexivity].
  destruct (tuple_ltb a b) eqn:E2.
  - pose proof (tuple_ltb_trans c a b E E2). congruence.
  - pose proof (tuple_ltb_total a b E2 Hab). subst. congruence.
Qed.

End TupleOrder.

Lemma start_le_trans (a b c : Contest) :
  start_le a b -> start_le b c -> start_le a c.
Proof. unfold start_le, datetime_ltb. apply tuple_le_trans. Qed.


(** *** The sort *)

Lemma insert_by_start_perm (c : Contest) (l : list Contest) :
  Permutation (c :: l) (insert_by_start c l).
Proof.
  induction l as [|x l IH]; [apply Permutation_refl|].
  cbn [insert_by_start]. destruct (datetime_ltb (start x) (start c)).
  - eapply perm_trans; [apply perm_swap|]. now apply perm_skip.
  - apply Permutation_refl.
Qed.

Lemma sort_by_start_perm (l : list Contest) :
  Permutation l (sort_by_start l).
Proof.
  induction l as [|c l IH]; [constructor|]. cbn [sort_by_start fold_right].
  eapply perm_trans; [apply perm_skip, IH|]. apply insert_by_start_perm.
Qed.

Lemma insert_by_start_sorted (c : Contest) (l : list Contest) :
  StronglySorted start_le l -> StronglySorted start_le (insert_by_start c l).
Proof.
  induction 1 as [|x l Hl IH Hx]; cbn [insert_by_start].
  - repeat constructor.
  - destruct (datetime_ltb (start x) (start c)) eqn:E.
    + constructor; [exact IH|].
      apply Forall_forall. intros y Hy.
      apply (Permutation_in _ (Permutation_sym (insert_by_start_perm c l)))
        in Hy.
      destruct Hy as [<-|Hy].
      * unfold start_le, datetime_ltb in *. now apply tuple_ltb_asym.
      * rewrite Forall_forall in Hx. now apply Hx.
    + constructor; [now constructor|].
      constructor; [exact E|].
      apply Forall_forall. intros y Hy. rewrite Forall_forall in Hx.
      apply (start_le_trans c x y); [exact E | now apply Hx].
Qed.

Lemma sort_by_start_sorted (l : list Contest) :
  StronglySorted start_le (sort_by_start l).
Proof.
  induction l as [|c l IH]; [constructor|].
  cbn [sort_by_start fold_right]. now apply insert_by_start_sorted.
Qed.



(** *** The mapping built by [deduplicate_contests] *)

Lemma mem_id_iff (key : Z) (keys : list Z) :
  mem_id key keys = true <-> In key keys.
Proof.
  unfold mem_id. rewrite existsb_exists. split.
  - intros (x & Hin & E). apply Z.eqb_eq in E. now subst.
  - intros Hin. exists key. split; [exact Hin | apply Z.eqb_refl].
Qed.

Lemma dict_set_keys (d : list (Z * Contest)) (key : Z) (c : Contest) :
  map fst (dict_set d key c)
  = if mem_id key (map fst d) then map fst d
    else (map fst d ++ [key])%list.
Proof.
  induction d as [|[k v] d IH]; [reflexivity|].
  cbn [dict_set map fst]. unfold mem_id in *. cbn [existsb].
  rewrite (Z.eqb_sym key k).
  destruct (Z.eqb_spec k key) as [->|Hne]; cbn [orb map fst].
  - reflexivity.
  - rewrite IH. destruct (existsb (Z.eqb key) (map fst d)); reflexivity.
Qed.

Lemma dict_set_In (d : list (Z * Contest)) (key : Z) (c : Contest) :
  NoDup (map fst d) ->
  forall k v,
    In (k, v) (dict_set d key c)
    <-> (k = key /\ v = c) \/ (k <> key /\ In (k, v) d).
Proof.
  induction d as [|[k0 v0] d IH]; intros Hnd k v.
  - cbn. split.
    + intros [E|[]]. injection E as <- <-. now left.
    + intros [[-> ->]|[_ []]]. now left.
  - cbn [map fst] in Hnd. apply NoDup_cons_iff in Hnd as [Hnotin Hnd].
    cbn [dict_set]. destruct (Z.eqb_spec k0 key) as [->|Hne].
    + cbn [In]. split.
      * intros [E|Hin].
        -- injection E as <- <-. now left.
        -- right. split; [|now right].
           intros ->. apply Hnotin. apply in_map_iff.
           now exists (key, v).
      * intros [[-> ->]|[Hk [E|Hin]]].
        -- now left.
        -- injection E as <- _. congruence.
        -- now right.
    + cbn [In]. rewrite (IH Hnd). split.
      * intros [E|[[-> ->]|[Hk Hin]]].
        -- injection E as <- <-. right. split; [congruence | now left].
        -- now left.
        -- right. split; [exact Hk | now right].
      * intros [[-> ->]|[Hk [E|Hin]]].
        -- right. now left.
        -- now left.
        -- right. right. now split.
Qed.

Lemma dedup_step_ok (d : list (Z * Contest)) (c : Contest) :
  dict_ok d -> dict_ok (dedup_step d c).
Proof.
  intros [Hnd Hall]. unfold dedup_step. split.
  - rewrite dict_set_keys.
    destruct (mem_id (contest_id c) (map fst d)) eqn:E; [exact Hnd|].
    apply NoDup_app; [exact Hnd | repeat constructor; intros [] |].
    intros k Hk [<-|[]].
    apply mem_id_iff in Hk. congruence.
  - apply Forall_forall. intros [k v] Hin. cbn [fst snd].
    apply (dict_set_In d (contest_id c) c Hnd) in Hin.
    destruct Hin as [[-> ->]|[_ Hin]]; [reflexivity|].
    rewrite Forall_forall in Hall. exact (Hall (k, v) Hin).
Qed.

Lemma fold_dedup_step_ok (l : list Contest) :
  forall d, dict_ok d -> dict_ok (fold_left dedup_step l d).
Proof.
  induction l as [|c l IH]; intros d Hd; [exact Hd|].
  cbn [fold_left]. apply IH. now apply dedup_step_ok.
Qed.






Lemma dict_values_ids (d : list (Z * Contest)) :
  dict_ok d -> map contest_id (map snd d) = map fst d.
Proof.
  intros [_ Hall]. induction Hall as [|[k v] d Hkv Hall IH]; [reflexivity|].
  cbn [map fst snd] in *. now rewrite Hkv, IH.
Qed.

Lemma dict_ok_nil : dict_ok [].
Proof. split; constructor. Qed.



Lemma deduplicate_contests_NoDup (l : list Contest) :
  NoDup (map contest_id (deduplicate_contests l)).
Proof.
  unfold deduplicate_contests. fold dedup_step.
  rewrite dict_values_ids by (apply fold_dedup_step_ok, dict_ok_nil).
  apply (fold_dedup_step_ok l [] dict_ok_nil).
Qed.


(** ** [parse_iso_datetime] and [parse_contest] *)

Section ParseFacts.

Context {runtime : PyRuntime}.

Lemma astimezone_utc_tzinfo (value normal : datetime) (offset : Z) :
  astimezone_utc value offset = Ok normal -> tzinfo normal = utc.
Proof.
  unfold astimezone_utc. destruct (datetime_add value (- offset)); cbn [bind];
    [|discriminate].
  intros E. injection E as <-. reflexivity.
Qed.

(** Every timestamp [parse_iso_datetime] returns carries [timezone.utc];
    so does every [Contest]. *)
Lemma parse_iso_datetime_utc (text : string) (value : datetime) :
  parse_iso_datetime text = Ok value -> tzinfo value = utc.
Proof.
  unfold parse_iso_datetime.
  set (text' := if str_endswith "Z"%char text then _ else _).
  destruct (fromisoformat text') as [parsed|].
  - cbn [bind]. destruct (tzinfo parsed) as [offset|] eqn:E.
    + rewrite E. apply astimezone_utc_tzinfo.
    + cbn [tzinfo replace_tzinfo utc]. apply astimezone_utc_tzinfo.
  - destruct (strptime_seconds text') as [parsed|]; [|discriminate].
    cbn [bind tzinfo replace_tzinfo utc]. apply astimezone_utc_tzinfo.
Qed.

(** A payload without the key [id] makes [parse_contest] raise [KeyError],
    whatever else it holds. *)
Lemma parse_contest_missing_id (items : list (string * pyval)) :
  dict_get items "id" = None ->
  parse_contest (PDict items) = Raise (KeyError "id").
Proof. intros H. unfold parse_contest. now rewrite H. Qed.

(** A payload whose [id] is [null] makes it raise [TypeError]. *)
Lemma parse_contest_null_id (items : list (string * pyval)) :
  dict_get items "id" = Some PNone ->
  parse_contest (PDict items) = Raise TypeError.
Proof. intros H. unfold parse_contest. now rewrite H. Qed.

(** The title of an accepted payload is the stripped text of the first
    truthy one among [event], [title] and the synthesized name. *)
Lemma parse_contest_title (items : list (string * pyval)) (c : Contest) :
  parse_contest (PDict items) = Ok c ->
  title c
  = str_strip
      (py_str (py_or (py_or (py_get items "event") (py_get items "title"))
                     (PStr ("Contest " ++ str_of_Z (contest_id c))))).
Proof.
  unfold parse_contest.
  destruct (dict_get items "id") as [id_field|]; [|discriminate].
  cbn [bind]. destruct (py_int id_field) as [id|]; [|discriminate].
  cbn [bind].
  destruct (parse_iso_datetime (py_str (py_get items "start")));
    [|discriminate].
  cbn [bind].
  destruct (parse_iso_datetime (py_str (py_get items "end")));
    [|discriminate].
  cbn [bind].
  destruct (py_int _) as [rid|]; [|discriminate]. cbn [bind].
  intros E. injection E as <-. reflexivity.
Qed.

End ParseFacts.

(** C10 at its failing input.  The payload with id 7, the event name made
    of one space and well-formed start and end is accepted, and the title
    of the record is the empty string: [strip] is applied after the
    fallback chain has settled on the blank event name. *)
Theorem parse_contest_blank_title :
  parse_contest (sample_payload 7 " " "2025-01-01T00:00:00Z"
                   "2025-01-01T02:30:00Z")
  = Ok (mk_Contest 7 ""
          (mk_datetime 2025 1 1 0 0 0 0 utc)
          (mk_datetime 2025 1 1 2 30 0 0 utc)
          "https://codeforces.com/contests/1" 0 "codeforces.com").
Proof. vm_compute. reflexivity. Qed.

(** The same payload with a proper event name, for comparison. *)
Example parse_contest_sample :
  parse_contest (sample_payload 7 "Div 2" "2025-01-01T00:00:00Z"
                   "2025-01-01T02:30:00Z")
  = Ok (mk_Contest 7 "Div 2"
          (mk_datetime 2025 1 1 0 0 0 0 utc)
          (mk_datetime 2025 1 1 2 30 0 0 utc)
          "https://codeforces.com/contests/1" 0 "codeforces.com")
  /\ summary (mk_Contest 7 "Div 2"
          (mk_datetime 2025 1 1 0 0 0 0 utc)
          (mk_datetime 2025 1 1 2 30 0 0 utc)
          "https://codeforces.com/contests/1" 0 "Codeforces")
     = "Codeforces: Div 2"
  /\ humanize_duration (duration (mk_Contest 7 "Div 2"
          (mk_datetime 2025 1 1 0 0 0 0 utc)
          (mk_datetime 2025 1 1 2 30 0 0 utc)
          "https://codeforces.com/contests/1" 0 "Codeforces"))
     = "2h 30m".
Proof. repeat split; vm_compute; reflexivity. Qed.

(** ** The paginated fetch *)

Section FetchFacts.

Context {runtime : PyRuntime}.

Lemma mbind_lift_ok {A B : Type} (a : A) (k : A -> M B) (w : world) :
  mbind (lift (Ok a)) k w = k a w.
Proof. reflexivity. Qed.

Lemma mbind_ret {A B : Type} (a : A) (k : A -> M B) (w : world) :
  mbind (ret a) k w = k a w.
Proof. reflexivity. Qed.

Lemma mbind_inv {A B : Type} (m : M A) (k : A -> M B) (w w' : world) (b : B) :
  mbind m k w = Some (Ok b, w') ->
  exists a w1, m w = Some (Ok a, w1) /\ k a w1 = Some (Ok b, w').
Proof.
  unfold mbind. destruct (m w) as [[[a|e] w1]|]; try discriminate.
  intros H. now exists a, w1.
Qed.

Lemma requests_of_app (a b : list event) :
  requests_of (a ++ b) = (requests_of a ++ requests_of b)%list.
Proof.
  induction a as [|e a IH]; [reflexivity|].
  destruct e; cbn [List.app requests_of]; now rewrite IH.
Qed.

Lemma cap_reached_false (cap : Z) (fetched : list Contest) :
  cap_reached cap fetched = false -> has_room cap (List.length fetched).
Proof.
  unfold cap_reached, has_room.
  destruct (Z.eqb_spec cap 0) as [E|E]; cbn [negb andb]; [now left|].
  intros H. apply Z.leb_gt in H. now right.
Qed.

Lemma cap_reached_true (cap : Z) (fetched : list Contest) :
  cap_reached cap fetched = true ->
  cap <> 0 /\ cap <= Z.of_nat (List.length fetched).
Proof.
  unfold cap_reached.
  destruct (Z.eqb_spec cap 0) as [E|E]; cbn [negb andb]; [discriminate|].
  intros H. apply Z.leb_le in H. now split.
Qed.

(** What the loop over one page does when it ends without an exception:
    it issues no request, and either stops at the payload that completes
    the cap or has read the whole page. *)
Lemma parse_page_spec (cap : Z) (payloads : list pyval) :
  forall (fetched : list Contest) (w w' : world) (capped : bool)
         (fetched' : list Contest),
    has_room cap (List.length fetched) ->
    parse_page cap payloads fetched w = Some (Ok (capped, fetched'), w') ->
    calls w' = calls w
    /\ clock_reads w' = clock_reads w
    /\ requests_of (trace w') = requests_of (trace w)
    /\ if capped then
         exists before hit unread cs c,
           payloads = (before ++ hit :: unread)%list
           /\ page_contests before = Ok cs
           /\ parse_contest hit = Ok c
           /\ fetched' = (fetched ++ cs ++ [c])%list
           /\ Z.of_nat (List.length fetched') = cap
       else
         exists cs,
           page_contests payloads = Ok cs
           /\ fetched' = (fetched ++ cs)%list
           /\ has_room cap (List.length fetched').
Proof.
  induction payloads as [|payload rest IH];
    intros fetched w w' capped fetched' Hroom H.
  - cbn in H. injection H as <- <- <-. repeat split; try reflexivity.
    exists []. rewrite List.app_nil_r. repeat split. exact Hroom.
  - cbn [parse_page] in H.
    destruct (parse_contest payload) as [contest|e] eqn:Ep.
    + destruct (cap_reached cap (fetched ++ [contest])) eqn:Ecap.
      * cbn in H. injection H as <- <- <-. repeat split; try reflexivity.
        exists [], payload, rest, [], contest.
        repeat split; try assumption; try reflexivity.
        apply cap_reached_true in Ecap as [Hne Hle].
        destruct Hroom as [Hz|Hlt]; [congruence|].
        cbn [List.app]. rewrite List.length_app in *.
        cbn [List.length] in *. lia.
      * apply cap_reached_false in Ecap.
        destruct (IH _ _ _ _ _ Ecap H) as (Hc & Hk & Hr & Hrest).
        repeat split; try assumption.
        destruct capped.
        -- destruct Hrest as (before & hit & unread & cs & c & -> & Hb & Hh & -> & Hlen).
           exists (payload :: before), hit, unread, (contest :: cs), c.
           cbn [page_contests List.app]. rewrite Ep, Hb. cbn [bind].
           repeat split; try assumption.
           now rewrite <- List.app_assoc.
        -- destruct Hrest as (cs & Hb & -> & Hroom').
           exists (contest :: cs). cbn [page_contests]. rewrite Ep, Hb.
           cbn [bind]. rewrite <- List.app_assoc in *. now repeat split.
    + destruct e; try discriminate.
      apply mbind_inv in H as (u & w1 & Hemit & H).
      unfold emit in Hemit. injection Hemit as _ <-.
      destruct (IH _ _ _ _ _ Hroom H) as (Hc & Hk & Hr & Hrest).
      cbn [calls clock_reads trace] in *.
      rewrite requests_of_app in Hr. cbn [requests_of] in Hr.
      rewrite List.app_nil_r in Hr.
      repeat split; try assumption.
      destruct capped.
      * destruct Hrest as (before & hit & unread & cs & c & -> & Hb & Hh & -> & Hlen).
        exists (payload :: before), hit, unread, cs, c.
        cbn [page_contests List.app]. rewrite Ep. now repeat split.
      * destruct Hrest as (cs & Hb & -> & Hroom').
        exists cs. cbn [page_contests]. rewrite Ep. now repeat split.
Qed.

Lemma lift_inv {A : Type} (r : result A) (a : A) (w w' : world) :
  lift r w = Some (Ok a, w') -> r = Ok a /\ w' = w.
Proof. unfold lift. intros H. injection H as -> <-. now split. Qed.

Lemma ret_inv {A : Type} (a b : A) (w w' : world) :
  ret a w = Some (Ok b, w') -> b = a /\ w' = w.
Proof. unfold ret. intros H. injection H as <- <-. now split. Qed.

(** Reading the clock for [end__gte] issues no request. *)
Lemma end_gte_inv (env : environment) (include_ended : bool)
    (end_gte : option string) (w w' : world) :
  (if include_ended then ret None
   else (t <-- now_utc env ;;
         text <-- lift (to_api_time t) ;;
         ret (Some text))) w = Some (Ok end_gte, w') ->
  calls w' = calls w /\ trace w' = trace w.
Proof.
  destruct include_ended.
  - intros H. apply ret_inv in H as [_ ->]. now split.
  - intros H. apply mbind_inv in H as (t & w1 & Hnow & H).
    apply mbind_inv in H as (text & w2 & Hlift & H).
    apply lift_inv in Hlift as [_ ->]. apply ret_inv in H as [_ ->].
    unfold now_utc in Hnow. injection Hnow as _ <-. now split.
Qed.

Section Loop.

Variables (env : environment) (filter : key_val).
Variables (starts_after ends_before : option datetime).
Variables (cap : Z) (include_ended : bool).

(** A round that ends without an exception is a round in the sense of
    [Round]; its requests are the ones appended to the trace. *)
Lemma fetch_round_spec (fetched : list Contest) (offset : Z) (w w' : world)
    (ending : round_end) :
  fetch_round env filter starts_after ends_before cap include_ended
    fetched offset w = Some (Ok ending, w') ->
  exists requests : list params,
    requests_of (trace w') = (requests_of (trace w) ++ requests)%list
    /\ calls w' = (calls w + List.length requests)%nat
    /\ Round env filter cap (calls w) offset fetched requests ending.
Proof.
  intros Hround. unfold fetch_round in Hround.
  destruct (negb (cap =? 0)
            && ((if cap =? 0 then PAGE_SIZE
                 else cap - Z.of_nat (List.length fetched)) <=? 0)) eqn:Ecap.
  { apply ret_inv in Hround as [-> ->].
    exists []. rewrite List.app_nil_r, Nat.add_0_r.
    split; [reflexivity|]. split; [reflexivity|].
    apply andb_true_iff in Ecap as [Hne Hle].
    destruct (Z.eqb_spec cap 0) as [E|E]; [discriminate|].
    apply Z.leb_le in Hle. apply Rd_capped; [exact E | lia]. }
  assert (Hroom : has_room cap (List.length fetched)).
  { unfold has_room. destruct (Z.eqb_spec cap 0) as [E|E]; [now left|].
    cbn [negb andb] in Ecap. apply Z.leb_gt in Ecap. right. lia. }
  apply mbind_inv in Hround as (start_gte & w2 & H1 & Hround).
  apply lift_inv in H1 as [_ ->].
  apply mbind_inv in Hround as (start_lte & w2 & H1 & Hround).
  apply lift_inv in H1 as [_ ->].
  apply mbind_inv in Hround as (end_gte & w2 & H1 & Hround).
  apply end_gte_inv in H1 as [Hcalls Htrace].
  apply mbind_inv in Hround as (data & w3 & Hapi & Hround).
  unfold api_get in Hapi. injection Hapi as Hdata <-.
  rewrite Hcalls, Htrace in *. clear Hcalls Htrace.
  set (p := mk_params filter "start" offset _ start_gte start_lte end_gte)
    in *.
  assert (Hlimit : p_limit p = page_limit cap (List.length fetched)).
  { unfold page_limit, p. cbn [p_limit]. destruct (cap =? 0); reflexivity. }
  assert (Hfilter : p_filter p = filter) by reflexivity.
  assert (Horder : p_order_by p = "start") by reflexivity.
  assert (Hoffset : p_offset p = offset) by reflexivity.
  clearbody p.
  apply mbind_inv in Hround as (objects & w5 & H1 & Hround).
  apply lift_inv in H1 as [Hobjects ->].
  assert (Hreq : Requested env filter cap (calls w) offset fetched p data
                   objects) by (unfold Requested; auto 10).
  destruct (py_truth objects) eqn:Etruth; cbn [negb] in Hround.
  2:{ apply ret_inv in Hround as [-> ->].
      exists [p]. cbn [trace calls List.length]. rewrite requests_of_app.
      split; [reflexivity|]. split; [lia|].
      eapply Rd_empty; eauto. }
  apply mbind_inv in Hround as (payloads & w6 & H1 & Hround).
  apply lift_inv in H1 as [Hiter ->].
  apply mbind_inv in Hround as ([capped fetched'] & w4 & Hpage & Hround).
  apply (parse_page_spec cap payloads fetched _ _ _ _ Hroom) in Hpage.
  destruct Hpage as (Hcalls & _ & Hreqs & Hpage).
  cbn [calls trace fst snd] in *.
  rewrite requests_of_app in Hreqs. cbn [requests_of] in Hreqs.
  assert (Hcalls' : calls w4 = (calls w + List.length [p])%nat)
    by (cbn [List.length]; lia).
  destruct capped.
  { apply ret_inv in Hround as [-> ->].
    exists [p]. split; [exact Hreqs|]. split; [exact Hcalls'|].
    destruct Hpage as (before & hit & unread & cs & c & -> & Hb & Hh & -> & Hlen).
    eapply Rd_cap_hit; eauto. }
  destruct Hpage as (cs & Hcs & -> & Hroom').
  apply mbind_inv in Hround as (next & w7 & H1 & Hround).
  apply lift_inv in H1 as [Hnext ->].
  destruct (py_truth next) eqn:Enext; cbn [negb] in Hround;
    apply ret_inv in Hround as [-> ->];
    exists [p]; (split; [exact Hreqs|]); (split; [exact Hcalls'|]).
  - eapply Rd_more; eauto.
  - eapply Rd_last; eauto.
Qed.


(** *** Every round ends: the only way not to return is to run out of
    rounds *)






End Loop.

(** *** What follows from [Paginate] *)

Lemma Round_length (env : environment) (filter : key_val) (cap : Z)
    (n : nat) (offset : Z) (acc result : list Contest)
    (requests : list params) :
  Round env filter cap n offset acc requests (Finished result) ->
  0 < cap -> Z.of_nat (List.length acc) <= cap ->
  Z.of_nat (List.length result) <= cap.
Proof.
  intros H Hcap Hacc. inversion H; subst; try assumption; try lia.
  match goal with Hr : has_room _ (List.length (_ ++ _)) |- _ =>
    destruct Hr; lia end.
Qed.

Lemma Paginate_length (env : environment) (filter : key_val) (cap : Z)
    (n : nat) (offset : Z) (acc result : list Contest)
    (requests : list params) :
  Paginate env filter cap n offset acc requests result ->
  0 < cap -> Z.of_nat (List.length acc) <= cap ->
  Z.of_nat (List.length result) <= cap.
Proof.
  induction 1 as [n offset acc requests result Hround
                 |n offset offset' acc acc' p requests result Hround Hpag IH];
    intros Hcap Hacc.
  - eapply Round_length; eassumption.
  - apply IH; [exact Hcap|]. inversion Hround; subst.
    match goal with Hr : has_room _ (List.length (_ ++ _)) |- _ =>
      destruct Hr; lia end.
Qed.




End FetchFacts.


(** ** Payloads that fail to parse *)

Section ParseFailures.

Context {runtime : PyRuntime}.

(** A payload whose parse raises [ValueError] is dropped with one
    diagnostic, and the loop goes on with the payloads after it. *)
Lemma parse_page_skips (cap : Z) (payload : pyval) (rest : list pyval)
    (fetched : list Contest) (w : world) (msg : string) :
  parse_contest payload = Raise (ValueError msg) ->
  parse_page cap (payload :: rest) fetched w
  = parse_page cap rest fetched
      (mk_world (calls w) (clock_reads w)
         (trace w ++ [EvStderr ("Skipping contest due to parse error: " ++ msg)])%list).
Proof. intros H. cbn [parse_page]. rewrite H. reflexivity. Qed.

(** A payload whose parse raises anything else ends the loop with that
    exception: no diagnostic, and the payloads after it are not read. *)
Lemma parse_page_aborts (cap : Z) (payload : pyval) (rest : list pyval)
    (fetched : list Contest) (w : world) (e : exn) :
  parse_contest payload = Raise e ->
  (forall msg, e <> ValueError msg) ->
  parse_page cap (payload :: rest) fetched w = Some (Raise e, w).
Proof.
  intros H Hne. cbn [parse_page]. rewrite H.
  destruct e; try reflexivity. now destruct (Hne msg).
Qed.

End ParseFailures.

(** C1 at its failing input.  The API answers with one page whose first
    object has no [id]; whatever follows it on the page, and under every
    runtime, the fetch for the resource filter ends with the [KeyError]
    that [except ValueError] does not catch: one request was made, nothing
    was skipped, no contest is returned. *)
Theorem fetch_aborts_on_missing_id {runtime : PyRuntime}
    (rest : list pyval) (fuel : nat) :
  fetch_contests_for_resource (S fuel)
    (one_page_env (PDict [("event", PStr "Round 1")] :: rest))
    ("resource", FHost "codeforces.com") None None 50 true init_world
  = Some (Raise (KeyError "id"),
          mk_world 1 0
            [EvRequest (mk_params ("resource", FHost "codeforces.com")
                          "start" 0 50 None None None)]).
Proof. reflexivity. Qed.

(** The same page with an object whose [id] is [null]: [TypeError]. *)
Example fetch_aborts_on_null_id {runtime : PyRuntime}
    (rest : list pyval) (fuel : nat) :
  fetch_contests_for_resource (S fuel)
    (one_page_env (PDict [("id", PNone)] :: rest))
    ("resource", FHost "codeforces.com") None None 50 true init_world
  = Some (Raise TypeError,
          mk_world 1 0
            [EvRequest (mk_params ("resource", FHost "codeforces.com")
                          "start" 0 50 None None None)]).
Proof. reflexivity. Qed.

(** For comparison, an object whose start cannot be parsed is skipped with
    a diagnostic and the object after it is returned. *)
Example fetch_skips_bad_timestamp :
  fetch_contests_for_resource 3
    (one_page_env
       [ sample_payload 1 "Round 1" "tomorrow" "2025-01-01T02:00:00Z";
         sample_payload 2 "Round 2" "2025-01-02T00:00:00Z"
           "2025-01-02T02:00:00Z" ])
    ("resource", FHost "codeforces.com") None None 50 true init_world
  = Some (Ok [ mk_Contest 2 "Round 2"
                 (mk_datetime 2025 1 2 0 0 0 0 utc)
                 (mk_datetime 2025 1 2 2 0 0 0 utc)
                 "https://codeforces.com/contests/1" 0 "codeforces.com" ],
          mk_world 1 0
            [ EvRequest (mk_params ("resource", FHost "codeforces.com")
                           "start" 0 50 None None None);
              EvStderr "Skipping contest due to parse error: Unsupported datetime format: tomorrow" ]).
Proof. vm_compute. reflexivity. Qed.

(** ** The two entry points *)

Section Quiet.

Context {runtime : PyRuntime}.

Lemma mbind_inv_any {A B : Type} (m : M A) (k : A -> M B) (w w' : world)
    (r : result B) :
  mbind m k w = Some (r, w') ->
  (exists a w1, m w = Some (Ok a, w1) /\ k a w1 = Some (r, w'))
  \/ (exists e, m w = Some (Raise e, w') /\ r = Raise e).
Proof.
  unfold mbind. destruct (m w) as [[[a|e] w1]|]; try discriminate.
  - intros H. left. now exists a, w1.
  - intros H. injection H as <- <-. right. now exists e.
Qed.
















End Quiet.




(** ** Further properties of the string primitives *)

Lemma str_endswith_app (c : ascii) (a : string) (d : ascii) (b : string) :
  str_endswith c (a ++ String d b) = str_endswith c (String d b).
Proof.
  induction a as [|x a IH]; [reflexivity|].
  cbn [append]. change (str_endswith c (String x (a ++ String d b)))
    with (match a ++ String d b with
          | EmptyString => Ascii.eqb x c
          | String _ _ => str_endswith c (a ++ String d b)
          end).
  destruct (a ++ String d b) eqn:E.
  - destruct a; discriminate.
  - exact IH.
Qed.

Lemma str_drop_last_app (a : string) (d : ascii) :
  str_drop_last (a ++ String d EmptyString) = a.
Proof.
  induction a as [|x a IH]; [reflexivity|].
  cbn [append].
  change (str_drop_last (String x (a ++ String d EmptyString)))
    with (match a ++ String d EmptyString with
          | EmptyString => EmptyString
          | String _ _ => String x (str_drop_last (a ++ String d EmptyString))
          end).
  destruct (a ++ String d EmptyString) eqn:E.
  - destruct a; discriminate.
  - rewrite IH. reflexivity.
Qed.

Lemma str_endswith_drop_last (c : ascii) (s : string) :
  str_endswith c s = true -> s = str_drop_last s ++ String c EmptyString.
Proof.
  induction s as [|x s IH]; [discriminate|].
  destruct s as [|y s].
  - cbn. intros H. apply Ascii.eqb_eq in H. subst. reflexivity.
  - intros H. change (str_endswith c (String y s) = true) in H.
    change (String x (String y s)
            = String x (str_drop_last (String y s) ++ String c EmptyString)).
    f_equal. exact (IH H).
Qed.

Lemma str_rstrip_idempotent (s : string) : str_rstrip (str_rstrip s) = str_rstrip s.
Proof.
  induction s as [|c r IH]; [reflexivity|].
  cbn [str_rstrip]. destruct (str_rstrip r) as [|d r'] eqn:E.
  - destruct (is_space c) eqn:Ec; [reflexivity|].
    cbn. rewrite Ec. reflexivity.
  - change (str_rstrip (String c (String d r')))
      with (match str_rstrip (String d r') with
            | EmptyString =>
                if is_space c then EmptyString else String c EmptyString
            | String d' r'' => String c (String d' r'')
            end).
    rewrite IH. reflexivity.
Qed.

Lemma str_rstrip_head (c : ascii) (r : string) :
  is_space c = false -> exists r', str_rstrip (String c r) = String c r'.
Proof.
  intros Hc. cbn [str_rstrip]. destruct (str_rstrip r) as [|d r'].
  - rewrite Hc. eexists; reflexivity.
  - eexists; reflexivity.
Qed.

Lemma str_lstrip_head (s : string) :
  str_lstrip s = EmptyString
  \/ exists c r, str_lstrip s = String c r /\ is_space c = false.
Proof.
  induction s as [|c r IH]; [left; reflexivity|].
  cbn [str_lstrip]. destruct (is_space c) eqn:Ec; [exact IH|].
  right. exists c, r. split; [reflexivity | exact Ec].
Qed.

Lemma str_strip_idempotent (s : string) : str_strip (str_strip s) = str_strip s.
Proof.
  unfold str_strip.
  destruct (str_lstrip_head s) as [E | (c & r & E & Hc)]; rewrite E.
  - reflexivity.
  - destruct (str_rstrip_head c r Hc) as (r' & E').
    assert (Hl : str_lstrip (str_rstrip (String c r)) = str_rstrip (String c r)).
    { rewrite E'. cbn [str_lstrip]. rewrite Hc. reflexivity. }
    rewrite Hl. apply str_rstrip_idempotent.
Qed.

(** ** Timestamps in text, in the exporter and in the helper *)

Section TimestampText.

Context {runtime : PyRuntime}.

Lemma canonicalize_iso_no_zulu (value : string) :
  str_endswith "Z"%char (canonicalize_iso value) = false.
Proof.
  unfold canonicalize_iso. destruct (str_endswith "Z"%char value) eqn:E.
  - change "+00:00" with (String "+"%char "00:00").
    rewrite str_endswith_app. reflexivity.
  - exact E.
Qed.

(** X1.  The helper's [canonicalize_iso] and the exporter's
    [parse_iso_datetime] agree on the trailing [Z]: canonical text never ends
    in [Z], canonicalising twice changes nothing, the exporter reads a text
    and its canonical form alike, and so it reads [text + "Z"] exactly as it
    reads [text + "+00:00"], error message included. *)
Theorem canonicalize_iso_agrees_with_parser (text : string) :
  str_endswith "Z"%char (canonicalize_iso text) = false
  /\ canonicalize_iso (canonicalize_iso text) = canonicalize_iso text
  /\ parse_iso_datetime (canonicalize_iso text) = parse_iso_datetime text
  /\ canonicalize_iso (text ++ "Z") = text ++ "+00:00"
  /\ parse_iso_datetime (text ++ "Z") = parse_iso_datetime (text ++ "+00:00").
Proof.
  assert (Hfix : forall s, str_endswith "Z"%char s = false ->
                           canonicalize_iso s = s).
  { intros s E. unfold canonicalize_iso. rewrite E. reflexivity. }
  assert (Hparse : forall s,
             parse_iso_datetime (canonicalize_iso s) = parse_iso_datetime s).
  { intros s. unfold parse_iso_datetime at 1.
    rewrite canonicalize_iso_no_zulu. reflexivity. }
  assert (Hz : canonicalize_iso (text ++ "Z") = text ++ "+00:00").
  { unfold canonicalize_iso.
    rewrite str_endswith_app, str_drop_last_app. reflexivity. }
  split; [apply canonicalize_iso_no_zulu|].
  split; [apply Hfix, canonicalize_iso_no_zulu|].
  split; [apply Hparse|]. split; [exact Hz|].
  rewrite <- Hz. symmetry. apply Hparse.
Qed.

End TimestampText.

Section HelperFacts.

Context {runtime : PyRuntime}.

Lemma astimezone_utc_cases (value : datetime) (offset : Z) :
  (exists normal, astimezone_utc value offset = Ok normal)
  \/ astimezone_utc value offset = Raise OverflowError.
Proof.
  unfold astimezone_utc, datetime_add.
  destruct (_ && _).
  - left. destruct (ord2ymd _) as [[y m] d]. cbn [bind]. eexists; reflexivity.
  - right. reflexivity.
Qed.

Lemma parse_iso_datetime_accepts (text : string) (parsed : datetime) :
  str_endswith "Z"%char text = false ->
  fromisoformat text = Some parsed ->
  forall msg, parse_iso_datetime text <> Raise (ValueError msg).
Proof.
  intros Ez Ef msg. unfold parse_iso_datetime. rewrite Ez, Ef. cbn [bind].
  destruct (tzinfo parsed) as [offset|] eqn:Et.
  - rewrite Et.
    destruct (astimezone_utc_cases parsed offset) as [[n ->] | ->]; discriminate.
  - cbn [tzinfo replace_tzinfo utc].
    match goal with
    | |- astimezone_utc ?v ?o <> _ =>
        destruct (astimezone_utc_cases v o) as [[n ->] | ->]; discriminate
    end.
Qed.

(** X2.  Whatever is typed, a timestamp that [prompt_datetime] hands back is
    not empty, does not end in [Z], is accepted by
    [datetime.fromisoformat], and is therefore never rejected as
    unsupported by the exporter's [parse_cli_datetime], to which the helper
    passes it. *)
Theorem prompt_datetime_validated (message : string) (pending : list string)
    (shown : list shown_text) (text : string) (rest : list string)
    (shown' : list shown_text) :
  prompt_datetime message pending shown = Answered (Some text) rest shown' ->
  text <> EmptyString
  /\ str_endswith "Z"%char text = false
  /\ (exists parsed, fromisoformat text = Some parsed)
  /\ (forall msg, parse_cli_datetime text <> Raise (ValueError msg)).
Proof.
  revert shown. induction pending as [|typed pending IH]; intros shown;
    [discriminate|].
  cbn [prompt_datetime].
  destruct (str_strip typed) as [|c r]; [discriminate|].
  destruct (is_valid_iso_datetime (String c r)) eqn:Ev; [|apply IH].
  clear IH. intros E. injection E as <- <- <-.
  assert (Hf : exists parsed,
             fromisoformat (canonicalize_iso (String c r)) = Some parsed).
  { unfold is_valid_iso_datetime in Ev.
    destruct (fromisoformat (canonicalize_iso (String c r))) as [parsed|];
      [exists parsed; reflexivity | discriminate]. }
  destruct Hf as [parsed Ef].
  assert (Hz := canonicalize_iso_no_zulu (String c r)).
  split.
  - unfold canonicalize_iso. destruct (str_endswith "Z"%char (String c r)).
    + destruct (str_drop_last (String c r)); discriminate.
    + discriminate.
  - split; [exact Hz|]. split; [exists parsed; exact Ef|].
    exact (parse_iso_datetime_accepts _ parsed Hz Ef).
Qed.

(** X3.  [prompt_yes_no] answers with the meaning of the first line that
    has one.  Every line before it is answered with the question again and
    one reminder, the lines after it are left for the next prompt. *)
Theorem prompt_yes_no_first_answer (message : string) (default : bool)
    (skipped : list string) (typed : string) (rest : list string)
    (shown : list shown_text) (answer : bool) :
  Forall (fun line => yes_no_meaning default line = None) skipped ->
  yes_no_meaning default typed = Some answer ->
  let question :=
    Prompt (message ++ (if default then " [Y/n]" else " [y/N]") ++ ": ") in
  prompt_yes_no message default (skipped ++ typed :: rest)%list shown
  = Answered answer rest
      (shown
       ++ flat_map (fun _ => [question; Line "Please answer yes or no."])
            skipped
       ++ [question])%list.
Proof.
  intros Hskip Htyped question. revert shown.
  induction Hskip as [|line skipped Hline _ IH]; intros shown.
  - cbn [List.app flat_map prompt_yes_no].
    unfold yes_no_meaning in Htyped. cbn [existsb] in Htyped.
    destruct (str_lower (str_strip typed)) as [|c r] eqn:E.
    + cbn in Htyped. injection Htyped as <-. reflexivity.
    + change (String.eqb (String c r) "") with false in Htyped.
      cbv iota in Htyped. rewrite !orb_false_r in Htyped.
      destruct (_ || _).
      * injection Htyped as <-. reflexivity.
      * destruct (_ || _); [|discriminate].
        injection Htyped as <-. reflexivity.
  - cbn [List.app flat_map prompt_yes_no].
    unfold yes_no_meaning in Hline. cbn [existsb] in Hline.
    destruct (str_lower (str_strip line)) as [|c r] eqn:E;
      [discriminate|].
    change (String.eqb (String c r) "") with false in Hline.
    cbv iota in Hline. rewrite !orb_false_r in Hline.
    destruct (_ || _); [discriminate|].
    destruct (_ || _); [discriminate|].
    rewrite IH. f_equal. rewrite <- !app_assoc. reflexivity.
Qed.

End HelperFacts.

Lemma prompt_datetime_validated_witness :
  prompt_datetime "Enter start time: "
    ["next week"; " 2025-01-01T00:00:00Z "; "n"] []
  = Answered (Some "2025-01-01T00:00:00+00:00") ["n"]
      [ Prompt "Enter start time: ";
        Line "Invalid datetime. Use ISO format like 2025-01-01T00:00:00+00:00 or append 'Z'.";
        Prompt "Enter start time: " ]
  /\ "2025-01-01T00:00:00+00:00" <> EmptyString
  /\ str_endswith "Z"%char "2025-01-01T00:00:00+00:00" = false
  /\ (exists parsed, fromisoformat "2025-01-01T00:00:00+00:00" = Some parsed)
  /\ (forall msg, parse_cli_datetime "2025-01-01T00:00:00+00:00"
                  <> Raise (ValueError msg)).
Proof.
  split; [vm_compute; reflexivity|].
  apply (prompt_datetime_validated "Enter start time: "
           ["next week"; " 2025-01-01T00:00:00Z "; "n"] []
           "2025-01-01T00:00:00+00:00" ["n"]
           [ Prompt "Enter start time: ";
             Line "Invalid datetime. Use ISO format like 2025-01-01T00:00:00+00:00 or append 'Z'.";
             Prompt "Enter start time: " ]).
  vm_compute. reflexivity.
Defined.

Lemma prompt_yes_no_first_answer_witness :
  Forall (fun line => yes_no_meaning false line = None) ["maybe"; "yes please"]
  /\ yes_no_meaning false "  YES " = Some true
  /\ prompt_yes_no "Include contests that already ended?" false
       ["maybe"; "yes please"; "  YES "; "contests.ics"] []
     = Answered true ["contests.ics"]
         [ Prompt "Include contests that already ended? [y/N]: ";
           Line "Please answer yes or no.";
           Prompt "Include contests that already ended? [y/N]: ";
           Line "Please answer yes or no.";
           Prompt "Include contests that already ended? [y/N]: " ].
Proof.
  assert (H1 : Forall (fun line => yes_no_meaning false line = None)
                 ["maybe"; "yes please"]).
  { apply Forall_cons; [vm_compute; reflexivity|].
    apply Forall_cons; [vm_compute; reflexivity|]. apply Forall_nil. }
  assert (H2 : yes_no_meaning false "  YES " = Some true)
    by (vm_compute; reflexivity).
  split; [exact H1|]. split; [exact H2|].
  exact (prompt_yes_no_first_answer "Include contests that already ended?"
           false ["maybe"; "yes please"] "  YES " ["contests.ics"] [] true
           H1 H2).
Defined.

(** ** What [parse_contest] guarantees about an accepted payload *)

Section ContestFacts.

Context {runtime : PyRuntime}.

(** X4.  Every contest [parse_contest] accepts is normalised: its start and
    end carry [timezone.utc], and its title, link and platform name have no
    white space left at either end. *)
Theorem parse_contest_normalised (payload : pyval) (contest : Contest) :
  parse_contest payload = Ok contest ->
  tzinfo (start contest) = utc
  /\ tzinfo (end_ contest) = utc
  /\ str_strip (title contest) = title contest
  /\ str_strip (url contest) = url contest
  /\ str_strip (resource_name contest) = resource_name contest.
Proof.
  destruct payload as [| | | | |items|items]; try discriminate.
  unfold parse_contest.
  destruct (dict_get items "id") as [id_field|]; [|discriminate].
  cbn [bind]. destruct (py_int id_field) as [id|]; [|discriminate].
  cbn [bind].
  destruct (parse_iso_datetime (py_str (py_get items "start")))
    as [starts|] eqn:Es; [|discriminate].
  cbn [bind].
  destruct (parse_iso_datetime (py_str (py_get items "end")))
    as [ends|] eqn:Ee; [|discriminate].
  cbn [bind].
  destruct (py_int _) as [rid|]; [|discriminate]. cbn [bind].
  intros E. injection E as <-.
  cbn [start end_ title url resource_name].
  split; [exact (parse_iso_datetime_utc _ _ Es)|].
  split; [exact (parse_iso_datetime_utc _ _ Ee)|].
  split; [apply str_strip_idempotent|].
  split; apply str_strip_idempotent.
Qed.

End ContestFacts.

Lemma parse_contest_normalised_witness :
  let payload :=
    PDict [ ("id", PStr " 12 "); ("title", PStr "  Weekly Contest 400 ");
            ("start", PStr "2025-01-05T10:30:00+08:00");
            ("end", PStr "2025-01-05T12:00:00+08:00");
            ("url", PStr " https://leetcode.com/contest/weekly-400 ");
            ("resource", PDict [("id", PInt 102); ("name", PStr "leetcode.com ")]) ] in
  let contest :=
    mk_Contest 12 "Weekly Contest 400"
      (mk_datetime 2025 1 5 2 30 0 0 utc) (mk_datetime 2025 1 5 4 0 0 0 utc)
      "https://leetcode.com/contest/weekly-400" 102 "leetcode.com" in
  parse_contest payload = Ok contest
  /\ tzinfo (start contest) = utc
  /\ tzinfo (end_ contest) = utc
  /\ str_strip (title contest) = title contest
  /\ str_strip (url contest) = url contest
  /\ str_strip (resource_name contest) = resource_name contest.
Proof.
  intros payload contest.
  assert (H : parse_contest payload = Ok contest) by (vm_compute; reflexivity).
  split; [exact H|].
  exact (parse_contest_normalised payload contest H).
Defined.

(** ** [ensure_utc] on its own results, and [to_api_time] *)

Lemma valid_utc_representable (value : datetime) :
  valid_datetime value = true ->
  tzinfo value = None \/ tzinfo value = utc ->
  utc_representable value = true.
Proof.
  intros Hv Htz. apply valid_datetime_iff in Hv.
  destruct Hv as (Hd & Ht & Hus & _).
  apply valid_date_iff in Hd. destruct Hd as (Hy & Hm & Hday).
  apply valid_time_iff in Ht.
  assert (Ho := ymd2ord_year_range _ _ _ Hy Hm Hday).
  unfold utc_representable, utc_seconds, utc_microseconds, wall_microseconds.
  assert (Hoff : match tzinfo value with Some offset => offset | None => 0 end
                 = 0) by (destruct Htz as [-> | ->]; reflexivity).
  rewrite Hoff. unfold MAXORDINAL in *.
  set (o := ymd2ord (year value) (month value) (day value)) in *.
  apply andb_true_iff; split; [apply Z.leb_le | apply Z.ltb_lt];
    Z.div_mod_to_equations; lia.
Qed.

Lemma ensure_utc_fixed (normal : datetime) :
  valid_datetime normal = true -> tzinfo normal = utc ->
  ensure_utc normal = Ok normal.
Proof.
  intros Hv Htz.
  destruct (ensure_utc_ok normal Hv
              (valid_utc_representable normal Hv (or_intror Htz)))
    as (n & E & _ & _ & _ & Hn).
  rewrite E, (Hn (or_intror Htz)).
  destruct normal as [y m d h mi s us tz]. cbn in Htz. subst tz. reflexivity.
Qed.

Lemma datetime_add_in_range (value shifted : datetime) (delta : Z) :
  datetime_add value delta = Ok shifted ->
  0 < (wall_microseconds value + delta) / 86400000000 <= MAXORDINAL.
Proof.
  unfold datetime_add.
  destruct (Z.ltb_spec 0 ((wall_microseconds value + delta) / 86400000000));
    destruct (Z.leb_spec ((wall_microseconds value + delta) / 86400000000)
                MAXORDINAL);
    cbn [andb]; intros E; try discriminate E.
  split; assumption.
Qed.

Lemma days_utc_representable (value : datetime) :
  0 < utc_microseconds value / 86400000000 <= MAXORDINAL ->
  utc_representable value = true.
Proof.
  unfold utc_representable, utc_seconds, MAXORDINAL.
  rewrite andb_true_iff, Z.leb_le, Z.ltb_lt.
  intros H. Z.div_mod_to_equations. lia.
Qed.

Lemma utc_microseconds_aware (value : datetime) (offset : Z) :
  tzinfo value = Some offset ->
  utc_microseconds value = wall_microseconds value + - offset.
Proof. intros Et. unfold utc_microseconds. rewrite Et. lia. Qed.

Lemma ensure_utc_aware (value : datetime) (offset : Z) :
  tzinfo value = Some offset ->
  ensure_utc value = astimezone_utc value offset.
Proof. intros Et. unfold ensure_utc. rewrite Et. reflexivity. Qed.

Lemma astimezone_utc_in_range (value normal : datetime) (offset : Z) :
  astimezone_utc value offset = Ok normal ->
  0 < (wall_microseconds value + - offset) / 86400000000 <= MAXORDINAL.
Proof.
  unfold astimezone_utc.
  destruct (datetime_add value (- offset)) as [shifted|] eqn:Ea;
    [|discriminate].
  intros _. exact (datetime_add_in_range _ _ _ Ea).
Qed.

Lemma ensure_utc_aware_representable (value normal : datetime) (offset : Z) :
  tzinfo value = Some offset ->
  ensure_utc value = Ok normal ->
  utc_representable value = true.
Proof.
  intros Et E. rewrite (ensure_utc_aware value offset Et) in E.
  apply days_utc_representable.
  rewrite (utc_microseconds_aware value offset Et).
  exact (astimezone_utc_in_range value normal offset E).
Qed.

Lemma ensure_utc_valid (value normal : datetime) :
  valid_datetime value = true ->
  ensure_utc value = Ok normal ->
  valid_datetime normal = true /\ tzinfo normal = utc
  /\ utc_microseconds normal = utc_microseconds value.
Proof.
  intros Hv E.
  assert (Hr : utc_representable value = true).
  { destruct (tzinfo value) as [offset|] eqn:Et.
    - exact (ensure_utc_aware_representable value normal offset Et E).
    - apply valid_utc_representable; [exact Hv | left; exact Et]. }
  destruct (ensure_utc_ok value Hv Hr) as (n & E' & Htz & Hvn & Hus & _).
  rewrite E' in E. injection E as <-.
  split; [exact Hvn|]. split; [exact Htz | exact Hus].
Qed.

(** X5.  [ensure_utc] is idempotent on well-formed timestamps: what it
    returns is well-formed, carries [timezone.utc], denotes the instant of
    its argument, and is returned unchanged when normalised again; so the
    calendar text and the API text of the result are those of the
    argument. *)
Theorem ensure_utc_idempotent (value normal : datetime) :
  valid_datetime value = true ->
  ensure_utc value = Ok normal ->
  valid_datetime normal = true
  /\ tzinfo normal = utc
  /\ utc_microseconds normal = utc_microseconds value
  /\ ensure_utc normal = Ok normal
  /\ format_ics_datetime normal = format_ics_datetime value
  /\ to_api_time normal = to_api_time value.
Proof.
  intros Hv E.
  destruct (ensure_utc_valid value normal Hv E) as (Hvn & Htz & Hus).
  assert (Hfix := ensure_utc_fixed normal Hvn Htz).
  repeat split; try assumption.
  - unfold format_ics_datetime. rewrite Hfix, E. reflexivity.
  - unfold to_api_time. rewrite Hfix, E. reflexivity.
Qed.

Lemma ensure_utc_idempotent_witness :
  let value := mk_datetime 2025 1 1 3 15 0 0 (Some 19800000000) in
  let normal := mk_datetime 2024 12 31 21 45 0 0 utc in
  valid_datetime value = true
  /\ ensure_utc value = Ok normal
  /\ valid_datetime normal = true
  /\ tzinfo normal = utc
  /\ utc_microseconds normal = utc_microseconds value
  /\ ensure_utc normal = Ok normal
  /\ format_ics_datetime normal = format_ics_datetime value
  /\ to_api_time normal = to_api_time value.
Proof.
  intros value normal.
  assert (H1 : valid_datetime value = true) by (vm_compute; reflexivity).
  assert (H2 : ensure_utc value = Ok normal) by (vm_compute; reflexivity).
  split; [exact H1|]. split; [exact H2|].
  exact (ensure_utc_idempotent value normal H1 H2).
Defined.

Lemma str_contains_app (c : ascii) (a b : string) :
  str_contains c (a ++ b) = str_contains c a || str_contains c b.
Proof.
  induction a as [|x a IH]; [reflexivity|].
  cbn [append str_contains]. rewrite IH. apply orb_assoc.
Qed.

Lemma zfill_no_plus (width : nat) :
  forall n : Z, str_contains "+"%char (zfill width n) = false.
Proof.
  induction width as [|width IH]; intros n; [reflexivity|].
  cbn [zfill]. rewrite str_contains_app, IH. cbn [str_contains orb].
  destruct (digit_cases n) as [H|[H|[H|[H|[H|[H|[H|[H|[H|H]]]]]]]]];
    rewrite H; reflexivity.
Qed.

Lemma str_replace_sub_offset (body : string) :
  str_contains "+"%char body = false ->
  str_replace_sub "+00:00" "Z" (body ++ "+00:00") = body ++ "Z".
Proof.
  unfold str_replace_sub. induction body as [|c r IH]; [reflexivity|].
  cbn [str_contains]. intros H. apply orb_false_iff in H. destruct H as [Hc Hr].
  cbn [append str_replace_from].
  assert (Hp : String.prefix "+00:00" (String c (r ++ "+00:00")) = false).
  { cbn [String.prefix]. destruct (ascii_dec "+" c) as [<-|]; [discriminate|].
    reflexivity. }
  rewrite Hp, (IH Hr). reflexivity.
Qed.

Lemma isoformat_offset (value : datetime) :
  isoformat value
  = isoformat (replace_tzinfo value None) ++ format_offset (tzinfo value).
Proof.
  unfold isoformat.
  cbn [year month day hour minute second microsecond tzinfo replace_tzinfo
       format_offset].
  rewrite !str_app_assoc. reflexivity.
Qed.

Lemma isoformat_naive_no_plus (value : datetime) :
  str_contains "+"%char (isoformat (replace_tzinfo value None)) = false.
Proof.
  unfold isoformat.
  cbn [year month day hour minute second microsecond tzinfo replace_tzinfo
       format_offset].
  rewrite !str_contains_app, !zfill_no_plus.
  destruct (microsecond value =? 0).
  - reflexivity.
  - rewrite str_contains_app, zfill_no_plus. reflexivity.
Qed.

Lemma ensure_utc_tzinfo (value normal : datetime) :
  ensure_utc value = Ok normal -> tzinfo normal = utc.
Proof.
  unfold ensure_utc. destruct (tzinfo value) as [offset|].
  - unfold astimezone_utc.
    destruct (datetime_add value (- offset)); cbn [bind]; [|discriminate].
    intros E. injection E as <-. reflexivity.
  - intros E. injection E as <-. reflexivity.
Qed.

(** X6.  [to_api_time] renders the UTC reading of its argument as ISO text
    without an offset and with a [Z] at the end: the [+00:00] that
    [isoformat] writes is the only place where the replacement applies.  The
    text has no [+] in it and is 20 characters long, or 27 with
    microseconds. *)
Theorem to_api_time_zulu (value : datetime) :
  to_api_time value
  = (normal <- ensure_utc value ;;
     Ok (isoformat (replace_tzinfo normal None) ++ "Z"))
  /\ (forall text : string,
        to_api_time value = Ok text ->
        str_endswith "Z"%char text = true
        /\ str_contains "+"%char text = false
        /\ (String.length text = 20%nat \/ String.length text = 27%nat)).
Proof.
  assert (Hshape :
    to_api_time value
    = (normal <- ensure_utc value ;;
       Ok (isoformat (replace_tzinfo normal None) ++ "Z"))).
  { unfold to_api_time. destruct (ensure_utc value) as [normal|] eqn:E;
      [|reflexivity].
    cbn [bind]. rewrite isoformat_offset, (ensure_utc_tzinfo _ _ E).
    change (format_offset utc) with "+00:00".
    rewrite str_replace_sub_offset by apply isoformat_naive_no_plus.
    reflexivity. }
  split; [exact Hshape|].
  intros text. rewrite Hshape.
  destruct (ensure_utc value) as [normal|]; [|discriminate].
  cbn [bind]. intros E.
  assert (Et : text = isoformat (replace_tzinfo normal None) ++ "Z")
    by congruence.
  clear E Hshape. subst text.
  split; [apply (str_endswith_app "Z" _ "Z" EmptyString)|].
  split.
  - rewrite str_contains_app, isoformat_naive_no_plus. reflexivity.
  - assert (Hz : forall w n, String.length (zfill w n) = w).
    { induction w as [|w IH]; intros n; [reflexivity|].
      cbn [zfill]. rewrite str_length_app, IH. cbn. lia. }
    unfold isoformat.
    cbn [year month day hour minute second microsecond tzinfo replace_tzinfo
         format_offset].
    rewrite !str_length_app, !Hz.
    destruct (microsecond normal =? 0).
    + left. reflexivity.
    + right. rewrite str_length_app, Hz. reflexivity.
Qed.

Example to_api_time_run :
  to_api_time (mk_datetime 2025 1 1 8 0 0 0 (Some 28800000000))
  = Ok "2025-01-01T00:00:00Z"
  /\ to_api_time (mk_datetime 2025 6 30 23 59 59 250000 None)
     = Ok "2025-06-30T23:59:59.250000Z".
Proof. split; vm_compute; reflexivity. Qed.

(** ** Running deduplication and the sort again *)

Lemma dict_set_fresh (d : list (Z * Contest)) (key : Z) (c : Contest) :
  ~ In key (map fst d) -> dict_set d key c = (d ++ [(key, c)])%list.
Proof.
  induction d as [|[k v] d IH]; intros Hn; [reflexivity|].
  cbn [dict_set]. destruct (Z.eqb_spec k key) as [->|Hk].
  - exfalso. apply Hn. left. reflexivity.
  - cbn [List.app]. rewrite IH; [reflexivity|].
    intros Hin. apply Hn. right. exact Hin.
Qed.

Lemma fold_dedup_step_distinct (l : list Contest) :
  forall d : list (Z * Contest),
    NoDup (map fst d ++ map contest_id l) ->
    fold_left dedup_step l d
    = (d ++ map (fun c => (contest_id c, c)) l)%list.
Proof.
  induction l as [|c l IH]; intros d Hnd.
  - cbn. symmetry. apply app_nil_r.
  - cbn [fold_left map]. unfold dedup_step at 2.
    cbn [map] in Hnd.
    assert (Hfresh : ~ In (contest_id c) (map fst d)).
    { intros Hin. apply NoDup_remove_2 in Hnd. apply Hnd.
      apply in_or_app. left. exact Hin. }
    rewrite (dict_set_fresh d _ c Hfresh), IH.
    + rewrite <- app_assoc. reflexivity.
    + rewrite map_app, <- app_assoc. exact Hnd.
Qed.

Lemma deduplicate_contests_distinct (l : list Contest) :
  NoDup (map contest_id l) -> deduplicate_contests l = l.
Proof.
  intros Hnd. unfold deduplicate_contests.
  change (map snd (fold_left dedup_step l []) = l).
  rewrite (fold_dedup_step_distinct l [] Hnd).
  cbn [List.app]. rewrite map_map. cbn [snd]. apply map_id.
Qed.

Lemma sort_by_start_fixed (l : list Contest) :
  StronglySorted start_le l -> sort_by_start l = l.
Proof.
  induction 1 as [|c l Hs IH Hall]; [reflexivity|].
  change (sort_by_start (c :: l)) with (insert_by_start c (sort_by_start l)).
  rewrite IH. destruct l as [|other rest]; [reflexivity|].
  cbn [insert_by_start]. inversion Hall as [|? ? Hle _]; subst.
  unfold start_le in Hle. rewrite Hle. reflexivity.
Qed.

(** X7.  Deduplication and the sort are idempotent, and so is the two of
    them in the order the entry points run them: a list that went through
    them once comes back unchanged.  On a list whose ids are all distinct
    deduplication changes nothing. *)
Theorem deduplicate_sort_idempotent (contests : list Contest) :
  deduplicate_contests (deduplicate_contests contests)
  = deduplicate_contests contests
  /\ sort_by_start (sort_by_start contests) = sort_by_start contests
  /\ sort_by_start
       (deduplicate_contests (sort_by_start (deduplicate_contests contests)))
     = sort_by_start (deduplicate_contests contests)
  /\ (NoDup (map contest_id contests) ->
      deduplicate_contests contests = contests).
Proof.
  split; [apply deduplicate_contests_distinct, deduplicate_contests_NoDup|].
  split; [apply sort_by_start_fixed, sort_by_start_sorted|].
  split; [|apply deduplicate_contests_distinct].
  rewrite deduplicate_contests_distinct.
  - apply sort_by_start_fixed, sort_by_start_sorted.
  - apply (Permutation_NoDup
             (l := map contest_id (deduplicate_contests contests))).
    + apply Permutation_map, sort_by_start_perm.
    + apply deduplicate_contests_NoDup.
Qed.

(** ** The filters [resolve_resource_filters] returns *)

Lemma alias_host_has_dot (key host : string) :
  dict_get RESOURCE_ALIASES key = Some host ->
  str_contains "."%char host = true.
Proof.
  unfold RESOURCE_ALIASES. cbn [dict_get].
  repeat (destruct (String.eqb _ key);
          [intros E; injection E as <-; reflexivity|]).
  discriminate.
Qed.

Lemma decimal_value_from_nonneg (s : string) :
  forall acc : Z,
    0 <= acc -> str_all is_digit s = true -> 0 <= decimal_value_from acc s.
Proof.
  induction s as [|c r IH]; intros acc Hacc Hd; [exact Hacc|].
  cbn [str_all] in Hd. apply andb_true_iff in Hd. destruct Hd as [Hc Hr].
  cbn [decimal_value_from]. apply IH; [|exact Hr].
  unfold is_digit in Hc. apply andb_true_iff in Hc. destruct Hc as [Hlo _].
  apply Nat.leb_le in Hlo. lia.
Qed.

Lemma classify_token_well_formed (value : string) (kv : key_val) :
  classify_token value = Ok kv -> well_formed_filter kv = true.
Proof.
  unfold classify_token.
  destruct (dict_get RESOURCE_ALIASES (str_lower value)) as [[|c r]|] eqn:Ea.
  - apply alias_host_has_dot in Ea. discriminate.
  - intros E. injection E as <-. apply alias_host_has_dot in Ea.
    cbn [well_formed_filter]. rewrite Ea. reflexivity.
  - destruct (str_isdigit value) eqn:Ed.
    + rewrite (py_int_str_digits value Ed). cbn [bind].
      intros E. injection E as <-. cbn [well_formed_filter].
      apply andb_true_iff. split; [reflexivity|]. apply Z.leb_le.
      apply decimal_value_from_nonneg; [lia|].
      destruct value; [discriminate | exact Ed].
    + destruct (str_contains "."%char value) eqn:Ec; [|discriminate].
      intros E. injection E as <-. cbn [well_formed_filter].
      rewrite Ec. reflexivity.
Qed.

Lemma classify_all_well_formed (tokens : list string) :
  forall filters : list key_val,
    classify_all tokens = Ok filters ->
    Forall (fun kv => well_formed_filter kv = true) filters.
Proof.
  induction tokens as [|raw rest IH]; intros filters.
  - intros E. injection E as <-. apply Forall_nil.
  - cbn [classify_all]. destruct (str_strip raw) as [|c r]; [apply IH|].
    destruct (classify_token (String c r)) as [kv|] eqn:Ek; [|discriminate].
    cbn [bind]. destruct (classify_all rest) as [fs|]; [|discriminate].
    cbn [bind]. intros E. injection E as <-.
    apply Forall_cons; [exact (classify_token_well_formed _ _ Ek)|].
    apply IH. reflexivity.
Qed.

(** X8.  A list of filters that [resolve_resource_filters] returns is not
    empty, holds no filter twice, and every filter in it is either a host
    with a dot in it under the key [resource] or a number that is not
    negative under the key [resource_id]. *)
Theorem resolve_resource_filters_well_formed (resources : list string)
    (filters : list key_val) :
  resolve_resource_filters resources = Ok filters ->
  filters <> []
  /\ NoDup filters
  /\ Forall (fun kv => well_formed_filter kv = true) filters.
Proof.
  rewrite resolve_resource_filters_spec. unfold resolve_spec.
  destruct (classify_all resources) as [all|] eqn:Ea; [|discriminate].
  cbn [bind]. destruct (dedup_first all) as [|kv rest] eqn:Ed; [discriminate|].
  intros E. injection E as <-.
  split; [discriminate|]. rewrite <- Ed.
  split; [apply dedup_first_NoDup|].
  apply Forall_forall. intros x Hx. apply (proj1 (dedup_first_In x all)) in Hx.
  assert (Hall := classify_all_well_formed resources all Ea).
  rewrite Forall_forall in Hall. exact (Hall x Hx).
Qed.

Lemma resolve_resource_filters_well_formed_witness :
  let filters :=
    [ ("resource", FHost "atcoder.jp"); ("resource_id", FId 93);
      ("resource", FHost "open.kattis.com") ] in
  resolve_resource_filters [" AC"; "093"; "open.kattis.com"; "atcoder"; "93"]
  = Ok filters
  /\ filters <> []
  /\ NoDup filters
  /\ Forall (fun kv => well_formed_filter kv = true) filters.
Proof.
  intros filters.
  assert (H : resolve_resource_filters
                [" AC"; "093"; "open.kattis.com"; "atcoder"; "93"]
              = Ok filters) by (vm_compute; reflexivity).
  split; [exact H|].
  exact (resolve_resource_filters_well_formed _ filters H).
Defined.

(** ** The lines of an event, read back *)

Lemma unfold_fold_ics_line (line : string) :
  unfold_ics_line (fold_ics_line line) = line.
Proof.
  unfold fold_ics_line, unfold_ics_line.
  destruct (Nat.leb (String.length line) 75%nat) eqn:E.
  - apply Nat.leb_le in E.
    rewrite (str_take_all 75 line E), (str_drop_all 75 line E).
    simp unfold_rest. apply str_app_nil_r.
  - apply Nat.leb_gt in E. unfold fold_segments.
    rewrite str_join_cons.
    assert (Hlen : String.length (str_take 75 line) = 75%nat)
      by (rewrite str_length_take; lia).
    rewrite (str_take_app_len 75 _ _ Hlen), (str_drop_app_len 75 _ _ Hlen).
    rewrite fold_rest_text_unfolds. apply str_take_drop.
Qed.

Lemma read_content_line_escaped (name text : string) :
  read_content_line name (fold_ics_line (name ++ escape_ics_text text)) = text.
Proof.
  unfold read_content_line.
  rewrite unfold_fold_ics_line, str_drop_app_exact,
    escape_ics_text_single_pass.
  apply unescape_flat_map.
Qed.

Ltac read_back :=
  first [ exact (read_content_line_escaped "SUMMARY:" _)
        | exact (read_content_line_escaped "DESCRIPTION:" _)
        | exact (read_content_line_escaped "URL:" _)
        | exact (read_content_line_escaped "CATEGORIES:" _) ].

(** X9.  The block [generate_ics] writes for one contest can be read back.
    It opens with [BEGIN:VEVENT] and closes with [END:VEVENT], has nine
    lines, or ten when the contest has a link, and unfolding and unescaping
    its SUMMARY, DESCRIPTION, URL and CATEGORIES lines gives the summary,
    the description, the link and the platform name of the contest, character
    for character. *)
Theorem event_lines_read_back (stamp : datetime) (contest : Contest)
    (lines : list string) :
  event_lines stamp contest = Ok lines ->
  let linked := negb (String.eqb (url contest) "") in
  List.length lines = (if linked then 10 else 9)%nat
  /\ nth 0 lines "" = "BEGIN:VEVENT"
  /\ read_content_line "SUMMARY:" (nth 5 lines "") = summary contest
  /\ read_content_line "DESCRIPTION:" (nth 6 lines "") = description contest
  /\ (linked = true ->
      read_content_line "URL:" (nth 7 lines "") = url contest)
  /\ read_content_line "CATEGORIES:" (nth (if linked then 8 else 7) lines "")
     = resource_name contest
  /\ nth (if linked then 9 else 8) lines "" = "END:VEVENT".
Proof.
  unfold event_lines.
  destruct (format_ics_datetime stamp) as [dtstamp|]; [|discriminate].
  cbn [bind].
  destruct (format_ics_datetime (start contest)) as [dtstart|]; [|discriminate].
  cbn [bind].
  destruct (format_ics_datetime (end_ contest)) as [dtend|]; [|discriminate].
  cbn [bind]. intros E.
  assert (El : lines = _) by (symmetry; injection E; intros H; exact H).
  clear E. subst lines.
  destruct (url contest) as [|c r] eqn:Eu.
  - change (negb (String.eqb "" "")) with false. cbv iota.
    cbn [List.app List.length nth].
    repeat split; try discriminate; read_back.
  - change (negb (String.eqb (String c r) "")) with true. cbv iota.
    cbn [List.app List.length nth].
    repeat split; try intros _; try read_back.
Qed.

Lemma event_lines_read_back_witness :
  let stamp := mk_datetime 2025 1 1 0 0 0 0 utc in
  let contest :=
    mk_Contest 7 "Good Bye 2024; part 1, final"
      (mk_datetime 2025 1 1 14 35 0 0 utc) (mk_datetime 2025 1 1 17 35 0 0 utc)
      "https://codeforces.com/contests/2053" 1 "codeforces.com" in
  exists lines : list string,
    event_lines stamp contest = Ok lines
    /\ nth 5 lines "" = "SUMMARY:codeforces.com: Good Bye 2024\; part 1\, final"
    /\ let linked := negb (String.eqb (url contest) "") in
       List.length lines = (if linked then 10 else 9)%nat
       /\ nth 0 lines "" = "BEGIN:VEVENT"
       /\ read_content_line "SUMMARY:" (nth 5 lines "") = summary contest
       /\ read_content_line "DESCRIPTION:" (nth 6 lines "")
          = description contest
       /\ (linked = true ->
           read_content_line "URL:" (nth 7 lines "") = url contest)
       /\ read_content_line "CATEGORIES:"
            (nth (if linked then 8 else 7) lines "")
          = resource_name contest
       /\ nth (if linked then 9 else 8) lines "" = "END:VEVENT".
Proof.
  intros stamp contest.
  destruct (event_lines stamp contest) as [lines|] eqn:E;
    [|vm_compute in E; discriminate].
  exists lines. split; [reflexivity|].
  split; [vm_compute in E; injection E as <-; reflexivity|].
  exact (event_lines_read_back stamp contest lines E).
Defined.

(** ** A page whose failures are all recoverable *)

Section PageFacts.

Context {runtime : PyRuntime}.

Lemma cap_reached_room (cap : Z) (fetched more : list Contest) (c : Contest) :
  has_room cap (List.length (fetched ++ c :: more)%list) ->
  cap_reached cap (fetched ++ [c])%list = false.
Proof.
  unfold has_room, cap_reached. rewrite !length_app. cbn [List.length].
  intros [-> | Hlt]; [reflexivity|].
  apply andb_false_iff. right. apply Z.leb_gt. lia.
Qed.

(** X10.  When every payload of a page either parses or fails with
    [ValueError], and the cap leaves room for all that parse, the loop over
    the page raises nothing and does not return early: it hands back the
    contests of the page in page order after those already fetched, and
    writes one diagnostic for every payload left out, in page order, and
    nothing else. *)
Theorem parse_page_recovers (cap : Z) (payloads : list pyval)
    (contests fetched : list Contest) (w : world) :
  page_contests payloads = Ok contests ->
  has_room cap (List.length (fetched ++ contests)%list) ->
  parse_page cap payloads fetched w
  = Some (Ok (false, (fetched ++ contests)%list),
          mk_world (calls w) (clock_reads w)
            (trace w ++ map EvStderr (skipped_diagnostics payloads))%list).
Proof.
  revert contests fetched w.
  induction payloads as [|payload rest IH]; intros contests fetched w Hp Hroom.
  - injection Hp as <-. cbn [parse_page skipped_diagnostics map].
    rewrite !app_nil_r. destruct w. reflexivity.
  - cbn [page_contests] in Hp. cbn [skipped_diagnostics].
    destruct (parse_contest payload) as [c|e] eqn:Ec.
    + destruct (page_contests rest) as [cs|] eqn:Er; [|discriminate].
      cbn [bind] in Hp. injection Hp as <-.
      cbn [parse_page]. rewrite Ec.
      rewrite (cap_reached_room cap fetched cs c Hroom).
      rewrite (IH cs (fetched ++ [c])%list w eq_refl).
      * rewrite <- app_assoc. reflexivity.
      * rewrite <- app_assoc. exact Hroom.
    + destruct e as [msg| | | | | |]; try discriminate.
      rewrite (parse_page_skips cap payload rest fetched w msg Ec).
      rewrite (IH contests fetched _ Hp Hroom).
      cbn [calls clock_reads trace map]. rewrite <- app_assoc. reflexivity.
Qed.

End PageFacts.

Lemma parse_page_recovers_witness :
  let payloads :=
    [ sample_payload 1 "Round 1" "2025-01-01T00:00:00Z" "soon";
      sample_payload 2 "Round 2" "2025-01-02T00:00:00Z" "2025-01-02T02:00:00Z";
      sample_payload 3 "Round 3" "3 January" "2025-01-03T02:00:00Z" ] in
  let contests :=
    [ mk_Contest 2 "Round 2" (mk_datetime 2025 1 2 0 0 0 0 utc)
        (mk_datetime 2025 1 2 2 0 0 0 utc)
        "https://codeforces.com/contests/1" 0 "codeforces.com" ] in
  page_contests payloads = Ok contests
  /\ has_room 50 (List.length ([] ++ contests)%list)
  /\ skipped_diagnostics payloads
     = [ "Skipping contest due to parse error: Unsupported datetime format: soon";
         "Skipping contest due to parse error: Unsupported datetime format: 3 January" ]
  /\ parse_page 50 payloads [] init_world
     = Some (Ok (false, ([] ++ contests)%list),
             mk_world (calls init_world) (clock_reads init_world)
               (trace init_world
                ++ map EvStderr (skipped_diagnostics payloads))%list).
Proof.
  intros payloads contests.
  assert (H1 : page_contests payloads = Ok contests)
    by (vm_compute; reflexivity).
  assert (H2 : has_room 50 (List.length ([] ++ contests)%list))
    by (right; vm_compute; reflexivity).
  split; [exact H1|]. split; [exact H2|].
  split; [vm_compute; reflexivity|].
  exact (parse_page_recovers 50 payloads contests [] init_world H1 H2).
Defined.

(** ** The events of a fetch, however it ends *)

Section Emits.

Context {runtime : PyRuntime}.

Lemma emits_bind {A B : Type} (allowed : event -> bool) (mid : A -> Prop)
    (post : B -> Prop) (m : M A) (k : A -> M B) :
  emits allowed mid m ->
  (forall a, mid a -> emits allowed post (k a)) ->
  emits allowed post (mbind m k).
Proof.
  intros Hm Hk w w' r H.
  apply mbind_inv_any in H as [(a & w1 & H1 & H2)|(e & H1 & ->)].
  - destruct (Hm _ _ _ H1) as [(added1 & E1 & F1) Ha].
    destruct (Hk a (Ha a eq_refl) _ _ _ H2) as [(added2 & E2 & F2) Hb].
    split; [|exact Hb].
    exists (added1 ++ added2)%list. split.
    + rewrite E2, E1. symmetry. apply app_assoc.
    + rewrite forallb_app, F1, F2. reflexivity.
  - destruct (Hm _ _ _ H1) as [Hadded _].
    split; [exact Hadded | discriminate].
Qed.

Lemma emits_nothing {A : Type} (allowed : event -> bool) (w : world) :
  exists added : list event,
    trace w = (trace w ++ added)%list /\ forallb allowed added = true.
Proof. exists []. split; [symmetry; apply app_nil_r | reflexivity]. Qed.

Lemma emits_ret {A : Type} (allowed : event -> bool) (post : A -> Prop)
    (a : A) :
  post a -> emits allowed post (ret a).
Proof.
  intros Ha w w' r H. injection H as <- <-.
  split; [apply (@emits_nothing A) | intros b E; injection E as <-; exact Ha].
Qed.

Lemma emits_raise {A : Type} (allowed : event -> bool) (post : A -> Prop)
    (e : exn) :
  emits allowed post (raise e).
Proof.
  intros w w' r H. injection H as <- <-.
  split; [apply (@emits_nothing A) | discriminate].
Qed.

Lemma emits_lift {A : Type} (allowed : event -> bool) (post : A -> Prop)
    (x : result A) :
  (forall a, x = Ok a -> post a) -> emits allowed post (lift x).
Proof.
  intros Hx w w' r H. injection H as <- <-.
  split; [apply (@emits_nothing A) | exact Hx].
Qed.

Lemma emits_emit (allowed : event -> bool) (e : event) :
  allowed e = true -> emits allowed (fun _ => True) (emit e).
Proof.
  intros He w w' r H. injection H as <- <-. cbn [trace].
  split; [|intros; exact I].
  exists [e]. split; [reflexivity|]. cbn [forallb]. rewrite He. reflexivity.
Qed.

Lemma emits_api_get (allowed : event -> bool) (env : environment)
    (p : params) :
  allowed (EvRequest p) = true ->
  emits allowed (fun _ => True) (api_get env p).
Proof.
  intros He w w' r H. injection H as <- <-. cbn [trace].
  split; [|intros; exact I].
  exists [EvRequest p]. split; [reflexivity|].
  cbn [forallb]. rewrite He. reflexivity.
Qed.

Lemma emits_now_utc (allowed : event -> bool) (env : environment) :
  emits allowed (fun _ => True) (now_utc env).
Proof.
  intros w w' r H. injection H as <- <-. cbn [trace].
  split; [apply (@emits_nothing unit) | intros; exact I].
Qed.

Lemma emits_weaken {A : Type} (allowed allowed' : event -> bool)
    (post post' : A -> Prop) (m : M A) :
  (forall e, allowed e = true -> allowed' e = true) ->
  (forall a, post a -> post' a) ->
  emits allowed post m -> emits allowed' post' m.
Proof.
  intros Hev Hpost Hm w w' r H.
  destruct (Hm _ _ _ H) as [(added & E & F) Ha].
  split; [|intros a Er; exact (Hpost a (Ha a Er))].
  exists added. split; [exact E|].
  rewrite forallb_forall in F |- *. intros e He. exact (Hev e (F e He)).
Qed.

Lemma prefix_app (a b : string) : String.prefix a (a ++ b) = true.
Proof.
  induction a as [|c a IH]; [destruct b; reflexivity|].
  cbn [append String.prefix].
  destruct (ascii_dec c c) as [_|Hn]; [exact IH | contradiction].
Qed.

Lemma optional_api_time_some (value : option datetime)
    (text : option string) :
  optional_api_time value = Ok text -> is_some text = is_some value.
Proof.
  destruct value as [t|]; cbn [optional_api_time].
  - destruct (to_api_time t); cbn [bind]; [|discriminate].
    intros E. injection E as <-. reflexivity.
  - intros E. injection E as <-. reflexivity.
Qed.

Section OneFilter.

Variables (env : environment) (filter : key_val)
  (starts_after ends_before : option datetime) (cap : Z)
  (include_ended : bool).

Let allowed : event -> bool :=
  fetch_event filter (is_some starts_after) (is_some ends_before) cap
    include_ended.

Lemma emits_parse_page (payloads : list pyval) :
  forall fetched,
    emits allowed (fun _ => True) (parse_page cap payloads fetched).
Proof.
  induction payloads as [|payload rest IH]; intros fetched;
    cbn [parse_page]; [now apply emits_ret|].
  destruct (parse_contest payload) as [contest|e].
  - destruct (cap_reached cap _); [now apply emits_ret | apply IH].
  - destruct e; try apply emits_raise.
    apply (emits_bind allowed (fun _ => True)); [|intros; apply IH].
    apply emits_emit. apply prefix_app.
Qed.

Lemma emits_fetch_round (fetched : list Contest) (offset : Z) :
  0 <= offset ->
  emits allowed
    (fun ending =>
       match ending with
       | Finished _ => True
       | Again _ offset' => 0 <= offset'
       end)
    (fetch_round env filter starts_after ends_before cap include_ended
       fetched offset).
Proof.
  intros Hoff. unfold fetch_round.
  destruct (negb (cap =? 0) && _) eqn:Ecap; [now apply emits_ret|].
  apply (emits_bind allowed
           (fun text => is_some text = is_some starts_after));
    [apply emits_lift, optional_api_time_some|].
  intros start_gte Hgte.
  apply (emits_bind allowed
           (fun text => is_some text = is_some ends_before));
    [apply emits_lift, optional_api_time_some|].
  intros start_lte Hlte.
  apply (emits_bind allowed
           (fun text => is_some text = negb include_ended)).
  { destruct include_ended; [now apply emits_ret|].
    apply (emits_bind allowed (fun _ => True)); [apply emits_now_utc|].
    intros t _.
    apply (emits_bind allowed (fun _ => True));
      [apply emits_lift; intros; exact I|].
    intros text _. now apply emits_ret. }
  intros end_gte Hend.
  apply (emits_bind allowed (fun _ => True)).
  { apply emits_api_get. unfold allowed, fetch_event.
    cbn [p_filter p_order_by p_offset p_limit p_start_gte p_start_lte
         p_end_gte].
    rewrite Hgte, Hlte, Hend, !eqb_reflx, !andb_true_r.
    assert (Hk : key_val_eqb filter filter = true)
      by (apply key_val_eqb_eq; reflexivity).
    rewrite Hk. cbn [andb]. unfold PAGE_SIZE in *.
    destruct (Z.eqb_spec cap 0) as [Hz|Hne].
    - cbn [orb]. rewrite andb_true_r.
      repeat (apply andb_true_iff; split); apply Z.leb_le; lia.
    - cbn [negb andb orb] in Ecap |- *. apply Z.leb_gt in Ecap.
      repeat (apply andb_true_iff; split); apply Z.leb_le; lia. }
  intros data _.
  apply (emits_bind allowed (fun _ => True));
    [apply emits_lift; intros; exact I|].
  intros objects _.
  destruct (negb (py_truth objects)); [now apply emits_ret|].
  apply (emits_bind allowed (fun _ => True));
    [apply emits_lift; intros; exact I|].
  intros payloads _.
  apply (emits_bind allowed (fun _ => True)); [apply emits_parse_page|].
  intros page _.
  destruct (fst page); [now apply emits_ret|].
  apply (emits_bind allowed (fun _ => True));
    [apply emits_lift; intros; exact I|].
  intros next _.
  destruct (negb (py_truth next)); apply emits_ret; [exact I | lia].
Qed.

Lemma emits_fetch_loop (fuel : nat) :
  forall fetched offset,
    0 <= offset ->
    emits allowed (fun _ => True)
      (fetch_loop fuel env filter starts_after ends_before cap include_ended
         fetched offset).
Proof.
  induction fuel as [|fuel IH]; intros fetched offset Hoff; cbn [fetch_loop].
  - intros w w' r H. discriminate H.
  - eapply emits_bind; [apply (emits_fetch_round fetched offset Hoff)|].
    intros [fetched'|fetched' offset'] Hpost;
      [now apply emits_ret | apply IH; exact Hpost].
Qed.

End OneFilter.

End Emits.

Section EmitsEntryPoints.

Context {runtime : PyRuntime}.

Lemma emits_fetch_filters (fuel : nat) (env : environment)
    (starts_after ends_before : option datetime) (cap : Z)
    (include_ended : bool) (all filters : list key_val) :
  incl filters all ->
  forall contests,
    emits
      (fetch_events all (is_some starts_after) (is_some ends_before) cap
         include_ended)
      (fun _ => True)
      (fetch_filters fuel env filters starts_after ends_before cap
         include_ended contests).
Proof.
  induction filters as [|filter rest IH]; intros Hincl contests;
    cbn [fetch_filters]; [now apply emits_ret|].
  apply (emits_bind _ (fun _ => True)).
  - apply (emits_weaken
             (fetch_event filter (is_some starts_after) (is_some ends_before)
                cap include_ended) _ (fun _ => True));
      [| auto | apply emits_fetch_loop; lia].
    intros e He. unfold fetch_events. apply existsb_exists.
    exists filter. split; [apply Hincl; left; reflexivity | exact He].
  - intros fetched _. apply IH.
    intros x Hx. apply Hincl. right. exact Hx.
Qed.


Lemma emits_sys_exit {A : Type} (allowed : event -> bool) (post : A -> Prop)
    (message : string) :
  allowed (EvStderr message) = true ->
  emits allowed post (sys_exit message).
Proof.
  intros He. unfold sys_exit.
  apply (emits_bind _ (fun _ => True)); [now apply emits_emit|].
  intros _ _. apply emits_raise.
Qed.

Lemma emits_generate_ics (allowed : event -> bool) (env : environment)
    (contests : list Contest) (calendar_name product_id : string) :
  allowed (EvGenerate contests) = true ->
  emits allowed (fun _ => True)
    (generate_ics env contests calendar_name product_id).
Proof.
  intros He. unfold generate_ics.
  apply (emits_bind _ (fun _ => True)); [now apply emits_emit|].
  intros _ _.
  apply (emits_bind _ (fun _ => True)); [apply emits_now_utc|].
  intros stamp _.
  apply (emits_bind _ (fun _ => True)); [apply emits_lift; intros; exact I|].
  intros blocks _. now apply emits_ret.
Qed.

Lemma emits_main_after_fetch (allowed : event -> bool) (env : environment)
    (args : cli_args) (contests : list Contest) :
  (forall e, (forall p, e <> EvRequest p) -> allowed e = true) ->
  emits allowed (fun _ => True) (main_after_fetch env args contests).
Proof.
  intros Hother. unfold main_after_fetch.
  destruct contests as [|c rest].
  - apply emits_sys_exit. apply Hother. discriminate.
  - apply (emits_bind _ (fun _ => True)).
    + apply emits_generate_ics. apply Hother. discriminate.
    + intros text _.
      apply (emits_bind _ (fun _ => True));
        [apply emits_emit, Hother; discriminate|].
      intros _ _. apply emits_emit, Hother. discriminate.
Qed.

Lemma emits_build_after_fetch (allowed : event -> bool) (env : environment)
    (contests : list Contest) :
  (forall e, (forall p, e <> EvRequest p) -> allowed e = true) ->
  emits allowed (fun _ => True) (build_after_fetch env contests).
Proof.
  intros Hother. unfold build_after_fetch.
  destruct contests as [|c rest].
  - apply emits_emit, Hother. discriminate.
  - apply (emits_bind _ (fun _ => True)).
    + apply emits_generate_ics. apply Hother. discriminate.
    + intros text _.
      apply (emits_bind _ (fun _ => True));
        [apply emits_emit, Hother; discriminate|].
      intros _ _. apply emits_emit, Hother. discriminate.
Qed.

Lemma emits_require_env (allowed : event -> bool) (env : environment)
    (name : string) :
  (forall e, (forall p, e <> EvRequest p) -> allowed e = true) ->
  emits allowed (fun _ => True) (require_env env name).
Proof.
  intros Hother. unfold require_env.
  destruct (env_environ env name) as [[|c r]|];
    try (apply emits_sys_exit, Hother; discriminate).
  now apply emits_ret.
Qed.

Lemma scheduled_event_other (e : event) :
  (forall p, e <> EvRequest p) -> scheduled_event e = true.
Proof. destruct e as [p| | | |]; intros H; [now elim (H p) | | | |]; reflexivity. Qed.

(** X12.  However a run of the scheduled build ends, every request it has
    made asks for contests of one of the five default platforms, ordered by
    start, for at least 1 and at most 50 contests, and carries all three
    time bounds: a lower and an upper bound on the start and a lower bound
    on the end. *)
Theorem build_main_requests (fuel : nat) (env : environment) :
  only_emits scheduled_event (build_main fuel env).
Proof.
  unfold only_emits, build_main.
  apply (emits_bind _ (fun _ => True));
    [apply emits_require_env, scheduled_event_other|].
  intros username _.
  apply (emits_bind _ (fun _ => True));
    [apply emits_require_env, scheduled_event_other|].
  intros api_key _.
  apply (emits_bind _ (fun _ => True)); [apply emits_now_utc|].
  intros now _.
  apply (emits_bind _ (fun _ => True)); [apply emits_lift; intros; exact I|].
  intros ends_before _.
  apply (emits_bind _
           (fun filters =>
              resolve_resource_filters DEFAULT_RESOURCES = Ok filters));
    [apply emits_lift; intros a E; exact E|].
  intros filters Hf.
  assert (Ef : filters
               = [ ("resource", FHost "leetcode.com");
                   ("resource", FHost "codeforces.com");
                   ("resource", FHost "atcoder.jp");
                   ("resource", FHost "luogu.com.cn");
                   ("resource", FHost "ac.nowcoder.com") ]).
  { vm_compute in Hf. injection Hf as <-. reflexivity. }
  clear Hf. subst filters.
  apply (emits_bind _ (fun _ => True)).
  - unfold fetch_contests_for_resources.
    eapply emits_weaken;
      [| | apply (emits_fetch_filters fuel env (Some now) (Some ends_before)
                    PER_RESOURCE_LIMIT false _ _ (incl_refl _))].
    + intros e He. destruct e as [p| | | |]; try reflexivity. exact He.
    + auto.
  - intros contests _.
    apply emits_build_after_fetch, scheduled_event_other.
Qed.

Lemma optional_cli_datetime_some (text : option string)
    (value : option datetime) :
  optional_cli_datetime text = Ok value -> is_some value = str_truth text.
Proof.
  destruct text as [[|c r]|]; cbn [optional_cli_datetime str_truth].
  - intros E. injection E as <-. reflexivity.
  - destruct (parse_cli_datetime (String c r)); cbn [bind]; [|discriminate].
    intros E. injection E as <-. reflexivity.
  - intros E. injection E as <-. reflexivity.
Qed.

Lemma cli_event_other (env : environment) (args : cli_args) (e : event) :
  (forall p, e <> EvRequest p) -> cli_event env args e = true.
Proof. destruct e as [p| | | |]; intros H; [now elim (H p) | | | |]; reflexivity. Qed.

(** X13.  However a run of the command line ends, it has made no request
    unless both credentials are present and every resource named resolves;
    and every request it has made is for one of the resolved filters, within
    the page size and the cap, with a lower bound on the start unless ended
    contests are included and no start time was given, an upper bound on the
    start exactly when an end time was given, and a lower bound on the end
    exactly when ended contests are not included. *)
Theorem main_requests (fuel : nat) (env : environment) (args : cli_args) :
  only_emits (cli_event env args) (main fuel env args).
Proof.
  unfold only_emits, main.
  destruct (str_truth (opt_or (arg_username args) _)) eqn:Eu;
    [|apply emits_sys_exit; reflexivity].
  destruct (str_truth (opt_or (arg_api_key args) _)) eqn:Ek;
    [|apply emits_sys_exit; reflexivity].
  cbn [negb orb].
  apply (emits_bind _
           (fun filters =>
              resolve_resource_filters (arg_resources args) = Ok filters)).
  { destruct (resolve_resource_filters (arg_resources args)) as [fs|e].
    - apply emits_lift. intros a E. exact E.
    - destruct e; try (apply emits_lift; discriminate).
      apply emits_sys_exit. reflexivity. }
  intros filters Hf.
  apply (emits_bind _
           (fun value => is_some value = str_truth (arg_starts_after args)));
    [apply emits_lift, optional_cli_datetime_some|].
  intros starts_after Hsa.
  apply (emits_bind _
           (fun value => is_some value = str_truth (arg_ends_before args)));
    [apply emits_lift, optional_cli_datetime_some|].
  intros ends_before Heb.
  apply (emits_bind _
           (fun value =>
              is_some value
              = str_truth (arg_starts_after args)
                || negb (arg_include_ended args))).
  { destruct starts_after as [t|].
    - apply emits_ret. rewrite <- Hsa. reflexivity.
    - rewrite <- Hsa. destruct (arg_include_ended args).
      + now apply emits_ret.
      + apply (emits_bind _ (fun _ => True)); [apply emits_now_utc|].
        intros t _. now apply emits_ret. }
  intros starts_after' Hsa'.
  apply (emits_bind _ (fun _ => True)).
  - unfold fetch_contests_for_resources.
    eapply emits_weaken;
      [| | apply (emits_fetch_filters fuel env starts_after' ends_before
                    (arg_per_resource_limit args) (arg_include_ended args)
                    _ _ (incl_refl _))].
    + intros e He. destruct e as [p| | | |]; try reflexivity.
      unfold cli_event. rewrite Eu, Ek, Hf, <- Hsa', <- Heb. exact He.
    + auto.
  - intros contests _. apply emits_main_after_fetch, cli_event_other.
Qed.

End EmitsEntryPoints.


Lemma build_main_requests_witness :
  exists (r : result unit) (w' : world),
    build_main 3 (one_page_env sample_page) init_world = Some (r, w')
    /\ r = Ok tt
    /\ List.length (requests_of (trace w')) = 5%nat
    /\ (exists added : list event,
          trace w' = (trace init_world ++ added)%list
          /\ forallb scheduled_event added = true).
Proof.
  destruct (build_main 3 (one_page_env sample_page) init_world) as [[r w']|] eqn:E;
    [|vm_compute in E; discriminate].
  exists r, w'. split; [reflexivity|].
  split; [vm_compute in E; injection E as <- <-; reflexivity|].
  split; [vm_compute in E; injection E as <- <-; reflexivity|].
  exact (proj1 (build_main_requests 3 (one_page_env sample_page) init_world w' r E)).
Defined.

Lemma main_requests_witness :
  exists (r : result unit) (w' : world),
    main 3 (one_page_env sample_page) sample_args init_world = Some (r, w')
    /\ r = Ok tt
    /\ List.length (requests_of (trace w')) = 5%nat
    /\ (exists added : list event,
          trace w' = (trace init_world ++ added)%list
          /\ forallb (cli_event (one_page_env sample_page) sample_args) added = true).
Proof.
  destruct (main 3 (one_page_env sample_page) sample_args init_world)
    as [[r w']|] eqn:E; [|vm_compute in E; discriminate].
  exists r, w'. split; [reflexivity|].
  split; [vm_compute in E; injection E as <- <-; reflexivity|].
  split; [vm_compute in E; injection E as <- <-; reflexivity|].
  exact (proj1 (main_requests 3 (one_page_env sample_page) sample_args init_world
                  w' r E)).
Defined.

(** ** Fetching for several filters *)

Section FetchAll.

Context {runtime : PyRuntime}.

Variables (env : environment).
Variables (starts_after ends_before : option datetime).
Variables (cap : Z) (include_ended : bool).

Lemma fetch_loop_calls (filter : key_val) (fuel : nat) :
  forall (fetched : list Contest) (offset : Z) (w w' : world)
         (result : list Contest),
    fetch_loop fuel env filter starts_after ends_before cap include_ended
      fetched offset w = Some (Ok result, w') ->
    exists requests : list params,
      requests_of (trace w') = (requests_of (trace w) ++ requests)%list
      /\ calls w' = (calls w + List.length requests)%nat
      /\ Paginate env filter cap (calls w) offset fetched requests result.
Proof.
  induction fuel as [|fuel IH]; intros fetched offset w w' result H;
    [discriminate|].
  cbn [fetch_loop] in H. apply mbind_inv in H as (ending & w1 & Hround & H).
  apply fetch_round_spec in Hround as (requests & Hreqs & Hcalls & Hround).
  destruct ending as [fetched'|fetched' offset'].
  - apply ret_inv in H as [-> ->]. exists requests.
    split; [exact Hreqs|]. split; [exact Hcalls|]. now apply Pg_finish.
  - destruct (IH _ _ _ _ _ H) as (requests' & Hreqs' & Hcalls' & Hpag).
    inversion Hround; subst.
    exists (p :: requests'). split; [|split].
    + rewrite Hreqs', Hreqs, <- List.app_assoc. reflexivity.
    + rewrite Hcalls', Hcalls. cbn [List.length]. lia.
    + eapply Pg_again; [eassumption|].
      replace (S (calls w)) with (calls w1)
        by (rewrite Hcalls; cbn [List.length]; lia).
      exact Hpag.
Qed.

Lemma fetch_filters_spec (fuel : nat) (filters : list key_val) :
  forall (contests : list Contest) (w w' : world) (result : list Contest),
    fetch_filters fuel env filters starts_after ends_before cap include_ended
      contests w = Some (Ok result, w') ->
    exists (requests : list params) (fetched : list Contest),
      result = (contests ++ fetched)%list
      /\ requests_of (trace w') = (requests_of (trace w) ++ requests)%list
      /\ calls w' = (calls w + List.length requests)%nat
      /\ PaginateAll env cap (calls w) filters requests fetched.
Proof.
  induction filters as [|filter rest IH]; intros contests w w' result H.
  - apply ret_inv in H as [-> ->]. exists [], [].
    rewrite !app_nil_r, Nat.add_0_r. repeat split. apply PA_done.
  - cbn [fetch_filters] in H.
    apply mbind_inv in H as (part & w1 & Hone & H).
    apply fetch_loop_calls in Hone as (requests & Hreqs & Hcalls & Hpag).
    destruct (IH _ _ _ _ H) as (requests' & fetched & -> & Hreqs' & Hcalls' & Hall).
    exists (requests ++ requests')%list, (part ++ fetched)%list.
    split; [symmetry; apply app_assoc|]. split; [|split].
    + rewrite Hreqs', Hreqs. symmetry. apply app_assoc.
    + rewrite Hcalls', Hcalls, length_app. lia.
    + apply PA_next; [exact Hpag|]. rewrite <- Hcalls. exact Hall.
Qed.

End FetchAll.

Lemma PaginateAll_length {runtime : PyRuntime} (env : environment) (cap : Z)
    (n : nat) (filters : list key_val) (requests : list params)
    (result : list Contest) :
  PaginateAll env cap n filters requests result ->
  0 < cap ->
  Z.of_nat (List.length result) <= cap * Z.of_nat (List.length filters).
Proof.
  induction 1 as [n|n filter rest requests requests' part result Hpag _ IH];
    intros Hcap.
  - cbn. lia.
  - assert (Hpart := Paginate_length _ _ _ _ _ _ _ _ Hpag Hcap).
    cbn [List.length] in Hpart. specialize (Hpart ltac:(lia)).
    specialize (IH Hcap). rewrite length_app. cbn [List.length]. nia.
Qed.

(** X14.  A fetch for several filters that returns has run one pagination
    for each filter, in the order of the filters, every one from the offset
    0 and with the cap to itself; its result is the results of the filters
    one after the other, its requests are theirs one after the other, and
    with a cap in force it holds no more contests than the cap times the
    number of filters. *)
Theorem fetch_contests_for_resources_per_filter {runtime : PyRuntime}
    (fuel : nat) (env : environment) (filters : list key_val)
    (starts_after ends_before : option datetime) (cap : Z)
    (include_ended : bool) (w w' : world) (result : list Contest) :
  fetch_contests_for_resources fuel env filters starts_after ends_before cap
    include_ended w = Some (Ok result, w') ->
  exists requests : list params,
    requests_of (trace w') = (requests_of (trace w) ++ requests)%list
    /\ calls w' = (calls w + List.length requests)%nat
    /\ PaginateAll env cap (calls w) filters requests result
    /\ (0 < cap ->
        Z.of_nat (List.length result)
        <= cap * Z.of_nat (List.length filters)).
Proof.
  intros H. unfold fetch_contests_for_resources in H.
  apply fetch_filters_spec in H
    as (requests & fetched & -> & Hreqs & Hcalls & Hall).
  exists requests. cbn [List.app].
  split; [exact Hreqs|]. split; [exact Hcalls|]. split; [exact Hall|].
  exact (PaginateAll_length _ _ _ _ _ _ Hall).
Qed.

Lemma fetch_contests_for_resources_per_filter_witness :
  let filters :=
    [("resource", FHost "codeforces.com"); ("resource_id", FId 93)] in
  exists (result : list Contest) (w' : world),
    fetch_contests_for_resources 5 three_contests_env filters None None 2 true
      init_world = Some (Ok result, w')
    /\ map contest_id result = [1; 2; 1; 2]
    /\ exists requests : list params,
         requests_of (trace w')
         = (requests_of (trace init_world) ++ requests)%list
         /\ calls w' = (calls init_world + List.length requests)%nat
         /\ PaginateAll three_contests_env 2 (calls init_world) filters
              requests result
         /\ (0 < 2 ->
             Z.of_nat (List.length result)
             <= 2 * Z.of_nat (List.length filters)).
Proof.
  intros filters.
  destruct (fetch_contests_for_resources 5 three_contests_env filters None None
              2 true init_world) as [[[result|e] w']|] eqn:E;
    [| vm_compute in E; discriminate | vm_compute in E; discriminate].
  exists result, w'. split; [reflexivity|].
  split; [vm_compute in E; injection E as <- <-; reflexivity|].
  exact (fetch_contests_for_resources_per_filter 5 three_contests_env filters
           None None 2 true init_world w' result E).
Defined.

(** ** A run that succeeds *)






Section Success.

Context {runtime : PyRuntime}.





End Success.


(** ** The calendar [generate_ics] writes *)







Section Calendar.

Context {runtime : PyRuntime}.


End Calendar.


(** ** The length of a contest *)




(** ** The other prompts of the helper *)

Section PromptFacts.

Context {runtime : PyRuntime}.

Lemma str_strip_cons_fixed (typed : string) (c : ascii) (r : string) :
  str_strip typed = String c r -> str_strip (String c r) = String c r.
Proof. intros E. rewrite <- E. apply str_strip_idempotent. Qed.

(** X18.  Whatever is typed, [prompt_non_empty] hands back a text that is
    not empty and has no white space at either end, and
    [prompt_menu_choice] hands back the default or one of the options. *)
Theorem prompt_answers_valid :
  (forall (message : string) (pending : list string)
          (shown : list shown_text) (value : string) (rest : list string)
          (shown' : list shown_text),
     prompt_non_empty message pending shown = Answered value rest shown' ->
     value <> EmptyString /\ str_strip value = value)
  /\ (forall (default : string) (options pending : list string)
             (shown : list shown_text) (choice : string)
             (rest : list string) (shown' : list shown_text),
        prompt_menu_choice default options pending shown
        = Answered choice rest shown' ->
        choice = default \/ In choice options).
Proof.
  split.
  - intros message pending. induction pending as [|typed pending IH];
      intros shown value rest shown'; [discriminate|].
    cbn [prompt_non_empty].
    destruct (str_strip typed) as [|c r] eqn:E; [apply IH|].
    intros H. injection H as <- _ _.
    split; [discriminate | exact (str_strip_cons_fixed typed c r E)].
  - intros default options pending. induction pending as [|typed pending IH];
      intros shown choice rest shown'; [discriminate|].
    cbn [prompt_menu_choice].
    destruct (str_strip typed) as [|c r] eqn:E.
    + intros H. injection H as <- _ _. left. reflexivity.
    + destruct (existsb (String.eqb (String c r)) options) eqn:Eo; [|apply IH].
      intros H. injection H as <- _ _. right.
      apply existsb_exists in Eo. destruct Eo as (x & Hx & Heq).
      apply String.eqb_eq in Heq. subst x. exact Hx.
Qed.

End PromptFacts.

Lemma prompt_answers_valid_witness :
  prompt_non_empty "CLIST username: " ["   "; "  alice "; "2"] []
  = Answered "alice" ["2"]
      [ Prompt "CLIST username: ";
        Line "Value cannot be empty. Please try again.";
        Prompt "CLIST username: " ]
  /\ ("alice" <> EmptyString /\ str_strip "alice" = "alice")
  /\ prompt_menu_choice "1" ["1"; "2"] ["3"; " 2 "] []
     = Answered "2" []
         [ Prompt "Enter choice [1]: ";
           Line "Invalid choice, please try again.";
           Prompt "Enter choice [1]: " ]
  /\ ("2" = "1" \/ In "2" ["1"; "2"]).
Proof.
  assert (H1 : prompt_non_empty "CLIST username: " ["   "; "  alice "; "2"] []
               = Answered "alice" ["2"]
                   [ Prompt "CLIST username: ";
                     Line "Value cannot be empty. Please try again.";
                     Prompt "CLIST username: " ]) by (vm_compute; reflexivity).
  assert (H2 : prompt_menu_choice "1" ["1"; "2"] ["3"; " 2 "] []
               = Answered "2" []
                   [ Prompt "Enter choice [1]: ";
                     Line "Invalid choice, please try again.";
                     Prompt "Enter choice [1]: " ]) by (vm_compute; reflexivity).
  split; [exact H1|].
  split; [exact (proj1 prompt_answers_valid _ _ _ _ _ _ H1)|].
  split; [exact H2|].
  exact (proj2 prompt_answers_valid _ _ _ _ _ _ _ H2).
Defined.

Section BuildSuccess.

Context {runtime : PyRuntime}.



End BuildSuccess.


(** ** The command the helper runs *)

Section HelperCommand.

Context {runtime : PyRuntime}.

Lemma prompt_datetime_passed (message : string) (pending : list string) :
  forall (shown : list shown_text) (value : option string)
         (rest : list string) (shown' : list shown_text),
    prompt_datetime message pending shown = Answered value rest shown' ->
    passed_timestamp value.
Proof.
  induction pending as [|typed pending IH]; intros shown value rest shown';
    [discriminate|].
  cbn [prompt_datetime].
  destruct (str_strip typed) as [|c r].
  - intros E. injection E as <- _ _. exact I.
  - destruct (is_valid_iso_datetime (String c r)) eqn:Ev; [|apply IH].
    intros E. injection E as <- _ _. cbn [passed_timestamp].
    split; [|split].
    + unfold canonicalize_iso. destruct (str_endswith "Z"%char (String c r)).
      * destruct (str_drop_last (String c r)); discriminate.
      * discriminate.
    + apply canonicalize_iso_no_zulu.
    + unfold is_valid_iso_datetime in Ev.
      destruct (fromisoformat (canonicalize_iso (String c r))) as [parsed|];
        [exists parsed; reflexivity | discriminate].
Qed.

Lemma prompt_non_empty_answer (message : string) (pending : list string) :
  forall (shown : list shown_text) (value : string) (rest : list string)
         (shown' : list shown_text),
    prompt_non_empty message pending shown = Answered value rest shown' ->
    value <> EmptyString.
Proof.
  induction pending as [|typed pending IH]; intros shown value rest shown';
    [discriminate|].
  cbn [prompt_non_empty]. destruct (str_strip typed) as [|c r]; [apply IH|].
  intros E. injection E as <- _ _. discriminate.
Qed.

Lemma prompt_secret_answer (message : string) (pending : list string) :
  forall (shown : list shown_text) (value : string) (rest : list string)
         (shown' : list shown_text),
    prompt_secret message pending shown = Answered value rest shown' ->
    value <> EmptyString.
Proof.
  induction pending as [|typed pending IH]; intros shown value rest shown';
    [discriminate|].
  cbn [prompt_secret]. destruct (str_strip typed) as [|c r]; [apply IH|].
  intros E. injection E as <- _ _. discriminate.
Qed.

Lemma enter_and_save_origin (file : stored_file) (pending : list string)
    (shown : list shown_text) (data : credentials) (file' : stored_file)
    (rest : list string) (shown' : list shown_text) :
  enter_and_save pending shown = Answered (data, file') rest shown' ->
  credentials_origin file file' data.
Proof.
  unfold enter_and_save, prompt_new_credentials.
  destruct (prompt_non_empty _ pending shown) as [username p1 s1|s1] eqn:Eu;
    [|discriminate].
  destruct (prompt_secret _ p1 _) as [api_key p2 s2|s2] eqn:Ek;
    [|discriminate].
  cbn [save_credentials cred_username cred_api_key].
  intros E. injection E as <- <- _ _. right.
  cbn [cred_username cred_api_key].
  split; [reflexivity|].
  split; [exact (prompt_non_empty_answer _ _ _ _ _ _ Eu)
         | exact (prompt_secret_answer _ _ _ _ _ _ Ek)].
Qed.

Lemma select_credentials_origin (file : stored_file) (pending : list string)
    (shown : list shown_text) (data : credentials) (file' : stored_file)
    (rest : list string) (shown' : list shown_text) :
  select_credentials file pending shown = Answered (data, file') rest shown' ->
  credentials_origin file file' data.
Proof.
  unfold select_credentials.
  destruct (load_saved_credentials file shown) as [saved s0] eqn:El.
  destruct saved as [held|]; [|apply enter_and_save_origin].
  destruct (prompt_menu_choice "1" ["1"; "2"] pending _)
    as [choice p1 s1|s1]; [|discriminate].
  destruct (String.eqb choice "1").
  - intros E. injection E as <- <- _ _. left. split; [reflexivity|].
    unfold load_saved_credentials in El.
    destruct file as [| | |members]; try discriminate El.
    exists members. split; [reflexivity|].
    destruct (member_string members "username") as [u|]; [|discriminate El].
    destruct (member_string members "api_key") as [k|]; [|discriminate El].
    injection El as <- _. split; reflexivity.
  - destruct (delete_saved_credentials file s1) as [file1 s2].
    intros E. exact (enter_and_save_origin file _ _ _ _ _ _ E).
Qed.

(** X20.  A run of the helper that gets as far as running the exporter runs
    it with this command and ends with its status: the interpreter, the
    script, the user name and the API key, the output path, which is never
    empty, then [--starts-after] and [--ends-before] each with a timestamp
    that [datetime.fromisoformat] accepts, or left out, then
    [--include-ended] or nothing.  The credentials are those the file held,
    or ones just typed, not empty, which the file holds afterwards. *)
Theorem helper_main_command (executable : string) (run : list string -> Z)
    (file : stored_file) (pending rest : list string) (outcome : helper_run)
    (shown : list shown_text) :
  helper_main executable run file pending = Answered outcome rest shown ->
  exists (data : credentials) (starts_after ends_before : option string)
         (include_ended : bool) (output_path : string),
    run_command outcome
    = ([ executable; "clist_to_ics.py"; "--username"; cred_username data;
         "--api-key"; cred_api_key data; "--output"; output_path ]
       ++ timestamp_arguments "--starts-after" starts_after
       ++ timestamp_arguments "--ends-before" ends_before
       ++ (if include_ended then ["--include-ended"] else []))%list
    /\ output_path <> EmptyString
    /\ passed_timestamp starts_after
    /\ passed_timestamp ends_before
    /\ run_status outcome = run (run_command outcome)
    /\ credentials_origin file (run_file outcome) data.
Proof.
  unfold helper_main.
  destruct (select_credentials file pending _) as [[data file'] p1 s1|s1] eqn:Ec;
    [|discriminate].
  destruct (prompt_datetime _ p1 s1) as [starts_after p2 s2|s2] eqn:Es;
    [|discriminate].
  destruct (prompt_datetime _ p2 s2) as [ends_before p3 s3|s3] eqn:Ee;
    [|discriminate].
  destruct (prompt_yes_no _ false p3 s3) as [include_ended p4 s4|s4];
    [|discriminate].
  destruct (input_or _ _ p4 s4) as [output_path p5 s5|s5] eqn:Eo;
    [|discriminate].
  intros E. injection E as <- _ _.
  cbn [run_command run_status run_file].
  assert (Hsa := prompt_datetime_passed _ _ _ _ _ _ Es).
  assert (Heb := prompt_datetime_passed _ _ _ _ _ _ Ee).
  exists data, starts_after, ends_before, include_ended, output_path.
  split.
  { unfold helper_command.
    destruct starts_after as [[|c r]|];
      [exfalso; exact (proj1 Hsa eq_refl) | |];
      destruct ends_before as [[|c' r']|];
      try (exfalso; exact (proj1 Heb eq_refl));
      destruct include_ended; cbn [str_truth timestamp_arguments];
      rewrite <- ?app_assoc; reflexivity. }
  split.
  { unfold input_or in Eo. destruct p4 as [|typed p4]; [discriminate|].
    injection Eo as <- _ _. destruct (str_strip typed); discriminate. }
  split; [exact Hsa|]. split; [exact Heb|]. split; [reflexivity|].
  exact (select_credentials_origin _ _ _ _ _ _ _ Ec).
Qed.

End HelperCommand.

Lemma helper_main_command_witness :
  exists (outcome : helper_run) (shown : list shown_text),
    helper_main "python3" (fun _ => 0%Z)
      (Stored [("username", Some "alice"); ("api_key", Some "k1")])
      ["2"; " bob "; ""; "k2"; "2025-01-01T00:00:00Z"; ""; "Y"; ""]
    = Answered outcome [] shown
    /\ run_command outcome
       = [ "python3"; "clist_to_ics.py"; "--username"; "bob"; "--api-key"; "k2";
           "--output"; "contests.ics"; "--starts-after";
           "2025-01-01T00:00:00+00:00"; "--include-ended" ]
    /\ exists (data : credentials) (starts_after ends_before : option string)
              (include_ended : bool) (output_path : string),
         run_command outcome
         = ([ "python3"; "clist_to_ics.py"; "--username"; cred_username data;
              "--api-key"; cred_api_key data; "--output"; output_path ]
            ++ timestamp_arguments "--starts-after" starts_after
            ++ timestamp_arguments "--ends-before" ends_before
            ++ (if include_ended then ["--include-ended"] else []))%list
         /\ output_path <> EmptyString
         /\ passed_timestamp starts_after
         /\ passed_timestamp ends_before
         /\ run_status outcome = 0%Z
         /\ credentials_origin
              (Stored [("username", Some "alice"); ("api_key", Some "k1")])
              (run_file outcome) data.
Proof.
  eexists. eexists.
  split; [vm_compute; reflexivity|]. split; [reflexivity|].
  refine (helper_main_command "python3" (fun _ => 0%Z)
            (Stored [("username", Some "alice"); ("api_key", Some "k1")])
            ["2"; " bob "; ""; "k2"; "2025-01-01T00:00:00Z"; ""; "Y"; ""]
            [] _ _ _).
  vm_compute. reflexivity.
Defined.
